(** * ai_tooling: the ticket-to-merge-request pipeline

    A shallow embedding of the TypeScript sources of the [jira-test]
    command: the two response cleaners ([TemplateAnalyzer.cleanJsonResponse],
    [CodeGenerator.cleanGeneratedCode]), the metadata extractor
    ([TemplateAnalyzer.analyzeTicketDescription]), the repository publisher
    ([GitLabManager], in its two versions) and the command handler
    ([handleCommand]).

    JavaScript strings are modelled as [string]: sequences of code units
    below 256 (Latin-1).  Effects (console, working directory, file system,
    exceptions) are threaded explicitly through a state-and-exception monad
    in which, as in JavaScript, a [throw] keeps every effect performed so
    far. *)

From Stdlib Require Import String Ascii List Bool Arith Lia ZArith DecimalString.
Import ListNotations.
Local Open Scope string_scope.

Set Implicit Arguments.

(* ================================================================== *)
(** * JavaScript string primitives *)
(* ================================================================== *)

Module Str.

(** The backtick, U+0060. *)
Definition tick : ascii := "`"%char.

(** The line feed, U+000A. *)
Definition lf : ascii := "010"%char.

Definition nl : string := String lf EmptyString.

(** [s.startsWith(p)]. *)
Definition startsWith (s p : string) : bool := String.prefix p s.

(** [s.substring(n)]: the string without its first [n] code units. *)
Fixpoint drop (n : nat) (s : string) : string :=
  match n, s with
  | O, _ => s
  | S _, EmptyString => EmptyString
  | S k, String _ r => drop k r
  end.

(** [s.includes(p)]: [p] occurs somewhere in [s]. *)
Fixpoint includes (s p : string) : bool :=
  String.prefix p s ||
  match s with
  | EmptyString => false
  | String _ r => includes r p
  end.

(** White space and line terminators as [String.prototype.trim] sees them,
    among the code units below 256: TAB, LF, VT, FF, CR, SPACE, NBSP. *)
Definition isSpace (c : ascii) : bool :=
  let n := nat_of_ascii c in
  ((9 <=? n)%nat && (n <=? 13)%nat) || (n =? 32)%nat || (n =? 160)%nat.

Fixpoint trimStart (s : string) : string :=
  match s with
  | EmptyString => EmptyString
  | String c r => if isSpace c then trimStart r else s
  end.

Fixpoint trimEnd (s : string) : string :=
  match s with
  | EmptyString => EmptyString
  | String c r =>
      match trimEnd r with
      | EmptyString => if isSpace c then EmptyString else String c EmptyString
      | r' => String c r'
      end
  end.

(** [s.trim()]. *)
Definition trim (s : string) : string := trimEnd (trimStart s).

(** [s.endsWith("`")]. *)
Fixpoint endsWithTick (s : string) : bool :=
  match s with
  | EmptyString => false
  | String c EmptyString => Ascii.eqb c tick
  | String _ r => endsWithTick r
  end.

(** [s.substring(0, s.length - 1)]. *)
Fixpoint dropLast (s : string) : string :=
  match s with
  | EmptyString => EmptyString
  | String _ EmptyString => EmptyString
  | String c r => String c (dropLast r)
  end.

(** [c.toLowerCase()] on one code unit below 256: A-Z, and the Latin-1
    capitals U+00C0-U+00DE except the multiplication sign U+00D7. *)
Definition lowerChar (c : ascii) : ascii :=
  let n := nat_of_ascii c in
  if ((65 <=? n)%nat && (n <=? 90)%nat) ||
     ((192 <=? n)%nat && (n <=? 222)%nat && negb (n =? 215)%nat)
  then ascii_of_nat (n + 32) else c.

(** [s.toLowerCase()]. *)
Fixpoint toLowerCase (s : string) : string :=
  match s with
  | EmptyString => EmptyString
  | String c r => String (lowerChar c) (toLowerCase r)
  end.

(** [s.replace(pat, rep)] with a string pattern: the first occurrence of
    [pat] is replaced ([rep] holds no dollar sign wherever the code uses
    it). *)
Fixpoint replaceFirst (pat rep s : string) : string :=
  if String.prefix pat s then rep ++ drop (String.length pat) s
  else match s with
       | EmptyString => EmptyString
       | String c r => String c (replaceFirst pat rep r)
       end.

(** [s.split('/').pop()]: what follows the last slash. *)
Fixpoint lastSegment (s : string) : string :=
  match s with
  | EmptyString => EmptyString
  | String c r =>
      if includes r "/" then lastSegment r
      else if Ascii.eqb c "/"%char then r else s
  end.

(** The line terminators below 256, which the dot of a regular expression
    does not match: LF and CR. *)
Definition isEol (c : ascii) : bool :=
  Ascii.eqb c lf || Ascii.eqb c "013"%char.

Fixpoint untilEol (s : string) : string :=
  match s with
  | EmptyString => EmptyString
  | String c r => if isEol c then EmptyString else String c (untilEol r)
  end.

(** [s.match] on the pattern [HEAD branch: ] followed by a capture of the
    rest of the line: the capture of the first match, or [None] when
    there is no match. *)
Fixpoint matchHeadBranch (s : string) : option string :=
  if String.prefix "HEAD branch: " s
  then Some (untilEol (drop 13 s))
  else match s with
       | EmptyString => None
       | String _ r => matchHeadBranch r
       end.

(** The double quote, U+0022. *)
Definition dq : string := String "034"%char EmptyString.

(** [s.split('/')]: the pieces between the slashes, empty ones included. *)
Fixpoint splitSlash (s : string) : list string :=
  match s with
  | EmptyString => [EmptyString]
  | String c r =>
      if Ascii.eqb c "/"%char then EmptyString :: splitSlash r
      else match splitSlash r with
           | piece :: rest => String c piece :: rest
           | [] => [String c EmptyString]
           end
  end.

(** The text holds no line terminator. *)
Fixpoint oneLine (s : string) : bool :=
  match s with
  | EmptyString => true
  | String c r => negb (isEol c) && oneLine r
  end.

(** ** Global replacement of a literal followed by an optional line feed

    [s.replace(/LIT\n?/g, '')] scans [s] from left to right; wherever the
    literal [LIT] starts, it and one directly following line feed are
    dropped and the scan resumes behind them; any other code unit is kept.
    The scanner below walks the string once: [Scanning] looks for the
    literal, [InMatch k] drops the [k] code units of it that remain, and
    [AfterMatch] drops the optional line feed. *)
Inductive scan : Type :=
| Scanning
| InMatch (remaining : nat)
| AfterMatch.

Definition enter (remaining : nat) : scan :=
  match remaining with
  | O => AfterMatch
  | S _ => InMatch remaining
  end.

Fixpoint removeAll (lit : string) (st : scan) (s : string) : string :=
  match s with
  | EmptyString => EmptyString
  | String c r =>
      let look :=
        if String.prefix lit s
        then removeAll lit (enter (String.length lit - 1)) r
        else String c (removeAll lit Scanning r) in
      match st with
      | InMatch (S k) => removeAll lit (enter k) r
      | InMatch O => look
      | AfterMatch => if Ascii.eqb c lf then removeAll lit Scanning r else look
      | Scanning => look
      end
  end.

End Str.

(* ================================================================== *)
(** * Stripping markdown fences from a completion *)
(* ================================================================== *)

Module Clean.
Import Str.

(** Lines 61-71 of TemplateAnalyzer.ts, shared word for word by the code
    generator: drop one leading backtick, drop one trailing backtick,
    trim. *)
Definition stripTicks (cleaned : string) : string :=
  let cleaned := if startsWith cleaned "`" then drop 1 cleaned else cleaned in
  let cleaned := if endsWithTick cleaned then dropLast cleaned else cleaned in
  trim cleaned.

(** Lines 58-71: trim, then the above. *)
Definition finish (cleaned : string) : string := stripTicks (trim cleaned).

(** [TemplateAnalyzer.cleanJsonResponse]. *)
Definition cleanJsonResponse (text : string) : string :=
  let cleaned :=
    removeAll "```" Scanning (removeAll "```json" Scanning text) in
  let cleaned := trim cleaned in
  let cleaned := if startsWith cleaned "`" then drop 1 cleaned else cleaned in
  let cleaned := if endsWithTick cleaned then dropLast cleaned else cleaned in
  trim cleaned.

(** [CodeGenerator.cleanGeneratedCode]. *)
Definition cleanGeneratedCode (code : string) : string :=
  let cleaned :=
    removeAll "```" Scanning (removeAll "```html" Scanning code) in
  let cleaned := trim cleaned in
  let cleaned := if startsWith cleaned "`" then drop 1 cleaned else cleaned in
  let cleaned := if endsWithTick cleaned then dropLast cleaned else cleaned in
  trim cleaned.

(** ** Words of the specification *)

(** A text inside a fenced code block: the opening fence with its language
    tag (empty for none), a line feed, the text, a line feed, the closing
    fence. *)
Definition fenced (tag text : string) : string :=
  "```" ++ tag ++ nl ++ text ++ nl ++ "```".







End Clean.

(* ================================================================== *)
(** * Values, exceptions and the process state *)
(* ================================================================== *)

Module Js.
Import Str.

(** A number produced by [JSON.parse], through the two things the code
    does with one: it tests its truthiness (zero is falsy) and prints it
    in a template literal.  [String(n)] has fractions and, from 1e21 on,
    an exponent; the model keeps the text JavaScript prints rather than
    computing it. *)
Record number : Type := Number {
  nonzero : bool;
  printed : string
}.

(** A value produced by [JSON.parse]. *)
#[warnings="-register-all"]
Inductive json : Type :=
| JNull
| JBool (b : bool)
| JNumber (n : number)
| JString (s : string)
| JArray (items : list json)
| JObject (members : list (string * json)).

(** The decimal rendering of an integer, as a template literal prints the
    numeric id of a project. *)
Definition showZ (n : Z) : string :=
  DecimalString.NilZero.string_of_int (Z.to_int n).

Fixpoint join (sep : string) (parts : list string) : string :=
  match parts with
  | [] => EmptyString
  | [x] => x
  | x :: rest => x ++ sep ++ join sep rest
  end.

(** [String(v)], the conversion a template literal applies. *)
Fixpoint toStr (j : json) : string :=
  match j with
  | JNull => "null"
  | JBool true => "true"
  | JBool false => "false"
  | JNumber n => printed n
  | JString s => s
  | JArray items =>
      join ","
        ((fix elems (l : list json) : list string :=
            match l with
            | [] => []
            | JNull :: r => EmptyString :: elems r
            | x :: r => toStr x :: elems r
            end) items)
  | JObject _ => "[object Object]"
  end.

(** [v.key] on a value that is neither [null] nor [undefined]; [None] is
    [undefined].  The seven property names the code reads are not
    properties of any primitive or array. *)
Fixpoint lookup (key : string) (members : list (string * json)) : option json :=
  match members with
  | [] => None
  | (k, v) :: rest => if String.eqb k key then Some v else lookup key rest
  end.

Definition member (key : string) (j : json) : option json :=
  match j with
  | JObject members => lookup key members
  | _ => None
  end.

(** [v.key = x] on an object. *)
Fixpoint assign (key : string) (x : json) (members : list (string * json))
  : list (string * json) :=
  match members with
  | [] => [(key, x)]
  | (k, v) :: rest =>
      if String.eqb k key then (k, x) :: rest else (k, v) :: assign key x rest
  end.

(** Truthiness of a value, and of a possibly [undefined] one. *)
Definition truthy (j : json) : bool :=
  match j with
  | JNull => false
  | JBool b => b
  | JNumber n => nonzero n
  | JString s => negb (String.eqb s EmptyString)
  | JArray _ | JObject _ => true
  end.

Definition truthyOpt (v : option json) : bool :=
  match v with
  | Some j => truthy j
  | None => false
  end.

(** An [Error] object, observed through its [message]: what [new Error]
    builds, and what [execSync], [fs], [process.chdir] and [JSON.parse]
    throw. *)
Record error : Type := Error { message : string }.

(** What a [catch] clause may receive.  JavaScript throws any value, and
    the promise of a client library may be rejected with any value.
    Reading [message] works on every value but [null] and [undefined]:
    [Object e] is such a value, an [Error] object as a rule, and
    [message e] is what its message prints as. *)
Inductive thrown : Type :=
| Object (e : error)
| Null
| Undefined.
Coercion Object : error >-> thrown.

(** How a call ends: it returns a value or throws one of [T]. *)
Inductive completion (T A : Type) : Type :=
| Return (a : A)
| Throw (t : T).
Arguments Return {T A} a.
Arguments Throw {T A} & t.
Arguments pair {A B} & a b.

(** Absolute paths, as the list of their segments below the root. *)
Definition path : Type := list string.

Fixpoint path_eqb (p q : path) : bool :=
  match p, q with
  | [], [] => true
  | a :: p', b :: q' => String.eqb a b && path_eqb p' q'
  | _, _ => false
  end.

(** [under p q]: [q] is [p] or lies below it. *)
Fixpoint under (p q : path) : bool :=
  match p, q with
  | [], _ => true
  | a :: p', b :: q' => String.eqb a b && under p' q'
  | _ :: _, [] => false
  end.

(** Arguments of a console call. *)
Inductive shown : Type :=
| VStr (s : string)
| VErr (e : thrown)
| VJson (j : json)
| VOptions (task : option string) (createMr : bool).

(** One call of [console.log] or [console.error]. *)
Inductive entry : Type :=
| Log (args : list shown)
| LogError (args : list shown).

(** What leaves the process: child processes and API requests. *)
Inductive request : Type :=
| Spawn (command : string) (cwd : path)
| FindIssue (taskId : string)
| GenerateContent (description ticketKey : string)
| MessagesCreate (templateName description variables : json)
| ProjectsShow (projectPath : string)
| ProjectsAll (search : string)
| MergeRequestsCreate (projectId : Z) (source target title description : string).

(** The process state the code reads and writes. *)
Record world : Type := World {
  cwd : path;                       (* process.cwd() *)
  dirs : list path;                 (* directories that exist *)
  files : list (path * string);     (* files and their contents *)
  console : list entry;             (* console output, oldest first *)
  requests : list request;          (* outbound calls, oldest first *)
  defaultBranch : string            (* GitLabManager's mutable field *)
}.

(** A hosting project as the GitLab client returns it. *)
Record project : Type := Project {
  id : Z;
  name : string;
  path_ : string;
  path_with_namespace : string;
  default_branch : option string
}.

(** A content block of an Anthropic message. *)
Inductive block : Type :=
| TextBlock (text : string)
| OtherBlock.

(** An issue as the tracker client returns it. *)
Record issue : Type := Issue {
  key : string;
  summary : string;
  statusName : string;
  issueDescription : option string
}.

(** The collaborators outside the program: what each external call
    answers, and which file-system operations fail. *)
Record env : Type := Env {
  execSync : string -> path -> completion error string;
  JSON_parse : string -> completion error json;
  generateContent : string -> string -> completion thrown string;
  messagesCreate : json -> json -> json -> completion thrown (list block);
  findIssue : string -> completion thrown issue;
  projectsShow : string -> completion thrown project;
  projectsAll : string -> completion thrown (list project);
  mergeRequestsCreate :
    Z -> string -> string -> string -> string -> completion thrown string;
  rmFails : path -> option error;
  mkdirFails : path -> option error;
  writeFails : path -> option error
}.

(** Computations: they read and write the world and return or throw; a
    throw keeps the world as it is at that moment. *)
Definition M (A : Type) : Type := world -> completion thrown A * world.

Definition ret {A} (a : A) : M A := fun w => (Return a, w).

Definition throw {A} (e : thrown) : M A := fun w => (Throw e, w).

Definition bind {A B} (m : M A) (k : A -> M B) : M B :=
  fun w =>
    match m w with
    | (Return a, w') => k a w'
    | (Throw e, w') => (Throw e, w')
    end.

(** [try { m } catch (e) { h e }]. *)
Definition try_catch {A} (m : M A) (h : thrown -> M A) : M A :=
  fun w =>
    match m w with
    | (Return a, w') => (Return a, w')
    | (Throw e, w') => h e w'
    end.

(** The answer of a client library: its promise is fulfilled, or
    rejected with whatever the library rejects with. *)
Definition answer {A} (c : completion thrown A) : M A := fun w => (c, w).

(** The answer of a built-in of Node or of the language: what it throws
    is an [Error] object. *)
Definition builtin {A} (c : completion error A) : M A :=
  fun w =>
    match c with
    | Return a => (Return a, w)
    | Throw e => (Throw (Object e), w)
    end.

(** [error.message] on a caught value: reading a property of [null] or
    [undefined] is a [TypeError]. *)
Definition readMessage (caught : thrown) : M string :=
  match caught with
  | Object e => ret (message e)
  | Null =>
      throw (Error "Cannot read properties of null (reading 'message')")
  | Undefined =>
      throw (Error "Cannot read properties of undefined (reading 'message')")
  end.

Definition get : M world := fun w => (Return w, w).

Definition modify (f : world -> world) : M unit := fun w => (Return tt, f w).

Declare Scope js_scope.
Delimit Scope js_scope with js.
Notation "x <- m ;; k" := (bind m (fun x => k))
  (at level 61, m at next level, right associativity) : js_scope.
Notation "m ;; k" := (bind m (fun _ => k))
  (at level 61, right associativity) : js_scope.
Local Open Scope js_scope.

Definition when (b : bool) (m : M unit) : M unit := if b then m else ret tt.

(** Truthiness of an optional string: [undefined] and the empty string are
    falsy. *)
Definition given (v : option string) : bool :=
  match v with
  | Some s => negb (String.eqb s EmptyString)
  | None => false
  end.

(** [v || fallback]. *)
Definition orElse (v : option string) (fallback : string) : string :=
  match v with
  | Some s => if String.eqb s EmptyString then fallback else s
  | None => fallback
  end.

(** ** Console *)

Definition emit (e : entry) : M unit :=
  modify (fun w => World (cwd w) (dirs w) (files w) (console w ++ [e])%list
                         (requests w) (defaultBranch w)).

(** [console.log(text)]. *)
Definition log (text : string) : M unit := emit (Log [VStr text]).

(** [console.error(label, error)]. *)
Definition logError (label : string) (e : thrown) : M unit :=
  emit (LogError [VStr label; VErr e]).

(** ** Outbound calls *)

Definition send (r : request) : M unit :=
  modify (fun w => World (cwd w) (dirs w) (files w) (console w)
                         (requests w ++ [r])%list (defaultBranch w)).

(** ** The publisher's [defaultBranch] field *)

Definition setDefaultBranch (b : string) : M unit :=
  modify (fun w => World (cwd w) (dirs w) (files w) (console w)
                         (requests w) b).

(** ** Working directory and file system *)

(** A relative name resolved against the working directory; the code only
    uses single-segment names. *)
Definition resolve (w : world) (rel : string) : path := (cwd w ++ [rel])%list.

(** One segment of a relative name applied to an absolute path, as
    [path.normalize] does it: an empty segment and [.] stay where they
    are, [..] goes to the parent (the root is its own parent), any other
    name goes below. *)
Definition enterSegment (p : path) (segment : string) : path :=
  if String.eqb segment EmptyString || String.eqb segment "." then p
  else if String.eqb segment ".." then removelast p
  else (p ++ [segment])%list.

(** [path.join(dir, name)] for an absolute, normalised [dir], which is
    what [process.cwd()] and [path.join] return: the result is normalised,
    so the segments of [name] are applied one after the other. *)
Definition pathJoin (dir : path) (fileName : string) : path :=
  fold_left enterSegment (splitSlash fileName) dir.

(** The text of a path, for messages. *)
Definition showPath (p : path) : string := "/" ++ join "/" p.

Definition isDir (w : world) (p : path) : bool := existsb (path_eqb p) (dirs w).

Definition isFile (w : world) (p : path) : bool :=
  existsb (fun f => path_eqb p (fst f)) (files w).

(** [fs.existsSync(p)]. *)
Definition existsSync (p : path) : M bool :=
  w <- get ;; ret (isDir w p || isFile w p).

(** [process.chdir(rel)]: [..] goes to the parent directory (the root is
    its own parent); a name enters that directory and throws when it does
    not exist. *)
Definition chdir (rel : string) : M unit :=
  fun w =>
    if String.eqb rel ".." then
      (Return tt, World (removelast (cwd w)) (dirs w) (files w) (console w)
                        (requests w) (defaultBranch w))
    else if isDir w (resolve w rel) then
      (Return tt, World (resolve w rel) (dirs w) (files w) (console w)
                        (requests w) (defaultBranch w))
    else
      (Throw (Object (Error ("ENOENT: no such file or directory, chdir '"
                             ++ showPath (cwd w) ++ "' -> '" ++ rel ++ "'"))),
       w).

Section WithEnv.
Variable E : env.

(** [fs.rmSync(p, { recursive: true, force: true })]. *)
Definition rmSync (p : path) : M unit :=
  match rmFails E p with
  | Some e => throw e
  | None =>
      modify (fun w =>
        World (cwd w)
              (filter (fun d => negb (under p d)) (dirs w))
              (filter (fun f => negb (under p (fst f))) (files w))
              (console w) (requests w) (defaultBranch w))
  end.

(** [fs.mkdirSync(p, { recursive: true })]. *)
Definition mkdirSync (p : path) : M unit :=
  match mkdirFails E p with
  | Some e => throw e
  | None =>
      modify (fun w =>
        World (cwd w) (if isDir w p then dirs w else p :: dirs w) (files w)
              (console w) (requests w) (defaultBranch w))
  end.

(** [fs.writeFileSync(p, data)]. *)
Definition writeFileSync (p : path) (data : string) : M unit :=
  match writeFails E p with
  | Some e => throw e
  | None =>
      modify (fun w =>
        World (cwd w) (dirs w)
              ((p, data) :: filter (fun f => negb (path_eqb p (fst f))) (files w))
              (console w) (requests w) (defaultBranch w))
  end.

(** What a successful [git clone] leaves behind: the directory it cloned
    into. *)
Definition cloned (p : path) : M unit :=
  modify (fun w =>
    World (cwd w) (if isDir w p then dirs w else p :: dirs w) (files w)
          (console w) (requests w) (defaultBranch w)).

(** [execSync(command, { cwd })]: the child process is spawned and its
    output returned, or its failure thrown. *)
Definition exec (command : string) (dir : path) : M string :=
  send (Spawn command dir) ;; builtin (execSync E command dir).

(** [execSync(command, { stdio: 'inherit' })], run in the working
    directory. *)
Definition run (command : string) : M unit :=
  w <- get ;; _ <- exec command (cwd w) ;; ret tt.

End WithEnv.

End Js.

(* ================================================================== *)
(** * TemplateAnalyzer.ts: the metadata extractor *)
(* ================================================================== *)

Module TemplateAnalyzer.
Import Str Clean Js.
Local Open Scope js_scope.

(** The seven fields of [TemplateAnalysis]. *)
Definition required : list string :=
  [ "templateName"; "variables"; "description"; "mergeRequestTitle";
    "mergeRequestDescription"; "branchName"; "commitMessage" ].

(** The condition of lines 90-92. *)
Definition missingRequired (analysis : json) : bool :=
  negb (truthyOpt (member "templateName" analysis)) ||
  negb (truthyOpt (member "variables" analysis)) ||
  negb (truthyOpt (member "description" analysis)) ||
  negb (truthyOpt (member "mergeRequestTitle" analysis)) ||
  negb (truthyOpt (member "mergeRequestDescription" analysis)) ||
  negb (truthyOpt (member "branchName" analysis)) ||
  negb (truthyOpt (member "commitMessage" analysis)).

Definition validationError : error :=
  Error "Invalid template analysis response: missing required fields".

Definition parseFailure : error :=
  Error "Failed to parse template analysis response as JSON".

(** Lines 89-94.  Reading a property of [null] is a [TypeError]. *)
Definition validate (analysis : json) : M unit :=
  match analysis with
  | JNull =>
      throw (Error "Cannot read properties of null (reading 'templateName')")
  | _ =>
      if missingRequired analysis then throw validationError else ret tt
  end.

(** Lines 96-99.  A truthy [branchName] that is not a string has no
    [toLowerCase] method. *)
Definition ensureTicketPrefix (ticketKey : string) (analysis : json) : M json :=
  match analysis, member "branchName" analysis with
  | JObject members, Some (JString branchName) =>
      if negb (startsWith (toLowerCase branchName) (toLowerCase ticketKey))
      then ret (JObject (assign "branchName"
                  (JString (toLowerCase ticketKey ++ "-" ++ toLowerCase branchName))
                  members))
      else ret analysis
  | _, _ => throw (Error "analysis.branchName.toLowerCase is not a function")
  end.

Section WithEnv.
Variable E : env.

(** Lines 74-111.  The prompt is a function of the two arguments, and so
    is the backend's completion. *)
Definition analyzeTicketDescription (description ticketKey : string) : M json :=
  try_catch
    (send (GenerateContent description ticketKey) ;;
     text <- answer (generateContent E description ticketKey) ;;
     let cleanedText := cleanJsonResponse text in
     emit (Log [VStr "Cleaned response:"; VStr cleanedText]) ;;
     try_catch
       (analysis <- builtin (JSON_parse E cleanedText) ;;
        validate analysis ;;
        ensureTicketPrefix ticketKey analysis)
       (fun parseError =>
          logError "JSON Parse Error:" parseError ;;
          emit (LogError [VStr "Raw response:"; VStr text]) ;;
          throw parseFailure))
    (fun error =>
       logError "Error analyzing template:" error ;;
       throw error).

End WithEnv.

(** ** Words of the specification *)

(** [branchName] starts with [ticketId] in some casing: a prefix of it
    equals the ticket identifier once both are folded to lower case. *)
Definition startsWithIgnoringCase (branchName ticketId : string) : Prop :=
  exists head rest,
    branchName = head ++ rest /\ toLowerCase head = toLowerCase ticketId.

(** The world once the completion came back and its cleaned text is
    printed. *)
Definition received (description ticketKey text : string) (w : world) : world :=
  snd ((send (GenerateContent description ticketKey) ;;
        emit (Log [VStr "Cleaned response:"; VStr (cleanJsonResponse text)])) w).

(** What the two [catch] blocks add once the inner [try] threw [inner]. *)
Definition diagnosed (inner : thrown) (text : string) (w : world) : world :=
  snd ((logError "JSON Parse Error:" inner ;;
        emit (LogError [VStr "Raw response:"; VStr text]) ;;
        logError "Error analyzing template:" parseFailure) w).

(** The branch name of an analysis whose [branchName] is a string. *)
Definition branchNameOf (analysis : json) : option string :=
  match member "branchName" analysis with
  | Some (JString b) => Some b
  | _ => None
  end.

End TemplateAnalyzer.

(* ================================================================== *)
(** * CodeGenerator: the artifact generator *)
(* ================================================================== *)

Module CodeGenerator.
Import Str Clean Js.
Local Open Scope js_scope.

Section WithEnv.
Variable E : env.

(** [generateEmailTemplate].  The prompt is a function of the three
    arguments; [variables.map] exists on arrays only. *)
Definition generateEmailTemplate (templateName description variables : json)
  : M string :=
  try_catch
    (match variables with
     | JArray _ => ret tt
     | _ => throw (Error "variables.map is not a function")
     end ;;
     send (MessagesCreate templateName description variables) ;;
     content <- answer (messagesCreate E templateName description variables) ;;
     match content with
     | [] => throw (Error "Cannot read properties of undefined (reading 'type')")
     | TextBlock generatedCode :: _ => ret (cleanGeneratedCode generatedCode)
     | OtherBlock :: _ =>
         throw (Error "Unexpected response format from Anthropic API")
     end)
    (fun error =>
       logError "Error generating email template:" error ;;
       throw error).

End WithEnv.

End CodeGenerator.

(* ================================================================== *)
(** * GitLabManager: the repository publisher *)
(* ================================================================== *)

(** The class of [src/unnamed/part_001], the publisher the specification
    describes.  Line numbers are those of that file. *)

Module GitLabManager.
Import Str Js.
Local Open Scope js_scope.

Record GitLabConfig : Type := {
  token : string;
  baseUrl : string;
  repoName : string
}.

Record MergeRequestInfo : Type := {
  title : string;
  description : string;
  branchName : string;
  commitMessage : string
}.

(** The three variables of [process.env] the publisher reads. *)
Record processEnv : Type := {
  GITLAB_TOKEN : option string;
  GITLAB_BASE_URL : option string;
  REPO_NAME : option string
}.

Definition tempDir : string := "temp_git".

(** The constructor, lines 26-51.  The field initialiser sets
    [defaultBranch] to ['main'] before the body runs; past the two checks
    both variables are set, so the fallbacks of [token] and [repoName] are
    never taken; building the client object sends nothing. *)
Definition constructor (penv : processEnv) : M GitLabConfig :=
  setDefaultBranch "main" ;;
  if negb (given (GITLAB_TOKEN penv)) then
    throw (Error "GITLAB_TOKEN environment variable is required")
  else if negb (given (REPO_NAME penv)) then
    throw (Error "REPO_NAME environment variable is required")
  else
    let config := {| token := orElse (GITLAB_TOKEN penv) EmptyString;
                     baseUrl := orElse (GITLAB_BASE_URL penv) "https://gitlab.com";
                     repoName := orElse (REPO_NAME penv) EmptyString |} in
    log ("Initializing GitLab client with base URL: " ++ baseUrl config) ;;
    log ("Target repository: " ++ repoName config) ;;
    ret config.

Section WithEnv.
Variable E : env.
Variable config : GitLabConfig.

Definition relative (rel : string) : M path :=
  w <- get ;; ret (resolve w rel).

Definition cloneRepository : M unit :=
  log "Cloning repository..." ;;
  try_catch
    (dir <- relative tempDir ;;
     present <- existsSync dir ;;
     when present
       (log ("Removing existing temp directory: " ++ tempDir) ;;
        rmSync E dir) ;;
     let repoUrl :=
       "https://oauth2:" ++ token config ++ "@" ++
       replaceFirst "https://" EmptyString (baseUrl config) ++
       "/" ++ repoName config ++ ".git" in
     log ("Cloning from: " ++ baseUrl config ++ "/" ++ repoName config) ;;
     run E ("git clone " ++ repoUrl ++ " " ++ tempDir) ;;
     cloned dir ;;
     log "Repository cloned successfully")
    (fun error =>
       logError "Error cloning repository:" error ;;
       message <- readMessage error ;;
       throw (Error ("Failed to clone repository: " ++ message ++
                     ". Please check your GITLAB_TOKEN and REPO_NAME."))).

Definition detectDefaultBranch : M unit :=
  log "Detecting default branch..." ;;
  try_catch
    (dir <- relative tempDir ;;
     result <- exec E "git remote show origin" dir ;;
     match matchHeadBranch result with
     | Some (String c1 rest as captured) =>
         setDefaultBranch (trim captured) ;;
         log ("Default branch detected: " ++ trim captured)
     | _ =>
         branches <- exec E "git branch -a" dir ;;
         if includes branches "remotes/origin/main" then
           setDefaultBranch "main" ;;
           log "Default branch set to: main"
         else if includes branches "remotes/origin/master" then
           setDefaultBranch "master" ;;
           log "Default branch set to: master"
         else
           log ("Warning: Could not determine default branch, using " ++
                dq ++ "main" ++ dq ++ " as fallback")
     end)
    (fun error =>
       logError "Error detecting default branch:" error ;;
       log "Using default branch: main").

Definition createBranch (branchName : string) : M unit :=
  log ("Creating branch: " ++ branchName) ;;
  chdir tempDir ;;
  run E ("git checkout -b " ++ branchName) ;;
  log ("Branch " ++ branchName ++ " created and checked out").

Definition saveTemplate (templateName htmlCode : string) : M unit :=
  log ("Saving template: " ++ templateName) ;;
  w <- get ;;
  let templatesDir := pathJoin (cwd w) "templates" in
  present <- existsSync templatesDir ;;
  when (negb present) (mkdirSync E templatesDir) ;;
  let fileName := templateName ++ ".html" in
  let filePath := pathJoin templatesDir fileName in
  writeFileSync E filePath htmlCode ;;
  log ("Template saved to: " ++ showPath filePath).

Definition commitAndPush (branchName commitMessage : string) : M unit :=
  log "Committing and pushing changes..." ;;
  run E "git add ." ;;
  run E ("git commit -m " ++ dq ++ commitMessage ++ dq) ;;
  run E ("git push origin " ++ branchName) ;;
  log "Changes committed and pushed successfully".

(** Lines 216-219 and 250-253. *)
Definition adoptDefaultBranch (p : project) : M unit :=
  match default_branch p with
  | Some b =>
      if String.eqb b EmptyString then ret tt
      else setDefaultBranch b ;;
           log ("Default branch from project: " ++ b)
  | None => ret tt
  end.

Definition createMergeRequest (mrInfo : MergeRequestInfo) : M unit :=
  log "Creating merge request..." ;;
  try_catch
    (found <-
       try_catch
         (log ("Looking up project directly: " ++ repoName config) ;;
          send (ProjectsShow (repoName config)) ;;
          p <- answer (projectsShow E (repoName config)) ;;
          log ("Project found directly: " ++ name p ++
               " (ID: " ++ showZ (id p) ++ ")") ;;
          adoptDefaultBranch p ;;
          ret (Some p))
         (fun directError =>
            message <- readMessage directError ;;
            log ("Direct lookup failed: " ++ message) ;;
            log ("Searching for projects with name: " ++ repoName config) ;;
            let search :=
              orElse (Some (lastSegment (repoName config))) (repoName config) in
            send (ProjectsAll search) ;;
            projects <- answer (projectsAll E search) ;;
            let exact :=
              find (fun p => String.eqb (path_with_namespace p) (repoName config))
                   projects in
            let found :=
              match exact with
              | Some p => Some p
              | None =>
                  let lastPart := lastSegment (repoName config) in
                  find (fun p =>
                          String.eqb (path_with_namespace p) (repoName config) ||
                          String.eqb (path_ p) lastPart ||
                          String.eqb (name p) lastPart)
                       projects
              end in
            match found with
            | Some p =>
                log ("Project found via search: " ++ name p ++
                     " (ID: " ++ showZ (id p) ++ ")") ;;
                adoptDefaultBranch p
            | None => ret tt
            end ;;
            ret found) ;;
     match found with
     | None =>
         throw (Error ("Project " ++ repoName config ++
                       " not found. Please check your GITLAB_TOKEN and REPO_NAME environment variables."))
     | Some p =>
         w <- get ;;
         log ("Creating merge request for project ID: " ++ showZ (id p) ++
              " targeting branch: " ++ defaultBranch w) ;;
         send (MergeRequestsCreate (id p) (branchName mrInfo) (defaultBranch w)
                                   (title mrInfo) (description mrInfo)) ;;
         web_url <- answer (mergeRequestsCreate E (id p) (branchName mrInfo)
                              (defaultBranch w) (title mrInfo)
                              (description mrInfo)) ;;
         log "Merge request created successfully!" ;;
         log ("URL: " ++ web_url)
     end)
    (fun error =>
       logError "Error creating merge request:" error ;;
       throw error).

Definition cleanup : M unit :=
  log "Cleaning up..." ;;
  try_catch
    (chdir ".." ;;
     dir <- relative tempDir ;;
     present <- existsSync dir ;;
     when present (rmSync E dir) ;;
     log "Cleanup completed")
    (fun error =>
       logError "Error during cleanup:" error ;;
       throw error).

(** The six stages of lines 61-77, in order. *)
Definition stages (templateName htmlCode : string) (mrInfo : MergeRequestInfo)
  : M unit :=
  cloneRepository ;;
  detectDefaultBranch ;;
  createBranch (branchName mrInfo) ;;
  saveTemplate templateName htmlCode ;;
  commitAndPush (branchName mrInfo) (commitMessage mrInfo) ;;
  createMergeRequest mrInfo.

Definition createTemplateAndMergeRequest
  (templateName htmlCode : string) (mrInfo : MergeRequestInfo) : M unit :=
  try_catch
    (log (nl ++ "=== GITLAB OPERATIONS ===") ;;
     stages templateName htmlCode mrInfo ;;
     cleanup ;;
     log (nl ++ "=== GITLAB OPERATIONS COMPLETED ===") ;;
     log ("Branch created: " ++ branchName mrInfo) ;;
     log ("Merge request title: " ++ title mrInfo) ;;
     log "Please check GitLab to verify the merge request was created successfully")
    (fun error =>
       logError "Error in GitLab operations:" error ;;
       cleanup ;;
       throw error).

End WithEnv.

(** ** Observations *)

(** The console line [cleanup] prints first, each time it runs. *)
Definition cleanupStarted (e : entry) : bool :=
  match e with
  | Log [VStr text] => String.eqb text "Cleaning up..."
  | _ => false
  end.

(** How many times [cleanup] has run, read off the console. *)
Definition cleanupRuns (w : world) : nat :=
  List.length (filter cleanupStarted (console w)).

(** The scratch workspace of a run started in directory [start]. *)
Definition workspace (start : path) : path := (start ++ [tempDir])%list.

(** What [cleanup] does after its first line. *)
Definition cleanupRest (E : env) : M unit :=
  try_catch
    (chdir ".." ;;
     dir <- relative tempDir ;;
     present <- existsSync dir ;;
     when present (rmSync E dir) ;;
     log "Cleanup completed")
    (fun error =>
       logError "Error during cleanup:" error ;;
       throw error).

(** The world once the banner of line 59 is printed. *)
Definition started (w : world) : world :=
  snd (log (nl ++ "=== GITLAB OPERATIONS ===") w).

(** The world once the [catch] block of line 88 has printed the error. *)
Definition caught (e : thrown) (w : world) : world :=
  snd (logError "Error in GitLab operations:" e w).

(** ** Words of the specification *)

(** What [git remote show origin] prints for a remote at [url], down to
    its HEAD line; [reported] is the name of the HEAD branch, or
    [(unknown)] where git cannot determine one. *)
Definition remoteShow (url reported rest : string) : string :=
  "* remote origin" ++ nl ++
  "  Fetch URL: " ++ url ++ nl ++
  "  Push  URL: " ++ url ++ nl ++
  "  HEAD branch: " ++ reported ++ nl ++ rest.

(** What [git branch -a] prints in a clone whose checked-out branch is
    [current] and whose remote has the branches [names]. *)
Definition branchListing (current : string) (names : list string) : string :=
  "* " ++ current ++ nl ++
  fold_right (fun name rest => "  remotes/origin/" ++ name ++ nl ++ rest)
             EmptyString names.

End GitLabManager.

(* ================================================================== *)
(** * cmd_definitions/jira_test/GitLabManager.ts: the other publisher *)
(* ================================================================== *)

(** The repository holds a second [GitLabManager] class, in
    [cmd_definitions/jira_test/GitLabManager.ts].  Its constructor is
    embedded here. *)
Module GitLabManagerJiraTest.
Import Str Js GitLabManager.
Local Open Scope js_scope.

(** The constructor of lines 25-31: absent variables become the empty
    string. *)
Definition constructor (penv : processEnv) : M GitLabConfig :=
  ret {| token := orElse (GITLAB_TOKEN penv) EmptyString;
         baseUrl := orElse (GITLAB_BASE_URL penv) "https://gitlab.com";
         repoName := orElse (REPO_NAME penv) EmptyString |}.

(** The methods of lines 33-159.  [createBranch], [saveTemplate] and
    [commitAndPush] read word for word as in the other class and are
    taken from there. *)
Section WithEnv.
Variable E : env.
Variable config : GitLabConfig.

Definition cloneRepository : M unit :=
  log "Cloning repository..." ;;
  dir <- relative tempDir ;;
  present <- existsSync dir ;;
  when present (rmSync E dir) ;;
  let repoUrl :=
    "https://oauth2:" ++ token config ++ "@" ++
    replaceFirst "https://" EmptyString (baseUrl config) ++
    "/" ++ repoName config ++ ".git" in
  run E ("git clone " ++ repoUrl ++ " " ++ tempDir) ;;
  cloned dir ;;
  log "Repository cloned successfully".

(** Lines 130-145: the merge request is left to the user. *)
Definition createMergeRequest (mrInfo : MergeRequestInfo) : M unit :=
  log "Creating merge request..." ;;
  log (nl ++ "To create a merge request, please follow these steps:") ;;
  log ("1. Go to " ++ baseUrl config ++ "/" ++ repoName config ++
       "/merge_requests/new") ;;
  log ("2. Set source branch to: " ++ branchName mrInfo) ;;
  log ("3. Set title to: " ++ title mrInfo) ;;
  log ("4. Set description to: " ++ description mrInfo) ;;
  log ("5. Click " ++ dq ++ "Create merge request" ++ dq).

Definition cleanup : M unit :=
  log "Cleaning up..." ;;
  chdir ".." ;;
  dir <- relative tempDir ;;
  present <- existsSync dir ;;
  when present (rmSync E dir) ;;
  log "Cleanup completed".

Definition createTemplateAndMergeRequest
  (templateName htmlCode : string) (mrInfo : MergeRequestInfo) : M unit :=
  try_catch
    (log (nl ++ "=== GITLAB OPERATIONS ===") ;;
     cloneRepository ;;
     createBranch E (branchName mrInfo) ;;
     saveTemplate E templateName htmlCode ;;
     commitAndPush E (branchName mrInfo) (commitMessage mrInfo) ;;
     createMergeRequest mrInfo ;;
     cleanup ;;
     log (nl ++ "=== GITLAB OPERATIONS COMPLETED ===") ;;
     log ("Branch created: " ++ branchName mrInfo) ;;
     log ("Merge request title: " ++ title mrInfo) ;;
     log "Please check GitLab to verify the merge request was created successfully")
    (fun error =>
       logError "Error in GitLab operations:" error ;;
       cleanup ;;
       throw error).

End WithEnv.

End GitLabManagerJiraTest.

(* ================================================================== *)
(** * ComandHandler.ts: the command orchestrator *)
(* ================================================================== *)

Module ComandHandler.
Import Str Js.
Local Open Scope js_scope.

(** The options commander hands to the action. *)
Record options : Type := {
  task : option string;
  createMr : bool
}.

(** A field of the analysis the extractor returned; all seven are present
    there. *)
Definition field (key : string) (analysis : json) : json :=
  match member key analysis with
  | Some j => j
  | None => JNull
  end.

(** [console.log(v)] of a value. *)
Definition logValue (v : json) : M unit :=
  match v with
  | JString s => log s
  | _ => emit (Log [VJson v])
  end.

Fixpoint logEach (items : list json) : M unit :=
  match items with
  | [] => ret tt
  | variable :: rest => log ("  - " ++ toStr variable) ;; logEach rest
  end.

(** [variables.forEach(variable => console.log(...))]. *)
Definition logVariables (variables : json) : M unit :=
  match variables with
  | JArray items => logEach items
  | _ => throw (Error "templateAnalysis.variables.forEach is not a function")
  end.

Section WithEnv.
Variable E : env.
(** The publisher built when the module is loaded: the [GitLabManager]
    of [./GitLabManager], the class next to this file. *)
Variable gitLabManager : GitLabManager.GitLabConfig.

(** Lines 44-110: what follows a non-empty description. *)
Definition processDescription (opts : options) (description ticketKey : string)
  : M unit :=
  log (nl ++ "=== TEMPLATE ANALYSIS ===") ;;
  log "Analyzing template requirements..." ;;
  templateAnalysis <-
    TemplateAnalyzer.analyzeTicketDescription E description ticketKey ;;
  log (nl ++ "--- Template Information ---") ;;
  log ("Template Name: " ++ toStr (field "templateName" templateAnalysis)) ;;
  log "Variables:" ;;
  logVariables (field "variables" templateAnalysis) ;;
  log ("Description: " ++ toStr (field "description" templateAnalysis)) ;;
  log (nl ++ "--- Git Information ---") ;;
  log ("Branch Name: " ++ toStr (field "branchName" templateAnalysis)) ;;
  log ("Commit Message: " ++ toStr (field "commitMessage" templateAnalysis)) ;;
  log (nl ++ "--- Merge Request Information ---") ;;
  log ("Title: " ++ toStr (field "mergeRequestTitle" templateAnalysis)) ;;
  log "Description:" ;;
  logValue (field "mergeRequestDescription" templateAnalysis) ;;
  log (nl ++ "=== GENERATING EMAIL TEMPLATE ===") ;;
  log "Generating HTML code..." ;;
  htmlCode <-
    CodeGenerator.generateEmailTemplate E
      (field "templateName" templateAnalysis)
      (field "description" templateAnalysis)
      (field "variables" templateAnalysis) ;;
  w <- get ;;
  let templatesDir := pathJoin (cwd w) "templates" in
  present <- existsSync templatesDir ;;
  when (negb present) (mkdirSync E templatesDir) ;;
  let fileName := toStr (field "templateName" templateAnalysis) ++ ".html" in
  let filePath := pathJoin templatesDir fileName in
  writeFileSync E filePath htmlCode ;;
  log (nl ++ "Template saved locally to: " ++ showPath filePath) ;;
  if createMr opts then
    log (nl ++ "=== CREATING MERGE REQUEST ===") ;;
    GitLabManagerJiraTest.createTemplateAndMergeRequest E gitLabManager
      (toStr (field "templateName" templateAnalysis))
      htmlCode
      {| GitLabManager.title :=
           toStr (field "mergeRequestTitle" templateAnalysis);
         GitLabManager.description :=
           toStr (field "mergeRequestDescription" templateAnalysis);
         GitLabManager.branchName :=
           toStr (field "branchName" templateAnalysis);
         GitLabManager.commitMessage :=
           toStr (field "commitMessage" templateAnalysis) |}
  else
    log (nl ++ "=== NEXT STEPS ===") ;;
    log "1. Create a new branch:" ;;
    log ("   git checkout -b " ++ toStr (field "branchName" templateAnalysis)) ;;
    log "2. Review the generated template" ;;
    log "3. Commit your changes:" ;;
    log ("   git commit -m " ++ dq ++
         toStr (field "commitMessage" templateAnalysis) ++ dq) ;;
    log "4. Push your branch:" ;;
    log ("   git push origin " ++ toStr (field "branchName" templateAnalysis)) ;;
    log "5. Create a merge request with the title and description provided above" ;;
    log (nl ++ "Or run with --create-mr flag to automatically create the merge request").

Definition missingTask : entry :=
  LogError [VStr "Please provide a task ID using -t or --task option"].

(** The body of the [try] block of lines 25-110. *)
Definition body (opts : options) : M unit :=
  if negb (given (task opts)) then
    emit missingTask
  else
    let taskId := orElse (task opts) EmptyString in
    emit (Log [VOptions (task opts) (createMr opts)]) ;;
    log ("Fetching JIRA ticket: " ++ taskId) ;;
    send (FindIssue taskId) ;;
    issue <- answer (findIssue E taskId) ;;
    log (nl ++ "=== JIRA TICKET DETAILS ===") ;;
    log ("Key: " ++ key issue) ;;
    log ("Summary: " ++ summary issue) ;;
    log ("Status: " ++ statusName issue) ;;
    log (nl ++ "Description:") ;;
    log (orElse (issueDescription issue) "No description available") ;;
    if given (issueDescription issue) then
      processDescription opts (orElse (issueDescription issue) EmptyString)
                         (key issue)
    else ret tt.

(** Lines 24-115: the [catch] of line 112 prints the message of what it
    caught. *)
Definition handleCommand (opts : options) : M unit :=
  try_catch (body opts)
    (fun error =>
       message <- readMessage error ;;
       emit (LogError [VStr "Error:"; VStr message])).

End WithEnv.

End ComandHandler.

(* ================================================================== *)
(** * Frame relations *)
(* ================================================================== *)

Module Frame.
Import Js GitLabManager.

(** A relation between the world before and the world after that every
    step of a computation respects, whether the computation returns or
    throws.  The relations used here look at the console only; [quiet]
    tells which console entries they tolerate. *)
Class Framing (R : world -> world -> Prop) (quiet : entry -> Prop) : Prop := {
  framing_refl : forall w, R w w;
  framing_trans : forall a b c, R a b -> R b c -> R a c;
  framing_console : forall w w', console w' = console w -> R w w';
  framing_emit : forall e w, quiet e -> R w (snd (emit e w))
}.

Definition frames (R : world -> world -> Prop) {A} (m : M A) : Prop :=
  forall w, R w (snd (m w)).

(** The console only grows. *)
Definition grows (w w' : world) : Prop :=
  exists more, console w' = (console w ++ more)%list.

(** The number of cleanup runs stays as it is. *)
Definition sameRuns (w w' : world) : Prop := cleanupRuns w' = cleanupRuns w.

End Frame.

(* ================================================================== *)
(** * Concrete runs *)
(* ================================================================== *)

Module Scenario.
Import Str Clean Js GitLabManager.

(** A checkout in [/home/dev] with nothing else on the disk. *)
Definition home : path := ["home"; "dev"].

Definition startWorld : world :=
  World home [["home"]; home] [] [] [] "main".

Definition config : GitLabConfig :=
  {| token := "glpat-secret";
     baseUrl := "https://gitlab.com";
     repoName := "acme/mail" |}.

Definition mrInfo : MergeRequestInfo :=
  {| title := "Add welcome email";
     description := "Adds the welcome email template";
     branchName := "proj-123-welcome-email";
     commitMessage := "Add welcome email template" |}.

Definition theProject : project :=
  Project 42 "mail" "mail" "acme/mail" (Some "main").

(** Collaborators that all answer; [exec] decides every child process and
    [rm] which directories cannot be removed. *)
Definition collaborators
  (exec : string -> path -> completion error string)
  (rm : path -> option error) : env :=
  {| execSync := exec;
     JSON_parse := fun _ => Throw (Error "Unexpected end of JSON input");
     generateContent := fun _ _ => Return EmptyString;
     messagesCreate := fun _ _ _ => Return [TextBlock EmptyString];
     findIssue := fun taskId => Return (Issue taskId "Welcome email" "Open" None);
     projectsShow := fun _ => Return theProject;
     projectsAll := fun _ => Return [];
     mergeRequestsCreate := fun _ _ _ _ _ =>
       Return "https://gitlab.com/acme/mail/-/merge_requests/1";
     rmFails := rm;
     mkdirFails := fun _ => None;
     writeFails := fun _ => None |}.

Definition allSucceed : string -> path -> completion error string :=
  fun _ _ => Return EmptyString.

Definition busy : error :=
  Error "EBUSY: resource busy or locked, rm 'temp_git'".

(** The workspace under [/home/dev] cannot be removed. *)
Definition workspaceBusy (p : path) : option error :=
  if path_eqb p (workspace home) then Some busy else None.

Definition removable (p : path) : option error := None.

Definition pushRejected : error :=
  Error "Command failed: git push origin proj-123-welcome-email".

(** Every child process succeeds except [git push]. *)
Definition pushFails (command : string) (dir : path) : completion error string :=
  if String.prefix "git push" command then Throw pushRejected
  else Return EmptyString.

Definition cloneRejected : error :=
  Error "Command failed: git clone".

(** [git clone] fails, as with a wrong token. *)
Definition cloneFails (command : string) (dir : path) : completion error string :=
  if String.prefix "git clone" command then Throw cloneRejected
  else Return EmptyString.

Definition publish (E : env) : completion thrown unit * world :=
  createTemplateAndMergeRequest E config "welcome_email" "<html></html>"
    mrInfo startWorld.

(** The same collaborators with another metadata backend: it completes
    every prompt with [completion], and [parse] is [JSON.parse]. *)
Definition withAnalysis
  (completion_ : string) (parse : string -> completion error json) (E : env) : env :=
  {| execSync := execSync E;
     JSON_parse := parse;
     generateContent := fun _ _ => Return completion_;
     messagesCreate := messagesCreate E;
     findIssue := findIssue E;
     projectsShow := projectsShow E;
     projectsAll := projectsAll E;
     mergeRequestsCreate := mergeRequestsCreate E;
     rmFails := rmFails E;
     mkdirFails := mkdirFails E;
     writeFails := writeFails E |}.

(** The same collaborators with another issue tracker. *)
Definition withTracker (tracker : string -> completion thrown issue) (E : env) : env :=
  {| execSync := execSync E;
     JSON_parse := JSON_parse E;
     generateContent := generateContent E;
     messagesCreate := messagesCreate E;
     findIssue := tracker;
     projectsShow := projectsShow E;
     projectsAll := projectsAll E;
     mergeRequestsCreate := mergeRequestsCreate E;
     rmFails := rmFails E;
     mkdirFails := mkdirFails E;
     writeFails := writeFails E |}.

(** Everything works. *)
Definition healthy : env := collaborators allSucceed removable.

(** [JSON.parse] on the two texts the runs below hand it: an empty object
    and something that is no JSON. *)
Definition parseEmptyObject (text : string) : completion error json :=
  if String.eqb text "{}" then Return (JObject [])
  else Throw (Error "Unexpected token o in JSON at position 0").

(** The backend answers with an empty object in a [json] fence. *)
Definition emptyObjectBackend : env :=
  withAnalysis (fenced "json" "{}") parseEmptyObject healthy.

(** The backend answers with prose. *)
Definition proseBackend : env :=
  withAnalysis "oops, no JSON here" parseEmptyObject healthy.




(** What [git remote show origin] and [git branch -a] print. *)
Definition gitOutput (shown listed : string)
  (command : string) (dir : path) : completion error string :=
  if String.eqb command "git remote show origin" then Return shown
  else if String.eqb command "git branch -a" then Return listed
  else Return EmptyString.

(** Git cannot tell which of two branches is the HEAD of the remote. *)
Definition ambiguousHead : string :=
  "* remote origin" ++ nl ++
  "  Fetch URL: https://gitlab.com/acme/mail.git" ++ nl ++
  "  Push  URL: https://gitlab.com/acme/mail.git" ++ nl ++
  "  HEAD branch (remote HEAD is ambiguous, may be one of the following):" ++ nl ++
  "    maintenance" ++ nl ++
  "    master" ++ nl ++
  "  Remote branches:" ++ nl ++
  "    maintenance tracked" ++ nl ++
  "    master      tracked".

(** The remote has the branches [maintenance] and [master]. *)
Definition maintenanceAndMaster : list string := ["maintenance"; "master"].

(** ** A ticket that goes through *)

Definition quoted (s : string) : string := dq ++ s ++ dq.


(** A member [key: value] of a JSON text, both strings. *)
Definition jsonMember (key value : string) : string :=
  quoted key ++ ":" ++ quoted value.

(** The answer of the metadata backend for the welcome email. *)
Definition welcomeJson : string :=
  "{" ++ jsonMember "templateName" "welcome_email" ++ "," ++
  quoted "variables" ++ ":[" ++ quoted "first_name" ++ "]," ++
  jsonMember "description" "Greets a new customer" ++ "," ++
  jsonMember "mergeRequestTitle" "Add welcome email" ++ "," ++
  jsonMember "mergeRequestDescription" "Adds the welcome email template" ++ "," ++
  jsonMember "branchName" "Add-Welcome-Email" ++ "," ++
  jsonMember "commitMessage" "Add welcome email template" ++ "}".

(** What [JSON.parse] makes of it. *)
Definition welcomeMembers : list (string * json) :=
  [ ("templateName", JString "welcome_email");
    ("variables", JArray [JString "first_name"]);
    ("description", JString "Greets a new customer");
    ("mergeRequestTitle", JString "Add welcome email");
    ("mergeRequestDescription", JString "Adds the welcome email template");
    ("branchName", JString "Add-Welcome-Email");
    ("commitMessage", JString "Add welcome email template") ].

Definition parseWelcome (text : string) : completion error json :=
  if String.eqb text welcomeJson then Return (JObject welcomeMembers)
  else Throw (Error "Unexpected token o in JSON at position 0").

Definition welcomeHtml : string := "<html><body>Hello {{first_name}}</body></html>".

(** The same collaborators with another code backend. *)
Definition withGenerator (blocks : completion thrown (list block)) (E : env) : env :=
  {| execSync := execSync E;
     JSON_parse := JSON_parse E;
     generateContent := generateContent E;
     messagesCreate := fun _ _ _ => blocks;
     findIssue := findIssue E;
     projectsShow := projectsShow E;
     projectsAll := projectsAll E;
     mergeRequestsCreate := mergeRequestsCreate E;
     rmFails := rmFails E;
     mkdirFails := mkdirFails E;
     writeFails := writeFails E |}.

(** The same answer with a number as template name: [1e21] is a JSON
    number, and a template literal prints it with an exponent. *)
Definition numberedJson : string :=
  "{" ++ quoted "templateName" ++ ":1e21," ++
  quoted "variables" ++ ":[" ++ quoted "first_name" ++ "]," ++
  jsonMember "description" "Greets a new customer" ++ "," ++
  jsonMember "mergeRequestTitle" "Add welcome email" ++ "," ++
  jsonMember "mergeRequestDescription" "Adds the welcome email template" ++ "," ++
  jsonMember "branchName" "Add-Welcome-Email" ++ "," ++
  jsonMember "commitMessage" "Add welcome email template" ++ "}".

Definition numberedMembers : list (string * json) :=
  ("templateName", JNumber (Number true "1e+21")) :: tl welcomeMembers.

Definition parseNumbered (text : string) : completion error json :=
  if String.eqb text numberedJson then Return (JObject numberedMembers)
  else Throw (Error "Unexpected token o in JSON at position 0").

(** Both backends answer inside a fence, and the ticket has a
    description. *)
Definition welcomeTicket (taskId : string) : completion thrown issue :=
  Return (Issue taskId "Welcome email" "Open" (Some "Add a welcome email")).

Definition working : env :=
  withTracker welcomeTicket
    (withGenerator (Return [TextBlock (fenced "html" welcomeHtml)])
       (withAnalysis (fenced "json" welcomeJson) parseWelcome healthy)).

(** The metadata backend names the template by a number. *)
Definition numbered : env :=
  withGenerator (Return [TextBlock (fenced "html" welcomeHtml)])
    (withAnalysis (fenced "json" numberedJson) parseNumbered healthy).

Definition overloaded : error := Error "503 Service Unavailable".

(** The metadata backend is down. *)
Definition analysisDown : env :=
  {| execSync := execSync healthy;
     JSON_parse := JSON_parse healthy;
     generateContent := fun _ _ => Throw overloaded;
     messagesCreate := messagesCreate healthy;
     findIssue := findIssue healthy;
     projectsShow := projectsShow healthy;
     projectsAll := projectsAll healthy;
     mergeRequestsCreate := mergeRequestsCreate healthy;
     rmFails := rmFails healthy;
     mkdirFails := mkdirFails healthy;
     writeFails := writeFails healthy |}.

(** ** Projects on the hosting service *)

(** The same collaborators with another project directory. *)
Definition withProjects
  (show : string -> completion thrown project)
  (all : string -> completion thrown (list project)) (E : env) : env :=
  {| execSync := execSync E;
     JSON_parse := JSON_parse E;
     generateContent := generateContent E;
     messagesCreate := messagesCreate E;
     findIssue := findIssue E;
     projectsShow := show;
     projectsAll := all;
     mergeRequestsCreate := mergeRequestsCreate E;
     rmFails := rmFails E;
     mkdirFails := mkdirFails E;
     writeFails := writeFails E |}.

(** [acme/mail] with [develop] as its default branch. *)
Definition develProject : project :=
  Project 42 "mail" "mail" "acme/mail" (Some "develop").

(** A project of the same name in another namespace. *)
Definition namesake : project :=
  Project 7 "mail" "mail" "other/mail" (Some "develop").

Definition unrelated : project :=
  Project 9 "site" "site" "acme/site" None.

Definition notFound : error := Error "404 Project Not Found".

(** The direct lookup fails and the search lists [projects]. *)
Definition searching (projects : list project) : env :=
  withProjects (fun _ => Throw notFound) (fun _ => Return projects) healthy.

(** The direct lookup answers with [develProject]. *)
Definition direct : env :=
  withProjects (fun _ => Return develProject) (fun _ => Return []) healthy.

(** Every child process succeeds except [git push]. *)
Definition rejecting : env := collaborators pushFails removable.

(** Every child process succeeds except [git clone]. *)
Definition unreachable : env := collaborators cloneFails removable.

(** The analysis of the welcome email once its branch name carries the
    ticket key. *)
Definition welcomePrefixed : json :=
  JObject (assign "branchName" (JString "proj-123-add-welcome-email")
                  welcomeMembers).

(** The world of a publisher that detected [master]. *)
Definition detectedMaster : world :=
  World home [["home"]; home] [] [] [] "master".

(** [/home/dev] with the workspace cloned into it. *)
Definition clonedWorld : world :=
  World home [["home"]; home; workspace home] [] [] [] "main".

(** The options of [jira-test -t PROJ-123] and of [jira-test]. *)
Definition localRun : ComandHandler.options :=
  {| ComandHandler.task := Some "PROJ-123"; ComandHandler.createMr := false |}.

Definition noTask : ComandHandler.options :=
  {| ComandHandler.task := None; ComandHandler.createMr := false |}.

End Scenario.

(* ================================================================== *)
(** * Measures on strings *)
(* ================================================================== *)

Module Measure.
Import Str.

(** How many backticks a string starts with. *)
Fixpoint leadingTicks (s : string) : nat :=
  match s with
  | EmptyString => 0
  | String c r => if Ascii.eqb c tick then S (leadingTicks r) else 0
  end.

End Measure.

(* ================================================================== *)
(** * What a run leaves untouched *)
(* ================================================================== *)

Module Observe.
Import Str Js GitLabManager.
Local Open Scope js_scope.

(** [fs.readFileSync(p)] where the file exists. *)
Definition readFile (w : world) (p : path) : option string :=
  match find (fun f => path_eqb p (fst f)) (files w) with
  | Some f => Some (snd f)
  | None => None
  end.

(** A relation every step of a computation respects: it holds of a world
    and itself, and along two steps in a row. *)
Class Stepwise (R : world -> world -> Prop) : Prop := {
  stepwise_refl : forall w, R w w;
  stepwise_trans : forall a b c, R a b -> R b c -> R a c
}.

(** The working directory stays. *)
Definition sameCwd (w w' : world) : Prop := cwd w' = cwd w.

(** The working directory and the disk stay. *)
Definition sameDisk (w w' : world) : Prop :=
  cwd w' = cwd w /\ dirs w' = dirs w /\ files w' = files w.

(** Everything sent between two worlds passes [allowed]. *)
Definition asksOnly (allowed : request -> bool) (w w' : world) : Prop :=
  exists more,
    requests w' = (requests w ++ more)%list /\ forallb allowed more = true.

(** Calls of the tracker and of the two AI backends. *)
Definition isPipelineCall (r : request) : bool :=
  match r with
  | FindIssue _ | GenerateContent _ _ | MessagesCreate _ _ _ => true
  | _ => false
  end.

(** Child processes. *)
Definition isSpawn (r : request) : bool :=
  match r with
  | Spawn _ _ => true
  | _ => false
  end.

(** Requests to create a merge request. *)
Definition isMergeRequest (r : request) : bool :=
  match r with
  | MergeRequestsCreate _ _ _ _ _ => true
  | _ => false
  end.

Section WithEnv.
Variable E : env.
Variable config : GitLabConfig.

(** The stages that follow [cloneRepository], lines 65-77. *)
Definition laterStages (templateName htmlCode : string)
  (mrInfo : MergeRequestInfo) : M unit :=
  detectDefaultBranch E ;;
  createBranch E (branchName mrInfo) ;;
  saveTemplate E templateName htmlCode ;;
  commitAndPush E (branchName mrInfo) (commitMessage mrInfo) ;;
  createMergeRequest E config mrInfo.

(** The three child processes of [commitAndPush], in order. *)
Definition commitAndPushCommands (branchName commitMessage : string)
  : list string :=
  [ "git add .";
    "git commit -m " ++ dq ++ commitMessage ++ dq;
    "git push origin " ++ branchName ].

(** A project the fallback search accepts when no path matches exactly:
    its path or its name is the last segment of the repository name. *)
Definition matchesLastSegment (p : project) : bool :=
  String.eqb (path_with_namespace p) (repoName config) ||
  String.eqb (path_ p) (lastSegment (repoName config)) ||
  String.eqb (name p) (lastSegment (repoName config)).

(** The search term of line 226. *)
Definition searchTerm : string :=
  orElse (Some (lastSegment (repoName config))) (repoName config).

(** The child process of line 149. *)
Definition cloneCommand : string :=
  "git clone " ++
  ("https://oauth2:" ++ token config ++ "@" ++
   replaceFirst "https://" EmptyString (baseUrl config) ++
   "/" ++ repoName config ++ ".git") ++ " " ++ tempDir.

(** The error of line 154, built from the one that was caught. *)
Definition cloneFailure (inner : error) : error :=
  Error ("Failed to clone repository: " ++ message inner ++
         ". Please check your GITLAB_TOKEN and REPO_NAME.").

(** The error of line 258. *)
Definition projectNotFound : error :=
  Error ("Project " ++ repoName config ++
         " not found. Please check your GITLAB_TOKEN and REPO_NAME environment variables.").

(** The request of lines 263-272 for project [p] and target branch
    [target]. *)
Definition mergeRequestFor (mrInfo : MergeRequestInfo) (p : project)
  (target : string) : request :=
  MergeRequestsCreate (id p) (branchName mrInfo) target (title mrInfo)
                      (description mrInfo).

(** The project's path is the configured repository name. *)
Definition hasExactPath (p : project) : bool :=
  String.eqb (path_with_namespace p) (repoName config).

End WithEnv.

End Observe.

(* ================================================================== *)
(** * Facts about the string primitives *)
(* ================================================================== *)

Module StrFacts.
Import Str.

Lemma app_nil_r (s : string) : s ++ EmptyString = s.
Proof. induction s as [|c s IH]; simpl; [reflexivity | now rewrite IH]. Qed.

Lemma app_assoc (a b c : string) : (a ++ b) ++ c = a ++ b ++ c.
Proof. induction a as [|x a IH]; simpl; [reflexivity | now rewrite IH]. Qed.

Lemma prefix_app (p s : string) : String.prefix p (p ++ s) = true.
Proof.
  induction p as [|c p IH]; simpl.
  - now destruct s.
  - destruct (ascii_dec c c) as [_|ne]; [exact IH | now elim ne].
Qed.

Lemma prefix_split (p s : string) :
  String.prefix p s = true -> exists rest, s = p ++ rest.
Proof.
  revert s; induction p as [|c p IH]; intros s H.
  - now exists s.
  - destruct s as [|d s]; simpl in H; [discriminate|].
    destruct (ascii_dec c d) as [->|]; [|discriminate].
    destruct (IH _ H) as [rest ->]. now exists rest.
Qed.

Lemma prefix_head (c d : ascii) (p s : string) :
  c <> d -> String.prefix (String c p) (String d s) = false.
Proof. intros ne; simpl. now destruct (ascii_dec c d). Qed.

Lemma length_toLowerCase (s : string) :
  String.length (toLowerCase s) = String.length s.
Proof. induction s as [|c s IH]; simpl; [reflexivity | now rewrite IH]. Qed.

Lemma toLowerCase_app (a b : string) :
  toLowerCase (a ++ b) = toLowerCase a ++ toLowerCase b.
Proof. induction a as [|c a IH]; simpl; [reflexivity | now rewrite IH]. Qed.

(** A lower-cased string that splits comes from a string that splits at
    the same place. *)
Lemma toLowerCase_split (s : string) : forall p rest,
  toLowerCase s = p ++ rest ->
  exists head tail,
    s = head ++ tail /\ toLowerCase head = p /\ toLowerCase tail = rest.
Proof.
  induction s as [|c s IH]; intros p rest H.
  - destruct p; simpl in H; [|discriminate].
    exists EmptyString, EmptyString. now subst.
  - destruct p as [|d p]; simpl in H.
    + exists EmptyString, (String c s). now subst.
    + injection H as Hd Hs. destruct (IH _ _ Hs) as (h & t & -> & <- & <-).
      exists (String c h), t. simpl. now rewrite Hd.
Qed.

(** ** Prefixes and occurrences *)

Lemma prefix_cons (a c : ascii) (p s : string) :
  String.prefix (String a p) (String c s) = Ascii.eqb a c && String.prefix p s.
Proof.
  simpl. destruct (ascii_dec a c) as [->|ne].
  - now rewrite Ascii.eqb_refl.
  - apply Ascii.eqb_neq in ne. now rewrite ne.
Qed.

Lemma prefix_empty (s : string) : String.prefix EmptyString s = true.
Proof. now destruct s. Qed.

Lemma prefix_app_same (a p s : string) :
  String.prefix (a ++ p) (a ++ s) = String.prefix p s.
Proof.
  induction a as [|c a IH]; [reflexivity|].
  change (String.prefix (String c (a ++ p)) (String c (a ++ s)) = String.prefix p s).
  now rewrite prefix_cons, Ascii.eqb_refl.
Qed.

Lemma prefix_app_r (p a b : string) :
  String.prefix p a = true -> String.prefix p (a ++ b) = true.
Proof.
  revert a. induction p as [|x p IH]; intros a H.
  - now destruct (a ++ b).
  - destruct a as [|y a]; simpl in *; [discriminate|].
    destruct (ascii_dec x y); [now apply IH | discriminate].
Qed.

Lemma prefix_shorter (p q s : string) :
  String.prefix (p ++ q) s = true -> String.prefix p s = true.
Proof.
  revert s. induction p as [|x p IH]; intros s H; [apply prefix_empty|].
  destruct s as [|y s]; [discriminate|].
  change (String x p ++ q) with (String x (p ++ q)) in H.
  rewrite prefix_cons in *. apply andb_prop in H as [-> H]. now apply IH in H.
Qed.

Lemma includes_tail (c : ascii) (s p : string) :
  includes (String c s) p = false -> includes s p = false.
Proof. cbn [includes]. intros H. now apply orb_false_iff in H. Qed.

Lemma includes_prefix (s p : string) :
  String.prefix p s = true -> includes s p = true.
Proof. intros H. destruct s; simpl in *; now rewrite H. Qed.

Lemma includes_behind (a b p : string) :
  includes b p = true -> includes (a ++ b) p = true.
Proof.
  intros H. induction a as [|c a IH]; [exact H|].
  change (String c a ++ b) with (String c (a ++ b)).
  cbn [includes]. rewrite IH. apply orb_true_r.
Qed.

Lemma includes_shorter (s p q : string) :
  includes s (p ++ q) = true -> includes s p = true.
Proof.
  induction s as [|c s IH]; cbn [includes]; intros H.
  - rewrite orb_false_r in *. now apply prefix_shorter in H.
  - apply orb_true_iff in H as [H|H].
    + apply prefix_shorter in H. now rewrite H.
    + rewrite IH by exact H. apply orb_true_r.
Qed.

(** ** Reading the HEAD line *)

Lemma matchHeadBranch_absent (s : string) :
  includes s "HEAD branch: " = false -> matchHeadBranch s = None.
Proof.
  induction s as [|c s IH]; intros H.
  - reflexivity.
  - cbn [includes] in H. apply orb_false_iff in H as [Hp Hs].
    cbn [matchHeadBranch]. rewrite Hp. now apply IH.
Qed.

Lemma untilEol_oneLine (s rest : string) :
  oneLine s = true -> untilEol (s ++ nl ++ rest) = s.
Proof.
  induction s as [|c s IH]; intros H; [reflexivity|].
  simpl in H. apply andb_prop in H as [Hc Hs].
  change (String c s ++ nl ++ rest) with (String c (s ++ nl ++ rest)).
  cbn [untilEol]. apply negb_true_iff in Hc. rewrite Hc. now rewrite IH.
Qed.

(** The pattern cannot begin inside a text without a space that a line
    feed follows. *)
Lemma head_not_in_word (u rest : string) :
  includes u " " = false -> u <> EmptyString ->
  String.prefix "HEAD branch: " (u ++ String lf rest) = false.
Proof.
  intros Hu Hne.
  assert (Hsp : forall c s, includes (String c s) " " = false ->
                            Ascii.eqb " " c = false /\ includes s " " = false).
  { intros c s H. cbn [includes] in H. apply orb_false_iff in H as [H1 H2].
    change " " with (String " "%char EmptyString) in H1.
    rewrite prefix_cons, prefix_empty, andb_true_r in H1. now split. }
  change "HEAD branch: "
    with (String "H" (String "E" (String "A" (String "D" (String " " "branch: "))))).
  destruct u as [|c1 u]; [congruence|].
  change (String c1 u ++ String lf rest) with (String c1 (u ++ String lf rest)).
  rewrite prefix_cons. destruct (Ascii.eqb "H" c1); [|reflexivity]. cbn [andb].
  apply Hsp in Hu as [_ Hu].
  destruct u as [|c2 u]; [reflexivity|].
  change (String c2 u ++ String lf rest) with (String c2 (u ++ String lf rest)).
  rewrite prefix_cons. destruct (Ascii.eqb "E" c2); [|reflexivity]. cbn [andb].
  apply Hsp in Hu as [_ Hu].
  destruct u as [|c3 u]; [reflexivity|].
  change (String c3 u ++ String lf rest) with (String c3 (u ++ String lf rest)).
  rewrite prefix_cons. destruct (Ascii.eqb "A" c3); [|reflexivity]. cbn [andb].
  apply Hsp in Hu as [_ Hu].
  destruct u as [|c4 u]; [reflexivity|].
  change (String c4 u ++ String lf rest) with (String c4 (u ++ String lf rest)).
  rewrite prefix_cons. destruct (Ascii.eqb "D" c4); [|reflexivity]. cbn [andb].
  apply Hsp in Hu as [_ Hu].
  destruct u as [|c5 u]; [reflexivity|].
  change (String c5 u ++ String lf rest) with (String c5 (u ++ String lf rest)).
  rewrite prefix_cons. apply Hsp in Hu as [-> _]. reflexivity.
Qed.

Lemma matchHeadBranch_skips_word (u rest : string) :
  includes u " " = false ->
  matchHeadBranch (u ++ String lf rest) = matchHeadBranch (String lf rest).
Proof.
  induction u as [|c u IH]; intros Hu; [reflexivity|].
  pose proof (@head_not_in_word (String c u) rest Hu) as Hp.
  change (String c u ++ String lf rest) with (String c (u ++ String lf rest)) in *.
  cbn [matchHeadBranch]. rewrite Hp by discriminate.
  apply IH. cbn [includes] in Hu. now apply orb_false_iff in Hu.
Qed.

End StrFacts.

(* ================================================================== *)
(** * Facts about the cleaners *)
(* ================================================================== *)

Module CleanFacts.
Import Str Clean StrFacts.





Section Text.
Variable t : string.
Hypothesis Hfence : includes t "```" = false.
Hypothesis Hstart : startsWith t "`" = false.
Hypothesis Hend : endsWithTick t = false.



End Text.

Lemma trimEnd_cons_nonspace c s :
  isSpace c = false -> trimEnd (String c s) = String c (trimEnd s).
Proof. intros H; simpl. destruct (trimEnd s); [now rewrite H | reflexivity]. Qed.




Lemma trimEnd_idempotent s : trimEnd (trimEnd s) = trimEnd s.
Proof.
  induction s as [|c s IH]; [reflexivity|]. simpl.
  destruct (trimEnd s) as [|d r] eqn:Hr.
  - destruct (isSpace c) eqn:Hc; simpl; [reflexivity | now rewrite Hc].
  - change (trimEnd (String c (String d r)))
      with (match trimEnd (String d r) with
            | EmptyString => if isSpace c then EmptyString else String c EmptyString
            | r' => String c r'
            end).
    now rewrite IH.
Qed.

Lemma trimStart_trimEnd s : trimStart (trimEnd s) = trimEnd (trimStart s).
Proof.
  induction s as [|c s IH]; [reflexivity|].
  destruct (isSpace c) eqn:Hc.
  - simpl trimStart at 2. rewrite Hc, <- IH. simpl.
    destruct (trimEnd s); simpl; now rewrite Hc.
  - simpl trimStart at 2. rewrite Hc, trimEnd_cons_nonspace by assumption.
    simpl. now rewrite Hc.
Qed.

Lemma trim_trimEnd s : trim (trimEnd s) = trim s.
Proof. unfold trim. now rewrite trimStart_trimEnd, trimEnd_idempotent. Qed.

Lemma trimStart_idempotent s : trimStart (trimStart s) = trimStart s.
Proof.
  induction s as [|c s IH]; [reflexivity|]. simpl.
  destruct (isSpace c) eqn:Hc; [exact IH | simpl; now rewrite Hc].
Qed.

Lemma trim_trimStart s : trim (trimStart s) = trim s.
Proof. unfold trim. now rewrite trimStart_idempotent. Qed.

Lemma trim_idempotent s : trim (trim s) = trim s.
Proof. unfold trim at 2. now rewrite trim_trimEnd, trim_trimStart. Qed.



Lemma isSpace_tick : isSpace tick = false.
Proof. reflexivity. Qed.



(** ** Backticks at the ends of a trimmed text *)










(** Both cleaners are the two replacements followed by [finish]. *)
Lemma cleanJsonResponse_finish (text : string) :
  cleanJsonResponse text
  = finish (removeAll "```" Scanning (removeAll "```json" Scanning text)).
Proof. reflexivity. Qed.

Lemma cleanGeneratedCode_finish (code : string) :
  cleanGeneratedCode code
  = finish (removeAll "```" Scanning (removeAll "```html" Scanning code)).
Proof. reflexivity. Qed.




End CleanFacts.

(* ================================================================== *)
(** * Frame reasoning *)
(* ================================================================== *)

Module JsFacts.
Import Str Js Frame.
Local Open Scope js_scope.

Section Frame.
Context {R : world -> world -> Prop} {quiet : entry -> Prop}.
Context {F : Framing R quiet}.

Lemma frames_ret {A} (a : A) : frames R (ret a).
Proof. intros w. apply framing_refl. Qed.

Lemma frames_throw {A} (e : thrown) : frames R (@throw A e).
Proof. intros w. apply framing_refl. Qed.

Lemma frames_answer {A} (c : completion thrown A) : frames R (answer c).
Proof. intros w. apply framing_refl. Qed.

Lemma frames_builtin {A} (c : completion error A) : frames R (builtin c).
Proof. intros w. unfold builtin. destruct c; apply framing_refl. Qed.

Lemma frames_readMessage (caught : thrown) : frames R (readMessage caught).
Proof. intros w. destruct caught; apply framing_refl. Qed.

Lemma frames_get : frames R get.
Proof. intros w. apply framing_refl. Qed.

Lemma frames_bind {A B} (m : M A) (k : A -> M B) :
  frames R m -> (forall a, frames R (k a)) -> frames R (bind m k).
Proof.
  intros Hm Hk w. unfold bind. specialize (Hm w).
  destruct (m w) as [[a|e] w1]; simpl in *; [|exact Hm].
  eapply framing_trans; [exact Hm | apply Hk].
Qed.

Lemma frames_try_catch {A} (m : M A) (h : thrown -> M A) :
  frames R m -> (forall e, frames R (h e)) -> frames R (try_catch m h).
Proof.
  intros Hm Hh w. unfold try_catch. specialize (Hm w).
  destruct (m w) as [[a|e] w1]; simpl in *; [exact Hm|].
  eapply framing_trans; [exact Hm | apply Hh].
Qed.

Lemma frames_when (b : bool) (m : M unit) : frames R m -> frames R (when b m).
Proof. intros Hm. destruct b; [exact Hm | apply frames_ret]. Qed.

Lemma frames_emit (e : entry) : quiet e -> frames R (emit e).
Proof. intros He w. now apply framing_emit. Qed.

Lemma frames_log (text : string) : quiet (Log [VStr text]) -> frames R (log text).
Proof. apply frames_emit. Qed.

Lemma frames_logError (label : string) (e : thrown) :
  quiet (LogError [VStr label; VErr e]) -> frames R (logError label e).
Proof. apply frames_emit. Qed.

Lemma frames_send (r : request) : frames R (send r).
Proof. intros w. now apply framing_console. Qed.

Lemma frames_setDefaultBranch (b : string) : frames R (setDefaultBranch b).
Proof. intros w. now apply framing_console. Qed.

Lemma frames_cloned (p : path) : frames R (cloned p).
Proof. intros w. now apply framing_console. Qed.

Lemma frames_chdir (rel : string) : frames R (chdir rel).
Proof.
  intros w. unfold chdir.
  destruct (String.eqb rel ".."); [now apply framing_console|].
  destruct (isDir w (resolve w rel)); now apply framing_console.
Qed.

Lemma frames_existsSync (p : path) : frames R (existsSync p).
Proof. intros w. apply framing_refl. Qed.

Lemma frames_rmSync (E : env) (p : path) : frames R (rmSync E p).
Proof.
  intros w. unfold rmSync.
  destruct (rmFails E p); [apply framing_refl | now apply framing_console].
Qed.

Lemma frames_mkdirSync (E : env) (p : path) : frames R (mkdirSync E p).
Proof.
  intros w. unfold mkdirSync.
  destruct (mkdirFails E p); [apply framing_refl | now apply framing_console].
Qed.

Lemma frames_writeFileSync (E : env) (p : path) (data : string) :
  frames R (writeFileSync E p data).
Proof.
  intros w. unfold writeFileSync.
  destruct (writeFails E p); [apply framing_refl | now apply framing_console].
Qed.

Lemma frames_exec (E : env) (command : string) (dir : path) :
  frames R (exec E command dir).
Proof.
  unfold exec. apply frames_bind; [apply frames_send|].
  intros _. apply frames_builtin.
Qed.

Lemma frames_run (E : env) (command : string) : frames R (run E command).
Proof.
  unfold run. apply frames_bind; [apply frames_get|]. intros w.
  apply frames_bind; [apply frames_exec|]. intros _. apply frames_ret.
Qed.

End Frame.

(** One step of a frame proof; [quiet] goals are closed by computation. *)
Ltac frame_step :=
  first
    [ apply frames_ret | apply frames_throw | apply frames_answer
    | apply frames_builtin | apply frames_readMessage
    | apply frames_get | apply frames_send | apply frames_setDefaultBranch
    | apply frames_cloned | apply frames_chdir | apply frames_existsSync
    | apply frames_rmSync | apply frames_mkdirSync | apply frames_writeFileSync
    | apply frames_exec | apply frames_run
    | apply frames_log; cbv beta; first [reflexivity | exact I | solve [auto]]
    | apply frames_logError; cbv beta; first [reflexivity | exact I | solve [auto]]
    | apply frames_emit; cbv beta; first [reflexivity | exact I | solve [auto]]
    | apply frames_when
    | apply frames_bind; [ | intros ? ]
    | apply frames_try_catch; [ | intros ? ]
    | match goal with
      | |- frames _ (if ?b then _ else _) => destruct b
      | |- frames _ (match ?x with _ => _ end) => destruct x
      end ].

Ltac frame := cbv zeta; repeat frame_step.

#[export] Instance grows_framing : Framing grows (fun _ => True).
Proof.
  split.
  - intros w. exists []. now rewrite List.app_nil_r.
  - intros a b c [m1 H1] [m2 H2]. exists (m1 ++ m2)%list.
    now rewrite H2, H1, List.app_assoc.
  - intros w w' H. exists []. now rewrite List.app_nil_r.
  - intros e w _. now exists [e].
Qed.

End JsFacts.

(* ================================================================== *)
(** * Facts about the repository publisher *)
(* ================================================================== *)

Module PublisherFacts.
Import Str Js Frame JsFacts GitLabManager Scenario.
Local Open Scope js_scope.

#[export] Instance sameRuns_framing :
  Framing sameRuns (fun e => cleanupStarted e = false).
Proof.
  split; unfold sameRuns, cleanupRuns.
  - reflexivity.
  - intros a b c H1 H2. now rewrite H2.
  - intros w w' H. now rewrite H.
  - intros e w He. simpl. rewrite filter_app, length_app. simpl.
    rewrite He. simpl. lia.
Qed.

Section Stages.
Context {R : world -> world -> Prop}.
Context {F : Framing R (fun e => cleanupStarted e = false)}.
Variable E : env.
Variable config : GitLabConfig.

Lemma frames_cloneRepository : frames R (cloneRepository E config).
Proof. unfold cloneRepository, relative. frame. Qed.

Lemma frames_detectDefaultBranch : frames R (detectDefaultBranch E).
Proof. unfold detectDefaultBranch, relative. frame. Qed.

Lemma frames_createBranch b : frames R (createBranch E b).
Proof. unfold createBranch. frame. Qed.

Lemma frames_saveTemplate n h : frames R (saveTemplate E n h).
Proof. unfold saveTemplate. frame. Qed.

Lemma frames_commitAndPush b m : frames R (commitAndPush E b m).
Proof. unfold commitAndPush. frame. Qed.

Lemma frames_adoptDefaultBranch p : frames R (adoptDefaultBranch p).
Proof. unfold adoptDefaultBranch. frame. Qed.

Lemma frames_createMergeRequest mr : frames R (createMergeRequest E config mr).
Proof.
  unfold createMergeRequest. frame; try apply frames_adoptDefaultBranch.
Qed.

Lemma frames_stages n h mr : frames R (stages E config n h mr).
Proof.
  unfold stages.
  apply frames_bind; [apply frames_cloneRepository | intros _].
  apply frames_bind; [apply frames_detectDefaultBranch | intros _].
  apply frames_bind; [apply frames_createBranch | intros _].
  apply frames_bind; [apply frames_saveTemplate | intros _].
  apply frames_bind; [apply frames_commitAndPush | intros _].
  apply frames_createMergeRequest.
Qed.

End Stages.

Section Cleanup.
Variable E : env.

Lemma cleanup_unfold : cleanup E = (log "Cleaning up..." ;; cleanupRest E).
Proof. reflexivity. Qed.

Lemma frames_cleanupRest R quiet (F : Framing R quiet) :
  quiet (Log [VStr "Cleanup completed"]) ->
  (forall e, quiet (LogError [VStr "Error during cleanup:"; VErr e])) ->
  frames R (cleanupRest E).
Proof.
  intros Q1 Q2. unfold cleanupRest, relative. frame.
Qed.

(** Every run of [cleanup] is counted once, however it ends. *)
Lemma cleanup_counted (w : world) :
  cleanupRuns (snd (cleanup E w)) = S (cleanupRuns w).
Proof.
  rewrite cleanup_unfold. unfold bind, log at 1, emit, modify.
  set (w1 := World _ _ _ _ _ _).
  assert (H1 : cleanupRuns w1 = S (cleanupRuns w)).
  { unfold cleanupRuns, w1. simpl. rewrite filter_app, length_app. simpl. lia. }
  pose proof (@frames_cleanupRest sameRuns _ sameRuns_framing eq_refl
                (fun _ => eq_refl) w1) as H2.
  unfold sameRuns in H2. destruct (cleanupRest E w1) as [[[]|e] w2]; simpl in *; lia.
Qed.

Lemma cleanup_grows (w : world) : grows w (snd (cleanup E w)).
Proof.
  rewrite cleanup_unfold.
  apply (@frames_bind grows _ grows_framing).
  - now apply frames_log.
  - intros _. now apply (@frames_cleanupRest grows _ grows_framing).
Qed.

End Cleanup.

Section Publisher.
Variable E : env.
Variable config : GitLabConfig.
Variables templateName htmlCode : string.
Variable mrInfo : MergeRequestInfo.


(** The run when a stage throws: the [catch] block prints the error, runs
    [cleanup] and rethrows, unless [cleanup] throws first. *)
Lemma publisher_stage_throws (w w1 : world) (e : thrown) :
  stages E config templateName htmlCode mrInfo (started w) = (Throw e, w1) ->
  createTemplateAndMergeRequest E config templateName htmlCode mrInfo w =
    match cleanup E (caught e w1) with
    | (Return _, w2) => (Throw e, w2)
    | (Throw e', w2) => (Throw e', w2)
    end.
Proof.
  intros H. unfold createTemplateAndMergeRequest, try_catch.
  unfold bind at 1. fold (started w).
  change (snd (log (nl ++ "=== GITLAB OPERATIONS ===") w)) with (started w).
  assert (Hlog : log (nl ++ "=== GITLAB OPERATIONS ===") w = (Return tt, started w))
    by reflexivity.
  rewrite Hlog. unfold bind at 1. rewrite H.
  unfold bind at 1.
  assert (Hc : logError "Error in GitLab operations:" e w1 = (Return tt, caught e w1))
    by reflexivity.
  rewrite Hc. unfold bind.
  destruct (cleanup E (caught e w1)) as [[[]|e'] w2]; reflexivity.
Qed.

(** The run when every stage returns. *)
Lemma publisher_stages_return (w w1 : world) :
  stages E config templateName htmlCode mrInfo (started w) = (Return tt, w1) ->
  createTemplateAndMergeRequest E config templateName htmlCode mrInfo w =
    match cleanup E w1 with
    | (Return _, w2) =>
        (log (nl ++ "=== GITLAB OPERATIONS COMPLETED ===") ;;
         log ("Branch created: " ++ branchName mrInfo) ;;
         log ("Merge request title: " ++ title mrInfo) ;;
         log "Please check GitLab to verify the merge request was created successfully")
          w2
    | (Throw e, w2) =>
        match cleanup E (caught e w2) with
        | (Return _, w3) => (Throw e, w3)
        | (Throw e', w3) => (Throw e', w3)
        end
    end.
Proof.
  intros H. unfold createTemplateAndMergeRequest, try_catch.
  unfold bind at 1.
  assert (Hlog : log (nl ++ "=== GITLAB OPERATIONS ===") w = (Return tt, started w))
    by reflexivity.
  rewrite Hlog. unfold bind at 1. rewrite H.
  unfold bind at 1.
  destruct (cleanup E w1) as [[[]|e] w2].
  - reflexivity.
  - unfold bind at 1.
    assert (Hc : logError "Error in GitLab operations:" e w2 = (Return tt, caught e w2))
      by reflexivity.
    rewrite Hc. unfold bind.
    destruct (cleanup E (caught e w2)) as [[[]|e'] w3]; reflexivity.
Qed.

Lemma started_sameRuns (w : world) : cleanupRuns (started w) = cleanupRuns w.
Proof.
  unfold started.
  now apply (@framing_emit sameRuns _ sameRuns_framing).
Qed.

Lemma caught_sameRuns (e : thrown) (w : world) :
  cleanupRuns (caught e w) = cleanupRuns w.
Proof.
  unfold caught.
  now apply (@framing_emit sameRuns _ sameRuns_framing).
Qed.

Lemma stages_sameRuns (w : world) :
  cleanupRuns (snd (stages E config templateName htmlCode mrInfo w)) = cleanupRuns w.
Proof. apply (@frames_stages sameRuns sameRuns_framing). Qed.

(** Where [cleanup] does run once.  When a stage throws, [cleanup] runs
    exactly once before the error reaches the caller; when every stage
    returns and the [cleanup] of line 80 returns, [cleanup] has run
    exactly once. *)
Theorem cleanup_runs_once (w : world) :
  (forall e w1,
     stages E config templateName htmlCode mrInfo (started w) = (Throw e, w1) ->
     exists e' w2,
       createTemplateAndMergeRequest E config templateName htmlCode mrInfo w = (Throw e', w2) /\
       cleanupRuns w2 = S (cleanupRuns w)) /\
  (forall w1 w2,
     stages E config templateName htmlCode mrInfo (started w) = (Return tt, w1) ->
     cleanup E w1 = (Return tt, w2) ->
     exists w3,
       createTemplateAndMergeRequest E config templateName htmlCode mrInfo w = (Return tt, w3) /\
       cleanupRuns w3 = S (cleanupRuns w)).
Proof.
  split.
  - intros e w1 H. rewrite (publisher_stage_throws _ H).
    pose proof (stages_sameRuns (started w)) as Hs. rewrite H in Hs. simpl in Hs.
    pose proof (cleanup_counted E (caught e w1)) as Hc.
    rewrite caught_sameRuns, Hs, started_sameRuns in Hc.
    destruct (cleanup E (caught e w1)) as [[[]|e'] w2]; simpl in Hc; eauto.
  - intros w1 w2 H Hclean. rewrite (publisher_stages_return _ H), Hclean.
    pose proof (stages_sameRuns (started w)) as Hs. rewrite H in Hs. simpl in Hs.
    pose proof (cleanup_counted E w1) as Hc. rewrite Hclean in Hc. simpl in Hc.
    rewrite Hs, started_sameRuns in Hc.
    eexists. split; [reflexivity|].
    rewrite <- Hc. unfold cleanupRuns. simpl.
    rewrite <- !List.app_assoc, filter_app. simpl. now rewrite List.app_nil_r.
Qed.

(** A [cleanup] that throws has printed its error. *)
Lemma cleanup_throw_logged (w w' : world) (e : thrown) :
  cleanup E w = (Throw e, w') ->
  In (LogError [VStr "Error during cleanup:"; VErr e]) (console w').
Proof.
  rewrite cleanup_unfold. unfold bind at 1.
  destruct (log "Cleaning up..." w) as [[[]|e0] w0] eqn:Hlog; [|discriminate].
  unfold cleanupRest, try_catch.
  match goal with |- context [match ?body w0 with _ => _ end] =>
    destruct (body w0) as [[[]|e1] w1] end; [discriminate|].
  intros H. injection H as <- <-. simpl.
  apply in_or_app. right. now left.
Qed.

(** Claim C7, as amended.  When a stage throws, its error is printed and
    [cleanup] runs; the caller receives the stage's error when [cleanup]
    returns, and the error of [cleanup], printed as well, when [cleanup]
    throws. *)
Theorem cleanup_error_replaces_stage_error (w w1 : world) (e : thrown) :
  stages E config templateName htmlCode mrInfo (started w) = (Throw e, w1) ->
  (forall w2,
     cleanup E (caught e w1) = (Return tt, w2) ->
     createTemplateAndMergeRequest E config templateName htmlCode mrInfo w
     = (Throw e, w2)) /\
  (forall e' w2,
     cleanup E (caught e w1) = (Throw e', w2) ->
     createTemplateAndMergeRequest E config templateName htmlCode mrInfo w
     = (Throw e', w2) /\
     In (LogError [VStr "Error in GitLab operations:"; VErr e]) (console w2) /\
     In (LogError [VStr "Error during cleanup:"; VErr e']) (console w2)).
Proof.
  intros H. rewrite (publisher_stage_throws _ H). split.
  - intros w2 ->. reflexivity.
  - intros e' w2 Hc. rewrite Hc. split; [reflexivity|]. split.
    + destruct (cleanup_grows E (caught e w1)) as [more Hm].
      rewrite Hc in Hm. simpl in Hm. rewrite Hm.
      apply in_or_app. left. unfold caught. simpl.
      apply in_or_app. right. now left.
    + eapply cleanup_throw_logged. exact Hc.
Qed.

(** [cleanup] always leaves the process in the parent of the directory it
    was called in. *)
Lemma cleanup_cwd (w : world) :
  cwd (snd (cleanup E w)) = removelast (cwd w).
Proof.
  unfold cleanup, relative, existsSync, rmSync, when, chdir,
    log, logError, emit, modify, get, try_catch, bind, throw, ret.
  cbn.
  match goal with |- context [if ?b then _ else _] => destruct b end;
    cbn; [|reflexivity].
  match goal with |- context [rmFails E ?p] => destruct (rmFails E p) end;
    reflexivity.
Qed.

(** A failing [git clone] makes the first stage throw where it started. *)
Lemma cloneRepository_fails (w : world) (e : error) :
  (forall command dir,
     String.prefix "git clone" command = true ->
     execSync E command dir = Throw e) ->
  exists e' w',
    cloneRepository E config w = (Throw e', w') /\ cwd w' = cwd w.
Proof.
  intros Hclone.
  unfold cloneRepository, relative, run, exec, existsSync, rmSync, when,
    log, logError, emit, send, modify, get, answer, builtin, cloned,
    try_catch, bind, throw, ret.
  cbn.
  match goal with |- context [if ?b then _ else _] => destruct b end; cbn.
  - match goal with |- context [rmFails E ?p] => destruct (rmFails E p) end;
      cbn; [eauto|].
    rewrite Hclone by reflexivity. cbn. eauto.
  - rewrite Hclone by reflexivity. cbn. eauto.
Qed.

Lemma removelast_differs (A : Type) (l : list A) : l <> [] -> removelast l <> l.
Proof.
  intros Hne Heq. apply Hne.
  destruct (exists_last Hne) as (front & final & ->).
  rewrite removelast_last in Heq.
  apply (f_equal (@List.length A)) in Heq.
  rewrite length_app in Heq. simpl in Heq. lia.
Qed.

(** Claim C8, on the code.  When [git clone] fails, the run ends in the
    parent of the directory it was started in, which is another directory
    unless the run was started in the root: [cleanup] leaves a directory
    the run never entered. *)
Theorem clone_failure_moves_to_parent (w : world) (e : error) :
  (forall command dir,
     String.prefix "git clone" command = true ->
     execSync E command dir = Throw e) ->
  cwd (snd (createTemplateAndMergeRequest E config templateName htmlCode mrInfo w))
  = removelast (cwd w) /\
  (cwd w <> [] ->
   cwd (snd (createTemplateAndMergeRequest E config templateName htmlCode mrInfo w))
   <> cwd w).
Proof.
  intros Hclone.
  destruct (cloneRepository_fails (started w) Hclone) as (e' & w1 & Hc & Hcwd).
  assert (Hs : stages E config templateName htmlCode mrInfo (started w)
               = (Throw e', w1)).
  { unfold stages. unfold bind at 1. now rewrite Hc. }
  rewrite (publisher_stage_throws _ Hs).
  pose proof (cleanup_cwd (caught e' w1)) as Hclean.
  assert (Hparent :
    cwd (snd (match cleanup E (caught e' w1) with
              | (Return _, w2) => (@Throw thrown unit e', w2)
              | (Throw e2, w2) => (Throw e2, w2)
              end)) = removelast (cwd w)).
  { destruct (cleanup E (caught e' w1)) as [[[]|e2] w2]; simpl in *;
      rewrite Hclean; unfold caught; simpl; now rewrite Hcwd. }
  split; [exact Hparent|].
  intros Hne. rewrite Hparent. now apply removelast_differs.
Qed.

End Publisher.

(** A run in which everything succeeds ends where it started, with the
    workspace removed. *)
Lemma successful_run_restores_directory :
  fst (publish healthy) = Return tt /\
  cwd (snd (publish healthy)) = cwd startWorld /\
  isDir (snd (publish healthy)) (workspace home) = false.
Proof. vm_compute. repeat split. Qed.

(** Claim C7 as stated fails: [git push] is rejected, the workspace
    cannot be removed, and the caller receives the error of [cleanup]. *)
Lemma cleanup_error_masks_push_error :
  fst (stages (collaborators pushFails workspaceBusy) config
         "welcome_email" "<html></html>" mrInfo (started startWorld))
  = Throw pushRejected /\
  fst (publish (collaborators pushFails workspaceBusy)) = Throw busy /\
  busy <> pushRejected.
Proof. vm_compute. repeat split. discriminate. Qed.

(** The theorem at work: a rejected push, and a run in which everything
    succeeds. *)
Lemma cleanup_runs_once_on_rejected_push :
  (exists e w, publish (collaborators pushFails removable) = (Throw e, w) /\
               cleanupRuns w = 1) /\
  (exists w, publish healthy = (Return tt, w) /\ cleanupRuns w = 1).
Proof.
  split.
  - apply (proj1 (cleanup_runs_once (collaborators pushFails removable) config
                    "welcome_email" "<html></html>" mrInfo startWorld)
             pushRejected
             (snd (stages (collaborators pushFails removable) config
                     "welcome_email" "<html></html>" mrInfo
                     (started startWorld)))).
    vm_compute. reflexivity.
  - apply (proj2 (cleanup_runs_once healthy config
                    "welcome_email" "<html></html>" mrInfo startWorld)
             (snd (stages healthy config "welcome_email" "<html></html>" mrInfo
                     (started startWorld)))
             (snd (cleanup healthy
                     (snd (stages healthy config "welcome_email"
                             "<html></html>" mrInfo (started startWorld)))))).
    + vm_compute. reflexivity.
    + vm_compute. reflexivity.
Defined.

(** The theorem at work: after a rejected push the caller receives the
    push error when the workspace can be removed, and the removal error
    when it cannot. *)
Lemma stage_error_survives_only_a_clean_cleanup :
  fst (publish (collaborators pushFails removable)) = Throw pushRejected /\
  fst (publish (collaborators pushFails workspaceBusy)) = Throw busy.
Proof.
  split.
  - pose (E := collaborators pushFails removable).
    pose (w1 := snd (stages E config "welcome_email" "<html></html>" mrInfo
                       (started startWorld))).
    assert (Hstages : stages E config "welcome_email" "<html></html>" mrInfo
                        (started startWorld) = (Throw pushRejected, w1))
      by (vm_compute; reflexivity).
    destruct (cleanup_error_replaces_stage_error E config "welcome_email"
                "<html></html>" mrInfo startWorld Hstages) as [Hclean _].
    unfold publish. fold E.
    rewrite (Hclean (snd (cleanup E (caught pushRejected w1))));
      [reflexivity | vm_compute; reflexivity].
  - pose (E := collaborators pushFails workspaceBusy).
    pose (w1 := snd (stages E config "welcome_email" "<html></html>" mrInfo
                       (started startWorld))).
    assert (Hstages : stages E config "welcome_email" "<html></html>" mrInfo
                        (started startWorld) = (Throw pushRejected, w1))
      by (vm_compute; reflexivity).
    destruct (cleanup_error_replaces_stage_error E config "welcome_email"
                "<html></html>" mrInfo startWorld Hstages) as [_ Hbusy].
    unfold publish. fold E.
    destruct (Hbusy busy (snd (cleanup E (caught pushRejected w1))))
      as [-> _]; [vm_compute; reflexivity | reflexivity].
Defined.

(** The theorem at work: started in [/home/dev], a run whose clone fails
    ends in [/home]. *)
Lemma clone_failure_leaves_home_dev :
  cwd startWorld = ["home"; "dev"] /\
  cwd (snd (publish (collaborators cloneFails removable))) = ["home"].
Proof.
  split; [reflexivity|].
  unfold publish.
  rewrite (proj1 (@clone_failure_moves_to_parent
                    (collaborators cloneFails removable)
                    config "welcome_email" "<html></html>" mrInfo startWorld
                    cloneRejected
                    (fun command dir H =>
                       f_equal (fun b : bool =>
                                  if b then Throw cloneRejected
                                  else Return EmptyString) H))).
  reflexivity.
Defined.

(** Closes a case of the detection lemma: the hypotheses name the
    answers of the two git commands and the goal reads the final world. *)
Ltac detect_cases :=
  repeat match goal with
         | H : _ \/ _ |- _ => destruct H
         | H : exists _, _ |- _ => destruct H
         | H : _ /\ _ |- _ => destruct H
         | H : Return _ = Return _ |- _ => injection H as <-
         | H : Throw _ = Throw _ |- _ => injection H as <-
         | H : Return _ = Throw _ |- _ => discriminate H
         | H : Throw _ = Return _ |- _ => discriminate H
         | H : matchHeadBranch ?o = _, H' : context [matchHeadBranch ?o] |- _ =>
             rewrite H in H'
         | H : Some _ = Some _ |- _ => injection H as <-
         | H : Some _ = None |- _ => discriminate H
         | H : None = Some _ |- _ => discriminate H
         | H : true = false |- _ => discriminate H
         | H : false = true |- _ => discriminate H
         end;
  try assumption; try reflexivity; try congruence;
  try (apply in_or_app; right; now left);
  try (apply in_or_app; left; apply in_or_app; right; now left).

(** ** What git prints *)

Lemma matchHeadBranch_remoteShow (url reported rest : string) :
  includes url " " = false ->
  oneLine reported = true ->
  matchHeadBranch (remoteShow url reported rest) = Some reported.
Proof.
  intros Hu Hr. unfold remoteShow, nl.
  repeat (rewrite ?StrFacts.app_assoc; cbn -[untilEol];
          rewrite ?StrFacts.matchHeadBranch_skips_word by assumption).
  rewrite StrFacts.prefix_empty. f_equal. now apply (@StrFacts.untilEol_oneLine reported rest).
Qed.

(** ** Reading the branch listing *)

Lemma includes_branchListing (current name q : string) (names : list string) :
  In name names -> startsWith name q = true ->
  includes (branchListing current names) ("remotes/origin/" ++ q) = true.
Proof.
  intros Hin Hq. unfold branchListing.
  apply (@StrFacts.includes_behind "* "), (@StrFacts.includes_behind current), (@StrFacts.includes_behind nl).
  induction names as [|n names IH]; [contradiction|].
  cbn [fold_right]. destruct Hin as [->|Hin].
  - apply (@StrFacts.includes_behind "  " ("remotes/origin/" ++ name ++ nl ++ _)).
    apply StrFacts.includes_prefix. rewrite StrFacts.prefix_app_same. now apply StrFacts.prefix_app_r.
  - apply (@StrFacts.includes_behind "  remotes/origin/"), (@StrFacts.includes_behind n),
      (@StrFacts.includes_behind nl).
    now apply IH.
Qed.


Section WithEnv.
Variable E : env.

(** What [detectDefaultBranch] does, in terms of the two texts it reads. *)
Lemma detection_by_text (w : world) :
  let dir := workspace (cwd w) in
  let remote := execSync E "git remote show origin" dir in
  let branches := execSync E "git branch -a" dir in
  let after := snd (detectDefaultBranch E w) in
  fst (detectDefaultBranch E w) = Return tt /\
  (forall output captured,
     remote = Return output -> matchHeadBranch output = Some captured ->
     captured <> EmptyString ->
     defaultBranch after = trim captured) /\
  (forall output listing,
     remote = Return output -> matchHeadBranch output = None ->
     branches = Return listing ->
     (includes listing "remotes/origin/main" = true ->
      defaultBranch after = "main") /\
     (includes listing "remotes/origin/main" = false ->
      includes listing "remotes/origin/master" = true ->
      defaultBranch after = "master") /\
     (includes listing "remotes/origin/main" = false ->
      includes listing "remotes/origin/master" = false ->
      defaultBranch after = defaultBranch w /\
      In (Log [VStr ("Warning: Could not determine default branch, using " ++
                     dq ++ "main" ++ dq ++ " as fallback")])
         (console after))) /\
  (forall e,
     remote = Throw e \/
     (exists output,
        remote = Return output /\ matchHeadBranch output = None /\
        branches = Throw e) ->
     defaultBranch after = defaultBranch w /\
     In (LogError [VStr "Error detecting default branch:"; VErr e])
        (console after) /\
     In (Log [VStr "Using default branch: main"]) (console after)).
Proof.
  intros dir remote branches after.
  subst after remote branches dir.
  unfold detectDefaultBranch, relative, exec, try_catch, bind, answer, builtin, get,
    ret, send, log, logError, emit, setDefaultBranch, modify, resolve, workspace.
  cbn [cwd dirs files console requests defaultBranch fst snd].
  destruct (execSync E "git remote show origin" (cwd w ++ [tempDir])%list)
    as [output|e1] eqn:Hremote.
  - destruct (matchHeadBranch output) as [[|c rest]|] eqn:Hhead;
      cbn -[trim includes].
    all: try (destruct (execSync E "git branch -a" (cwd w ++ [tempDir])%list)
                as [listing|e2] eqn:Hbranches; cbn -[trim includes]).
    all: try (destruct (includes listing "remotes/origin/main") eqn:Hmain;
              cbn -[trim includes]).
    all: try (destruct (includes listing "remotes/origin/master") eqn:Hmaster;
              cbn -[trim includes]).
    all: repeat split; try reflexivity; intros; detect_cases.
  - cbn. repeat split; try reflexivity; intros; detect_cases.
Qed.

(** Claim C6, on the code.  [detectDefaultBranch] never throws, and it
    goes by the text of the two outputs, not by the branches of the
    remote.  Whatever the first [HEAD branch: ] line reports becomes the
    default branch, also git's [(unknown)].  Without such a line, ['main']
    is taken as soon as the name of some remote branch starts with
    [main], whether or not a branch [main] exists; ['master'] likewise,
    where the text [remotes/origin/main] occurs nowhere.  Where no remote
    branch is listed at all, or a git command fails, the field keeps the
    value it had, while the console says ['main']. *)
Theorem default_branch_detection (w : world) :
  let dir := workspace (cwd w) in
  let remote := execSync E "git remote show origin" dir in
  let branches := execSync E "git branch -a" dir in
  let after := snd (detectDefaultBranch E w) in
  fst (detectDefaultBranch E w) = Return tt /\
  (forall url reported rest,
     includes url " " = false ->
     oneLine reported = true ->
     reported <> EmptyString ->
     remote = Return (remoteShow url reported rest) ->
     defaultBranch after = trim reported) /\
  (forall output listing,
     remote = Return output ->
     includes output "HEAD branch: " = false ->
     branches = Return listing ->
     (forall current names name,
        listing = branchListing current names ->
        In name names -> startsWith name "main" = true ->
        defaultBranch after = "main") /\
     (forall current names name,
        includes listing "remotes/origin/main" = false ->
        listing = branchListing current names ->
        In name names -> startsWith name "master" = true ->
        defaultBranch after = "master") /\
     (includes listing "remotes/origin/" = false ->
      defaultBranch after = defaultBranch w /\
      In (Log [VStr ("Warning: Could not determine default branch, using " ++
                     dq ++ "main" ++ dq ++ " as fallback")])
         (console after))) /\
  (forall e,
     remote = Throw e \/
     (exists output,
        remote = Return output /\ includes output "HEAD branch: " = false /\
        branches = Throw e) ->
     defaultBranch after = defaultBranch w /\
     In (LogError [VStr "Error detecting default branch:"; VErr e])
        (console after) /\
     In (Log [VStr "Using default branch: main"]) (console after)).
Proof.
  intros dir remote branches after.
  destruct (detection_by_text w) as (Hret & Hhead & Hlist & Hfail).
  fold dir in Hhead, Hlist, Hfail. fold remote in Hhead, Hlist, Hfail.
  fold branches in Hlist, Hfail. fold after in Hhead, Hlist, Hfail.
  split; [exact Hret|]. split; [|split].
  - intros url reported rest Hurl Hline Hne Hremote.
    apply (Hhead _ reported Hremote); [|exact Hne].
    now apply matchHeadBranch_remoteShow.
  - intros output listing Hremote Habsent Hbranches.
    apply StrFacts.matchHeadBranch_absent in Habsent.
    destruct (Hlist output listing Hremote Habsent Hbranches)
      as (Hmain & Hmaster & Hnone).
    split; [|split].
    + intros current names name -> Hin Hstart. apply Hmain.
      now apply includes_branchListing with name.
    + intros current names name Hno -> Hin Hstart. apply Hmaster; [exact Hno|].
      now apply includes_branchListing with name.
    + intros Hno. apply Hnone.
      * destruct (includes listing "remotes/origin/main") eqn:H; [|reflexivity].
        apply (@StrFacts.includes_shorter listing "remotes/origin/" "main") in H.
        congruence.
      * destruct (includes listing "remotes/origin/master") eqn:H; [|reflexivity].
        apply (@StrFacts.includes_shorter listing "remotes/origin/" "master") in H.
        congruence.
  - intros e [Hremote|(output & Hremote & Habsent & Hbranches)].
    + apply Hfail. now left.
    + apply Hfail. right. exists output.
      split; [exact Hremote|]. split; [|exact Hbranches].
      now apply StrFacts.matchHeadBranch_absent.
Qed.

End WithEnv.

(** The theorem at work.  The remote has [maintenance] and [master] and
    an ambiguous HEAD: ['main'] is chosen, a branch that does not exist.
    The remote is empty and git reports [(unknown)]: that becomes the
    default branch. *)
Lemma maintenance_is_taken_for_main :
  let detected exec :=
    defaultBranch (snd (detectDefaultBranch (collaborators exec removable)
                          startWorld)) in
  ~ In "main" maintenanceAndMaster /\
  In "master" maintenanceAndMaster /\
  detected (gitOutput ambiguousHead (branchListing "master" maintenanceAndMaster))
  = "main" /\
  detected (gitOutput (remoteShow "https://gitlab.com/acme/empty.git" "(unknown)"
                         "  Remote branches:")
                      (branchListing "master" ["master"]))
  = "(unknown)".
Proof.
  intros detected. subst detected. cbv beta.
  split; [intros [H|[H|[]]]; discriminate H|].
  split; [right; now left|].
  split.
  - destruct (@default_branch_detection
                (collaborators
                   (gitOutput ambiguousHead
                      (branchListing "master" maintenanceAndMaster)) removable)
                startWorld) as (_ & _ & Hlist & _).
    exact (proj1 (Hlist ambiguousHead
                    (branchListing "master" maintenanceAndMaster)
                    eq_refl eq_refl eq_refl)
             "master" maintenanceAndMaster "maintenance" eq_refl
             (or_introl eq_refl) eq_refl).
  - destruct (@default_branch_detection
                (collaborators
                   (gitOutput (remoteShow "https://gitlab.com/acme/empty.git"
                                 "(unknown)" "  Remote branches:")
                      (branchListing "master" ["master"])) removable)
                startWorld) as (_ & Hhead & _).
    assert (Hne : "(unknown)" <> EmptyString) by discriminate.
    exact (Hhead "https://gitlab.com/acme/empty.git" "(unknown)"
             "  Remote branches:" eq_refl eq_refl Hne eq_refl).
Defined.

(** The field initialiser: a publisher that was built has ['main'] as its
    default branch. *)
Lemma constructor_defaultBranch penv cfg w w' :
  constructor penv w = (Return cfg, w') -> defaultBranch w' = "main".
Proof.
  unfold constructor, bind, setDefaultBranch, modify, log, emit, throw, ret.
  cbn. destruct (negb (given (GITLAB_TOKEN penv))); [discriminate|].
  destruct (negb (given (REPO_NAME penv))); [discriminate|].
  intros H. injection H as _ <-. reflexivity.
Qed.

(** The constructor of [src/unnamed/part_001] refuses a missing token or
    repository name before anything is sent or printed. *)
Theorem constructor_fails_fast penv w :
  given (GITLAB_TOKEN penv) = false \/ given (REPO_NAME penv) = false ->
  exists e,
    fst (constructor penv w) = Throw e /\
    requests (snd (constructor penv w)) = requests w /\
    console (snd (constructor penv w)) = console w.
Proof.
  unfold constructor, bind, setDefaultBranch, modify, log, emit, throw, ret.
  cbn. intros [H|H].
  - rewrite H. cbn. eauto.
  - destruct (given (GITLAB_TOKEN penv)); cbn; [rewrite H; cbn|]; eauto.
Qed.

Lemma orElse_absent (v : option string) (fallback : string) :
  given v = false -> orElse v fallback = fallback.
Proof.
  destruct v as [text|]; simpl; [|reflexivity].
  now destruct (String.eqb text EmptyString).
Qed.

(** Claim C9, on the code.  When the token or the repository name is
    absent from the environment, the constructor of
    [cmd_definitions/jira_test/GitLabManager.ts] returns a publisher whose
    token or repository name is empty, where the constructor of
    [src/unnamed/part_001] throws. *)
Theorem jira_test_constructor_accepts_missing_credentials
  (penv : processEnv) (w : world) :
  given (GITLAB_TOKEN penv) = false \/ given (REPO_NAME penv) = false ->
  (exists config,
     GitLabManagerJiraTest.constructor penv w = (Return config, w) /\
     (token config = EmptyString \/ repoName config = EmptyString)) /\
  (exists e, fst (GitLabManager.constructor penv w) = Throw e).
Proof.
  intros Habsent. split.
  - eexists. split; [reflexivity|]. simpl.
    destruct Habsent as [H|H]; [left | right]; now apply orElse_absent.
  - destruct (constructor_fails_fast penv w Habsent) as (e & He & _).
    now exists e.
Qed.

(** The theorem at work: an environment with neither variable. *)
Lemma jira_test_constructor_on_empty_environment :
  let penv := {| GITLAB_TOKEN := None; GITLAB_BASE_URL := None;
                 REPO_NAME := None |} in
  given (GITLAB_TOKEN penv) = false /\
  (exists config,
     GitLabManagerJiraTest.constructor penv startWorld
     = (Return config, startWorld) /\
     (token config = EmptyString \/ repoName config = EmptyString)) /\
  (exists e, fst (GitLabManager.constructor penv startWorld) = Throw e).
Proof.
  intros penv. split; [reflexivity|].
  apply jira_test_constructor_accepts_missing_credentials.
  left. reflexivity.
Defined.

End PublisherFacts.

(* ================================================================== *)
(** * Facts about the metadata extractor *)
(* ================================================================== *)

Module AnalyzerFacts.
Import Str Clean Js StrFacts TemplateAnalyzer Scenario.
Local Open Scope js_scope.

(** The boolean test of line 97 decides the specification's relation. *)
Lemma startsWithIgnoringCase_iff (branchName ticketId : string) :
  startsWithIgnoringCase branchName ticketId <->
  startsWith (toLowerCase branchName) (toLowerCase ticketId) = true.
Proof.
  unfold startsWithIgnoringCase, startsWith. split.
  - intros (head & rest & -> & Hhead).
    rewrite toLowerCase_app, Hhead. apply prefix_app.
  - intros H. apply prefix_split in H as [rest H].
    apply toLowerCase_split in H as (head & tail & -> & Hhead & _).
    now exists head, tail.
Qed.

Lemma lookup_assign (key : string) (x : json) (members : list (string * json)) :
  lookup key (assign key x members) = Some x.
Proof.
  induction members as [|[k v] rest IH]; simpl.
  - now rewrite String.eqb_refl.
  - destruct (String.eqb k key) eqn:Hk; simpl; now rewrite Hk.
Qed.

Lemma lookup_assign_other (key k : string) (x : json)
  (members : list (string * json)) :
  String.eqb key k = false ->
  lookup k (assign key x members) = lookup k members.
Proof.
  intros Hk. induction members as [|[k' v] rest IH]; simpl.
  - now rewrite Hk.
  - destruct (String.eqb k' key) eqn:Hkey; simpl.
    + apply String.eqb_eq in Hkey. subst k'. now rewrite Hk.
    + rewrite IH. reflexivity.
Qed.

(** Setting a non-empty branch name keeps an analysis complete. *)
Lemma assign_branchName_complete (members : list (string * json)) (b : string) :
  b <> EmptyString ->
  missingRequired (JObject members) = false ->
  missingRequired (JObject (assign "branchName" (JString b) members)) = false.
Proof.
  intros Hb. unfold missingRequired, member.
  rewrite lookup_assign.
  rewrite !(@lookup_assign_other "branchName") by reflexivity.
  intros H. repeat (apply orb_false_iff in H as [H ?]).
  repeat (apply orb_false_iff; split); try assumption.
  simpl. apply String.eqb_neq in Hb. now rewrite Hb.
Qed.

(** Claim C3.  When the branch name does not start with the ticket
    identifier in any casing, lines 96-99 set it to the lower-cased ticket
    identifier, a hyphen and the lower-cased branch name; when it does,
    they leave the analysis as it is. *)
Theorem branch_name_normalised
  (ticketId branchName : string) (members : list (string * json)) (w : world) :
  lookup "branchName" members = Some (JString branchName) ->
  (~ startsWithIgnoringCase branchName ticketId ->
   exists analysis,
     ensureTicketPrefix ticketId (JObject members) w = (Return analysis, w) /\
     branchNameOf analysis
     = Some (toLowerCase ticketId ++ "-" ++ toLowerCase branchName)) /\
  (startsWithIgnoringCase branchName ticketId ->
   ensureTicketPrefix ticketId (JObject members) w
   = (Return (JObject members), w)).
Proof.
  intros Hb. unfold ensureTicketPrefix, member. rewrite Hb. split.
  - intros Hno. rewrite startsWithIgnoringCase_iff in Hno.
    apply not_true_is_false in Hno. rewrite Hno. simpl.
    eexists. split; [reflexivity|].
    unfold branchNameOf. simpl. now rewrite lookup_assign.
  - intros Hyes. apply startsWithIgnoringCase_iff in Hyes.
    now rewrite Hyes.
Qed.

(** A missing or falsy required field makes the condition of lines 90-92
    true. *)
Lemma missingRequired_of_falsy :
  forall (analysis : json) (field : string),
  In field required ->
  truthyOpt (member field analysis) = false ->
  missingRequired analysis = true.
Proof.
  intros analysis field. unfold required, missingRequired. simpl.
  intros [<-|[<-|[<-|[<-|[<-|[<-|[<-|[]]]]]]]] ->; simpl;
    rewrite ?orb_true_r; reflexivity.
Qed.

Section WithEnv.
Variable E : env.

Lemma analyze_parse_throws (description ticketKey text : string) (e : error) (w : world) :
  generateContent E description ticketKey = Return text ->
  JSON_parse E (cleanJsonResponse text) = Throw e ->
  analyzeTicketDescription E description ticketKey w
  = (Throw parseFailure, diagnosed e text (received description ticketKey text w)).
Proof.
  intros Hg Hp. unfold analyzeTicketDescription, try_catch, bind, answer, builtin.
  simpl. rewrite Hg, Hp. reflexivity.
Qed.

Lemma analyze_validation_throws
  (description ticketKey text : string) (analysis : json) (w : world) :
  generateContent E description ticketKey = Return text ->
  JSON_parse E (cleanJsonResponse text) = Return analysis ->
  missingRequired analysis = true ->
  exists inner,
    analyzeTicketDescription E description ticketKey w
    = (Throw parseFailure,
       diagnosed inner text (received description ticketKey text w)).
Proof.
  intros Hg Hp Hm. unfold analyzeTicketDescription, try_catch, bind, answer, builtin.
  simpl. rewrite Hg, Hp. unfold validate.
  destruct analysis; try rewrite Hm; simpl; eexists; reflexivity.
Qed.

(** Property X8.  What the extractor returns has all seven required fields. *)
Lemma returned_analysis_is_complete
  (description ticketKey : string) (analysis : json) (w w' : world) :
  analyzeTicketDescription E description ticketKey w = (Return analysis, w') ->
  missingRequired analysis = false.
Proof.
  unfold analyzeTicketDescription, try_catch, bind, answer, builtin. simpl.
  destruct (generateContent E description ticketKey) as [text|e];
    [|discriminate].
  destruct (JSON_parse E (cleanJsonResponse text)) as [parsed|e];
    [|discriminate].
  unfold validate.
  destruct parsed as [ | | | | |members]; try discriminate;
    destruct (missingRequired _) eqn:Hm; try discriminate;
    unfold ensureTicketPrefix, member;
    try discriminate.
  destruct (lookup "branchName" members) as [[ | | |b| | ]|]; try discriminate.
  destruct (negb _); simpl; intros H; injection H as <- _; [|exact Hm].
  apply assign_branchName_complete; [|exact Hm].
  now destruct (toLowerCase ticketKey).
Qed.

(** Claim C4, on the code.  A candidate that lacks one of the seven
    required fields, or holds a falsy value there, makes the extraction
    throw and return no analysis; but the error that reaches the caller
    is the parse failure of line 105, not the validation error of line
    93, which the [catch] of line 102 replaces. *)
Theorem missing_field_reported_as_parse_failure
  (description ticketKey text field : string) (analysis : json) (w : world) :
  generateContent E description ticketKey = Return text ->
  JSON_parse E (cleanJsonResponse text) = Return analysis ->
  In field required ->
  truthyOpt (member field analysis) = false ->
  fst (analyzeTicketDescription E description ticketKey w) = Throw parseFailure /\
  parseFailure <> validationError.
Proof.
  intros Hg Hp Hin Hf.
  pose proof (@missingRequired_of_falsy analysis field Hin Hf) as Hm.
  destruct (@analyze_validation_throws description ticketKey text analysis w
              Hg Hp Hm) as [inner ->].
  split; [reflexivity | discriminate].
Qed.

(** Claim C5, on the code.  Malformed JSON and a missing required field
    end in the very same thrown error, so the caller cannot tell them
    apart; in both cases the cleaned and the raw text are on the
    console. *)
Theorem parse_and_validation_failures_coincide
  (description ticketKey text : string) (w : world) :
  generateContent E description ticketKey = Return text ->
  (exists e, JSON_parse E (cleanJsonResponse text) = Throw e) \/
  (exists analysis,
     JSON_parse E (cleanJsonResponse text) = Return analysis /\
     missingRequired analysis = true) ->
  let outcome := analyzeTicketDescription E description ticketKey w in
  fst outcome = Throw parseFailure /\
  In (Log [VStr "Cleaned response:"; VStr (cleanJsonResponse text)])
     (console (snd outcome)) /\
  In (LogError [VStr "Raw response:"; VStr text]) (console (snd outcome)).
Proof.
  intros Hg Hfail outcome. subst outcome.
  assert (Hshape : exists inner,
    analyzeTicketDescription E description ticketKey w
    = (Throw parseFailure,
       diagnosed inner text (received description ticketKey text w))).
  { destruct Hfail as [[e Hp] | (analysis & Hp & Hm)].
    - exists e. now apply analyze_parse_throws.
    - now apply analyze_validation_throws with analysis. }
  destruct Hshape as [inner ->]. simpl.
  split; [reflexivity|]. split.
  - apply in_or_app. left. apply in_or_app. left. apply in_or_app. left.
    apply in_or_app. right. now left.
  - apply in_or_app. left. apply in_or_app. right. now left.
Qed.

End WithEnv.

(** The theorem at work on ticket PROJ-123. *)
Lemma branch_name_normalised_for_PROJ_123 :
  (exists analysis,
     ensureTicketPrefix "PROJ-123"
       (JObject [("branchName", JString "Add-Welcome-Email")]) startWorld
     = (Return analysis, startWorld) /\
     branchNameOf analysis = Some "proj-123-add-welcome-email") /\
  ensureTicketPrefix "PROJ-123"
    (JObject [("branchName", JString "Proj-123-welcome")]) startWorld
  = (Return (JObject [("branchName", JString "Proj-123-welcome")]), startWorld).
Proof.
  split.
  - apply (@branch_name_normalised "PROJ-123" "Add-Welcome-Email"
             [("branchName", JString "Add-Welcome-Email")] startWorld eq_refl).
    rewrite startsWithIgnoringCase_iff. vm_compute. discriminate.
  - apply (@branch_name_normalised "PROJ-123" "Proj-123-welcome"
             [("branchName", JString "Proj-123-welcome")] startWorld eq_refl).
    apply startsWithIgnoringCase_iff. reflexivity.
Defined.

(** The theorem at work: the backend answers with an empty object. *)
Lemma empty_object_reported_as_parse_failure :
  fst (analyzeTicketDescription emptyObjectBackend
         "Add a welcome email" "PROJ-123" startWorld)
  = Throw parseFailure.
Proof.
  apply (@missing_field_reported_as_parse_failure emptyObjectBackend
           "Add a welcome email" "PROJ-123" (fenced "json" "{}")
           "commitMessage" (JObject []) startWorld).
  - reflexivity.
  - reflexivity.
  - simpl. tauto.
  - reflexivity.
Defined.

(** The theorem at work: prose and an empty object end in the same
    error. *)
Lemma prose_and_empty_object_fail_alike :
  fst (analyzeTicketDescription proseBackend
         "Add a welcome email" "PROJ-123" startWorld)
  = Throw parseFailure /\
  fst (analyzeTicketDescription emptyObjectBackend
         "Add a welcome email" "PROJ-123" startWorld)
  = Throw parseFailure.
Proof.
  split.
  - assert (Hprose :
      (exists e, JSON_parse proseBackend
                   (cleanJsonResponse "oops, no JSON here") = Throw e) \/
      (exists analysis,
         JSON_parse proseBackend (cleanJsonResponse "oops, no JSON here")
         = Return analysis /\
         missingRequired analysis = true)).
    { left. eexists. vm_compute. reflexivity. }
    destruct (@parse_and_validation_failures_coincide proseBackend
                "Add a welcome email" "PROJ-123" "oops, no JSON here"
                startWorld eq_refl Hprose) as [Hthrown _].
    exact Hthrown.
  - assert (Hempty :
      (exists e, JSON_parse emptyObjectBackend
                   (cleanJsonResponse (fenced "json" "{}")) = Throw e) \/
      (exists analysis,
         JSON_parse emptyObjectBackend (cleanJsonResponse (fenced "json" "{}"))
         = Return analysis /\
         missingRequired analysis = true)).
    { right. exists (JObject []). split; vm_compute; reflexivity. }
    destruct (@parse_and_validation_failures_coincide emptyObjectBackend
                "Add a welcome email" "PROJ-123" (fenced "json" "{}")
                startWorld eq_refl Hempty) as [Hthrown _].
    exact Hthrown.
Defined.

End AnalyzerFacts.

(* ================================================================== *)
(** * Facts about the command handler *)
(* ================================================================== *)

Module HandlerFacts.
Import Str Js GitLabManager ComandHandler Scenario.
Local Open Scope js_scope.

Section WithEnv.
Variable E : env.
Variable gitLabManager : GitLabConfig.


End WithEnv.



End HandlerFacts.

(* ================================================================== *)
(** * What the cleaners return *)
(* ================================================================== *)

Module CleanOutput.
Import Str Clean Measure StrFacts CleanFacts.

Lemma prefix_tick_cons (p r : string) (c : ascii) :
  String.prefix (String tick p) (String c r)
  = Ascii.eqb c tick && String.prefix p r.
Proof.
  destruct (Ascii.eqb_spec c tick) as [->|ne].
  - cbn [String.prefix]. now destruct (ascii_dec tick tick).
  - rewrite prefix_head by congruence. reflexivity.
Qed.

Lemma prefix_fence_ticks (s : string) :
  String.prefix "```" s = true <-> 3 <= leadingTicks s.
Proof.
  change "```" with (String tick (String tick (String tick EmptyString))).
  destruct s as [|a [|b [|c s]]]; cbn [leadingTicks];
    rewrite ?prefix_tick_cons, ?prefix_empty;
    try (simpl; split; [discriminate | lia]);
    repeat match goal with
           | |- context [Ascii.eqb ?x tick] => destruct (Ascii.eqb x tick)
           end; simpl; split; intros; try lia; try discriminate; reflexivity.
Qed.

(** Scanning a string that starts with fewer than three backticks keeps
    them all. *)
Lemma removeAll_leadingTicks (s : string) :
  leadingTicks s < 3 ->
  leadingTicks (removeAll "```" Scanning s) = leadingTicks s.
Proof.
  induction s as [|c r IH]; intros H; [reflexivity|].
  cbn [removeAll].
  destruct (String.prefix "```" (String c r)) eqn:Hp.
  - apply prefix_fence_ticks in Hp. lia.
  - cbn [leadingTicks] in *. destruct (Ascii.eqb c tick); [|reflexivity].
    rewrite IH by lia. reflexivity.
Qed.

(** What the second replacement returns holds no fence, in whatever state
    the scanner is. *)
Lemma removeAll_no_fence (s : string) : forall st,
  includes (removeAll "```" st s) "```" = false.
Proof.
  induction s as [|c r IH]; intros st; [reflexivity|].
  assert (Hlook :
    includes (if String.prefix "```" (String c r)
              then removeAll "```" (enter (String.length "```" - 1)) r
              else String c (removeAll "```" Scanning r)) "```" = false).
  { destruct (String.prefix "```" (String c r)) eqn:Hp; [apply IH|].
    cbn [includes]. rewrite IH, orb_false_r.
    destruct (String.prefix "```" (String c (removeAll "```" Scanning r)))
      eqn:Hq; [|reflexivity].
    apply prefix_fence_ticks in Hq.
    assert (Hs : leadingTicks (String c r) < 3).
    { destruct (le_lt_dec 3 (leadingTicks (String c r))) as [Hge|]; [|assumption].
      apply prefix_fence_ticks in Hge. congruence. }
    cbn [leadingTicks] in *. destruct (Ascii.eqb c tick); [|lia].
    rewrite removeAll_leadingTicks in Hq by lia. lia. }
  cbn [removeAll]. destruct st as [|[|k]|]; try exact Hlook; try apply IH.
  destruct (Ascii.eqb c lf); [apply IH | exact Hlook].
Qed.

(** A string without a fence has none once its front is cut off ... *)
Lemma includes_trimStart (s p : string) :
  includes s p = false -> includes (trimStart s) p = false.
Proof.
  induction s as [|c r IH]; intros H; [exact H|].
  simpl. destruct (isSpace c); [|exact H].
  apply IH. eapply includes_tail. exact H.
Qed.

Lemma includes_drop (n : nat) : forall s p,
  includes s p = false -> includes (drop n s) p = false.
Proof.
  induction n as [|n IH]; intros s p H; [exact H|].
  destruct s as [|c r]; [exact H|]. simpl. apply IH.
  eapply includes_tail. exact H.
Qed.

(** ... nor in what is left when its end is cut off. *)
Lemma includes_app_l (a b p : string) :
  p <> EmptyString ->
  includes (a ++ b) p = false -> includes a p = false.
Proof.
  intros Hp. induction a as [|c a IH]; intros H.
  - destruct p; [congruence | reflexivity].
  - change (String c a ++ b) with (String c (a ++ b)) in H.
    cbn [includes] in *. apply orb_false_iff in H as [H1 H2].
    rewrite IH by assumption. rewrite orb_false_r.
    destruct (String.prefix p (String c a)) eqn:Hq; [|reflexivity].
    apply prefix_app_r with (b := b) in Hq.
    change (String c a ++ b) with (String c (a ++ b)) in Hq. congruence.
Qed.

Lemma trimEnd_is_prefix (s : string) : exists rest, s = trimEnd s ++ rest.
Proof.
  induction s as [|c r [rest IH]]; [now exists EmptyString|].
  simpl. destruct (trimEnd r) as [|d t] eqn:Ht.
  - destruct (isSpace c).
    + now exists (String c r).
    + exists r. reflexivity.
  - exists rest. rewrite IH at 1. reflexivity.
Qed.

Lemma dropLast_is_prefix (s : string) : exists rest, s = dropLast s ++ rest.
Proof.
  induction s as [|c r [rest IH]]; [now exists EmptyString|].
  simpl. destruct r as [|d t].
  - now exists (String c EmptyString).
  - exists rest. rewrite IH at 1. reflexivity.
Qed.

Lemma includes_trimEnd (s p : string) :
  p <> EmptyString ->
  includes s p = false -> includes (trimEnd s) p = false.
Proof.
  intros Hp H. destruct (trimEnd_is_prefix s) as [rest Hs].
  rewrite Hs in H. now apply includes_app_l in H.
Qed.

Lemma includes_dropLast (s p : string) :
  p <> EmptyString ->
  includes s p = false -> includes (dropLast s) p = false.
Proof.
  intros Hp H. destruct (dropLast_is_prefix s) as [rest Hs].
  rewrite Hs in H. now apply includes_app_l in H.
Qed.

Lemma includes_trim (s p : string) :
  p <> EmptyString -> includes s p = false -> includes (trim s) p = false.
Proof.
  intros Hp H. unfold trim. now apply includes_trimEnd, includes_trimStart.
Qed.

Lemma finish_no_fence (s : string) :
  includes s "```" = false -> includes (finish s) "```" = false.
Proof.
  intros H. unfold finish, stripTicks.
  assert (Hne : "```" <> EmptyString) by discriminate.
  apply includes_trim; [assumption|].
  assert (H1 : includes (if startsWith (trim s) "`" then drop 1 (trim s)
                         else trim s) "```" = false).
  { destruct (startsWith (trim s) "`");
      [apply includes_drop|]; now apply includes_trim. }
  destruct (endsWithTick _); [now apply includes_dropLast | exact H1].
Qed.

(** Property X1.  Whatever the completion, the cleaned text holds no fence
    marker. *)
Theorem cleaned_text_has_no_fence (text : string) :
  includes (cleanJsonResponse text) "```" = false /\
  includes (cleanGeneratedCode text) "```" = false.
Proof.
  rewrite cleanJsonResponse_finish, cleanGeneratedCode_finish.
  split; apply finish_no_fence, removeAll_no_fence.
Qed.

(** Property X2.  Whatever the completion, the cleaned text neither starts
    nor ends with white space: trimming it again changes nothing. *)
Theorem cleaned_text_is_trimmed (text : string) :
  trim (cleanJsonResponse text) = cleanJsonResponse text /\
  trim (cleanGeneratedCode text) = cleanGeneratedCode text.
Proof.
  split; unfold cleanJsonResponse, cleanGeneratedCode; cbv zeta;
    apply trim_idempotent.
Qed.

End CleanOutput.

(* ================================================================== *)
(** * What the extractor returns *)
(* ================================================================== *)

Module AnalyzerOutput.
Import Str Clean Js StrFacts TemplateAnalyzer AnalyzerFacts Scenario.
Local Open Scope js_scope.

Lemma lowerChar_idempotent (c : ascii) : lowerChar (lowerChar c) = lowerChar c.
Proof.
  destruct c as [[] [] [] [] [] [] [] []]; reflexivity.
Qed.

Lemma toLowerCase_idempotent (s : string) :
  toLowerCase (toLowerCase s) = toLowerCase s.
Proof.
  induction s as [|c s IH]; simpl; [reflexivity|].
  now rewrite lowerChar_idempotent, IH.
Qed.

(** The name [ensureTicketPrefix] writes starts with the ticket key. *)
Lemma prefixed_name_starts_with_ticket (ticketKey branchName : string) :
  startsWithIgnoringCase
    (toLowerCase ticketKey ++ "-" ++ toLowerCase branchName) ticketKey.
Proof.
  exists (toLowerCase ticketKey), ("-" ++ toLowerCase branchName).
  split; [reflexivity | apply toLowerCase_idempotent].
Qed.

(** Property X3.  The branch name of whatever [ensureTicketPrefix] returns
    starts with the ticket key in some casing, and passing the result
    through [ensureTicketPrefix] again returns it as it is. *)
Theorem ensureTicketPrefix_settles
  (ticketKey : string) (analysis result : json) (w w' : world) :
  ensureTicketPrefix ticketKey analysis w = (Return result, w') ->
  (exists branchName,
     branchNameOf result = Some branchName /\
     startsWithIgnoringCase branchName ticketKey) /\
  ensureTicketPrefix ticketKey result w' = (Return result, w').
Proof.
  unfold ensureTicketPrefix.
  destruct analysis as [ | | | | |members]; try discriminate.
  unfold member at 1.
  destruct (lookup "branchName" members) as [[ | | |b| | ]|] eqn:Hb;
    try discriminate.
  destruct (startsWith (toLowerCase b) (toLowerCase ticketKey)) eqn:Hs;
    cbn [negb]; unfold ret; intros H; injection H as <- <-.
  - split.
    + exists b. unfold branchNameOf, member. rewrite Hb.
      split; [reflexivity | now apply startsWithIgnoringCase_iff].
    + unfold member. now rewrite Hb, Hs.
  - pose proof (prefixed_name_starts_with_ticket ticketKey b) as Hp.
    split.
    + eexists. unfold branchNameOf, member. rewrite lookup_assign.
      split; [reflexivity | exact Hp].
    + unfold member. rewrite lookup_assign. cbv beta iota.
      apply startsWithIgnoringCase_iff in Hp.
      match goal with
      | |- context [startsWith ?a ?k] =>
          replace (startsWith a k) with true by (symmetry; exact Hp)
      end.
      reflexivity.
Qed.

(** Property X4.  [ensureTicketPrefix] changes no member but [branchName]. *)
Theorem ensureTicketPrefix_keeps_other_members
  (ticketKey key : string) (analysis result : json) (w w' : world) :
  ensureTicketPrefix ticketKey analysis w = (Return result, w') ->
  key <> "branchName" ->
  member key result = member key analysis /\ w' = w.
Proof.
  unfold ensureTicketPrefix.
  destruct analysis as [ | | | | |members]; try discriminate.
  unfold member at 1.
  destruct (lookup "branchName" members) as [[ | | |b| | ]|] eqn:Hb;
    try discriminate.
  intros H Hkey.
  destruct (negb _); simpl in H; injection H as <- <-;
    (split; [|reflexivity]); [|reflexivity].
  unfold member. apply lookup_assign_other.
  apply String.eqb_neq. congruence.
Qed.

Section WithEnv.
Variable E : env.

(** Property X5.  The extractor returns exactly when the backend answers,
    the cleaned answer parses to an object with all seven fields truthy, and
    its branch name is a string. *)
Theorem analyzeTicketDescription_returns_iff
  (description ticketKey : string) (w : world) :
  (exists result w',
     analyzeTicketDescription E description ticketKey w = (Return result, w'))
  <->
  (exists text members branchName,
     generateContent E description ticketKey = Return text /\
     JSON_parse E (cleanJsonResponse text) = Return (JObject members) /\
     missingRequired (JObject members) = false /\
     lookup "branchName" members = Some (JString branchName)).
Proof.
  unfold analyzeTicketDescription, try_catch, bind, answer, builtin. simpl. split.
  - intros (result & w' & H).
    destruct (generateContent E description ticketKey) as [text|e] eqn:Hg;
      [|discriminate].
    destruct (JSON_parse E (cleanJsonResponse text)) as [parsed|e] eqn:Hp;
      [|discriminate].
    unfold validate in H.
    destruct parsed as [ | | | | |members]; try discriminate;
      destruct (missingRequired _) eqn:Hm; try discriminate;
      unfold ensureTicketPrefix, member in H; try discriminate.
    destruct (lookup "branchName" members) as [[ | | |b| | ]|] eqn:Hb;
      try discriminate.
    exists text, members, b. repeat split; assumption.
  - intros (text & members & b & -> & -> & Hm & Hb).
    unfold validate. rewrite Hm. unfold ensureTicketPrefix, member.
    rewrite Hb. destruct (negb _); simpl; eauto.
Qed.

(** Property X6.  Whatever the extractor returns has a branch name that
    starts with the ticket key in some casing. *)
Theorem returned_branch_starts_with_ticket
  (description ticketKey : string) (result : json) (w w' : world) :
  analyzeTicketDescription E description ticketKey w = (Return result, w') ->
  exists branchName,
    branchNameOf result = Some branchName /\
    startsWithIgnoringCase branchName ticketKey.
Proof.
  unfold analyzeTicketDescription, try_catch, bind, answer, builtin. simpl.
  destruct (generateContent E description ticketKey) as [text|e];
    [|discriminate].
  destruct (JSON_parse E (cleanJsonResponse text)) as [parsed|e];
    [|discriminate].
  unfold validate.
  destruct parsed as [ | | | | |members]; try discriminate;
    destruct (missingRequired _) eqn:Hm; try discriminate;
    unfold ensureTicketPrefix, member; try discriminate.
  destruct (lookup "branchName" members) as [[ | | |b| | ]|] eqn:Hb;
    try discriminate.
  destruct (startsWith (toLowerCase b) (toLowerCase ticketKey)) eqn:Hs;
    simpl; intros H; injection H as <- _.
  - exists b. unfold branchNameOf, member. rewrite Hb.
    split; [reflexivity | now apply startsWithIgnoringCase_iff].
  - eexists. unfold branchNameOf, member. rewrite lookup_assign.
    split; [reflexivity | apply prefixed_name_starts_with_ticket].
Qed.

(** Property X7.  An error of the backend reaches the caller as it is,
    printed once; nothing is parsed. *)
Theorem backend_error_propagates
  (description ticketKey : string) (e : thrown) (w : world) :
  generateContent E description ticketKey = Throw e ->
  fst (analyzeTicketDescription E description ticketKey w) = Throw e /\
  console (snd (analyzeTicketDescription E description ticketKey w))
  = (console w ++ [LogError [VStr "Error analyzing template:"; VErr e]])%list /\
  requests (snd (analyzeTicketDescription E description ticketKey w))
  = (requests w ++ [GenerateContent description ticketKey])%list.
Proof.
  intros H. unfold analyzeTicketDescription, try_catch, bind, answer, builtin.
  simpl. rewrite H. simpl. auto.
Qed.

End WithEnv.

(** The theorem at work on the welcome email of ticket PROJ-123. *)
Lemma ensureTicketPrefix_settles_for_PROJ_123 :
  (exists branchName,
     branchNameOf welcomePrefixed = Some branchName /\
     startsWithIgnoringCase branchName "PROJ-123") /\
  ensureTicketPrefix "PROJ-123" welcomePrefixed startWorld
  = (Return welcomePrefixed, startWorld).
Proof.
  assert (H : ensureTicketPrefix "PROJ-123" (JObject welcomeMembers) startWorld
              = (Return welcomePrefixed, startWorld))
    by (vm_compute; reflexivity).
  exact (@ensureTicketPrefix_settles "PROJ-123" (JObject welcomeMembers)
           welcomePrefixed startWorld startWorld H).
Defined.

(** The theorem at work: the template name of the welcome email stays. *)
Lemma ensureTicketPrefix_keeps_templateName :
  member "templateName" welcomePrefixed = Some (JString "welcome_email") /\
  startWorld = startWorld.
Proof.
  assert (H : ensureTicketPrefix "PROJ-123" (JObject welcomeMembers) startWorld
              = (Return welcomePrefixed, startWorld))
    by (vm_compute; reflexivity).
  assert (Hkey : "templateName" <> "branchName") by discriminate.
  exact (@ensureTicketPrefix_keeps_other_members "PROJ-123" "templateName"
           (JObject welcomeMembers) welcomePrefixed startWorld startWorld
           H Hkey).
Defined.

(** The theorem at work on the welcome email. *)
Lemma welcome_branch_starts_with_ticket :
  exists branchName,
    branchNameOf welcomePrefixed = Some branchName /\
    startsWithIgnoringCase branchName "PROJ-123".
Proof.
  assert (H : analyzeTicketDescription working "Add a welcome email" "PROJ-123"
                startWorld
              = (Return welcomePrefixed,
                 snd (analyzeTicketDescription working "Add a welcome email"
                        "PROJ-123" startWorld)))
    by (vm_compute; reflexivity).
  exact (@returned_branch_starts_with_ticket working "Add a welcome email"
           "PROJ-123" welcomePrefixed startWorld _ H).
Defined.

(** The theorem at work: the metadata backend is down. *)
Lemma backend_outage_propagates :
  fst (analyzeTicketDescription analysisDown "Add a welcome email" "PROJ-123"
         startWorld) = Throw overloaded /\
  console (snd (analyzeTicketDescription analysisDown "Add a welcome email"
                  "PROJ-123" startWorld))
  = [LogError [VStr "Error analyzing template:"; VErr overloaded]] /\
  requests (snd (analyzeTicketDescription analysisDown "Add a welcome email"
                   "PROJ-123" startWorld))
  = [GenerateContent "Add a welcome email" "PROJ-123"].
Proof.
  exact (@backend_error_propagates analysisDown "Add a welcome email"
           "PROJ-123" overloaded startWorld eq_refl).
Defined.

(** The lemma at work on the welcome email. *)
Lemma welcome_analysis_is_complete :
  missingRequired welcomePrefixed = false.
Proof.
  assert (H : analyzeTicketDescription working "Add a welcome email" "PROJ-123"
                startWorld
              = (Return welcomePrefixed,
                 snd (analyzeTicketDescription working "Add a welcome email"
                        "PROJ-123" startWorld)))
    by (vm_compute; reflexivity).
  exact (@returned_analysis_is_complete working "Add a welcome email"
           "PROJ-123" welcomePrefixed startWorld _ H).
Defined.

(** The theorem at work: the extractor returns on the welcome email. *)
Lemma welcome_email_is_analysed :
  exists result w',
    analyzeTicketDescription working "Add a welcome email" "PROJ-123" startWorld
    = (Return result, w').
Proof.
  assert (Hparse : JSON_parse working (cleanJsonResponse (fenced "json" welcomeJson))
                   = Return (JObject welcomeMembers))
    by (vm_compute; reflexivity).
  exact (proj2 (@analyzeTicketDescription_returns_iff working
                  "Add a welcome email" "PROJ-123" startWorld)
           (ex_intro _ (fenced "json" welcomeJson)
              (ex_intro _ welcomeMembers
                 (ex_intro _ "Add-Welcome-Email"
                    (conj eq_refl (conj Hparse (conj eq_refl eq_refl))))))).
Defined.

End AnalyzerOutput.

(* ================================================================== *)
(** * Relations every step respects *)
(* ================================================================== *)

Module StepFacts.
Import Str Clean Js StrFacts Frame JsFacts GitLabManager Observe.
Local Open Scope js_scope.

Section Steps.
Context {R : world -> world -> Prop} {S : Stepwise R}.

Lemma keeps_ret {A} (a : A) : frames R (ret a).
Proof. intros w. apply stepwise_refl. Qed.

Lemma keeps_throw {A} (e : thrown) : frames R (@throw A e).
Proof. intros w. apply stepwise_refl. Qed.

Lemma keeps_answer {A} (c : completion thrown A) : frames R (answer c).
Proof. intros w. apply stepwise_refl. Qed.

Lemma keeps_builtin {A} (c : completion error A) : frames R (builtin c).
Proof. intros w. unfold builtin. destruct c; apply stepwise_refl. Qed.

Lemma keeps_readMessage (caught : thrown) : frames R (readMessage caught).
Proof. intros w. destruct caught; apply stepwise_refl. Qed.

Lemma keeps_get : frames R get.
Proof. intros w. apply stepwise_refl. Qed.

Lemma keeps_existsSync (p : path) : frames R (existsSync p).
Proof. intros w. apply stepwise_refl. Qed.

Lemma keeps_bind {A B} (m : M A) (k : A -> M B) :
  frames R m -> (forall a, frames R (k a)) -> frames R (bind m k).
Proof.
  intros Hm Hk w. unfold bind. specialize (Hm w).
  destruct (m w) as [[a|e] w1]; simpl in *; [|exact Hm].
  eapply stepwise_trans; [exact Hm | apply Hk].
Qed.

Lemma keeps_try_catch {A} (m : M A) (h : thrown -> M A) :
  frames R m -> (forall e, frames R (h e)) -> frames R (try_catch m h).
Proof.
  intros Hm Hh w. unfold try_catch. specialize (Hm w).
  destruct (m w) as [[a|e] w1]; simpl in *; [exact Hm|].
  eapply stepwise_trans; [exact Hm | apply Hh].
Qed.

Lemma keeps_when (b : bool) (m : M unit) : frames R m -> frames R (when b m).
Proof. intros Hm. destruct b; [exact Hm | apply keeps_ret]. Qed.

Lemma keeps_modify (f : world -> world) :
  (forall w, R w (f w)) -> frames R (modify f).
Proof. intros Hf w. apply Hf. Qed.

End Steps.

#[export] Instance sameCwd_stepwise : Stepwise sameCwd.
Proof. split; unfold sameCwd; [reflexivity | intros; congruence]. Qed.

#[export] Instance sameDisk_stepwise : Stepwise sameDisk.
Proof.
  split; unfold sameDisk; [tauto|].
  intros a b c (H1 & H2 & H3) (H4 & H5 & H6). repeat split; congruence.
Qed.

#[export] Instance asksOnly_stepwise (allowed : request -> bool) :
  Stepwise (asksOnly allowed).
Proof.
  split; unfold asksOnly.
  - intros w. exists []. now rewrite List.app_nil_r.
  - intros a b c (m1 & H1 & A1) (m2 & H2 & A2). exists (m1 ++ m2)%list.
    rewrite H2, H1, List.app_assoc, forallb_app, A1, A2. auto.
Qed.

(** A step that touches neither the working directory nor the requests. *)
Ltac same_world :=
  first
    [ reflexivity
    | repeat split; reflexivity
    | exists []; split; [now rewrite List.app_nil_r | reflexivity] ].

(** The primitives under the three relations. *)
Ltac keeps_primitive :=
  intros ?w;
  unfold emit, log, logError, send, setDefaultBranch, cloned, modify,
    rmSync, mkdirSync, writeFileSync, throw;
  repeat match goal with
         | |- context [match ?o with Some _ => _ | None => _ end] =>
             destruct o
         end;
  cbn; unfold sameCwd, sameDisk, asksOnly; cbn; same_world.

Lemma emit_sameCwd e : frames sameCwd (emit e).
Proof. keeps_primitive. Qed.
Lemma emit_sameDisk e : frames sameDisk (emit e).
Proof. keeps_primitive. Qed.
Lemma emit_asksOnly allowed e : frames (asksOnly allowed) (emit e).
Proof. keeps_primitive. Qed.

Lemma send_sameCwd r : frames sameCwd (send r).
Proof. keeps_primitive. Qed.
Lemma send_sameDisk r : frames sameDisk (send r).
Proof. keeps_primitive. Qed.
Lemma send_asksOnly (allowed : request -> bool) r :
  allowed r = true -> frames (asksOnly allowed) (send r).
Proof.
  intros H w. exists [r]. cbn. now rewrite H.
Qed.

Lemma setDefaultBranch_sameCwd b : frames sameCwd (setDefaultBranch b).
Proof. keeps_primitive. Qed.
Lemma setDefaultBranch_sameDisk b : frames sameDisk (setDefaultBranch b).
Proof. keeps_primitive. Qed.
Lemma setDefaultBranch_asksOnly allowed b :
  frames (asksOnly allowed) (setDefaultBranch b).
Proof. keeps_primitive. Qed.

Lemma cloned_sameCwd p : frames sameCwd (cloned p).
Proof. keeps_primitive. Qed.
Lemma cloned_asksOnly allowed p : frames (asksOnly allowed) (cloned p).
Proof. keeps_primitive. Qed.

Lemma rmSync_sameCwd E p : frames sameCwd (rmSync E p).
Proof. keeps_primitive. Qed.
Lemma rmSync_asksOnly allowed E p : frames (asksOnly allowed) (rmSync E p).
Proof. keeps_primitive. Qed.

Lemma mkdirSync_sameCwd E p : frames sameCwd (mkdirSync E p).
Proof. keeps_primitive. Qed.
Lemma mkdirSync_asksOnly allowed E p : frames (asksOnly allowed) (mkdirSync E p).
Proof. keeps_primitive. Qed.

Lemma writeFileSync_sameCwd E p d : frames sameCwd (writeFileSync E p d).
Proof. keeps_primitive. Qed.
Lemma writeFileSync_asksOnly allowed E p d :
  frames (asksOnly allowed) (writeFileSync E p d).
Proof. keeps_primitive. Qed.

Lemma chdir_asksOnly allowed rel : frames (asksOnly allowed) (chdir rel).
Proof.
  intros w. unfold chdir.
  destruct (String.eqb rel ".."); [|destruct (isDir w (resolve w rel))];
    cbn; exists []; split; try reflexivity; now rewrite List.app_nil_r.
Qed.

Lemma exec_sameCwd E c d : frames sameCwd (exec E c d).
Proof.
  unfold exec. apply keeps_bind; [apply send_sameCwd | intros _; apply keeps_builtin].
Qed.
Lemma exec_sameDisk E c d : frames sameDisk (exec E c d).
Proof.
  unfold exec. apply keeps_bind; [apply send_sameDisk | intros _; apply keeps_builtin].
Qed.
Lemma exec_asksSpawn (allowed : request -> bool) E c d :
  allowed (Spawn c d) = true -> frames (asksOnly allowed) (exec E c d).
Proof.
  intros H. unfold exec.
  apply keeps_bind; [now apply send_asksOnly | intros _; apply keeps_builtin].
Qed.

Lemma run_sameCwd E c : frames sameCwd (run E c).
Proof.
  unfold run. apply keeps_bind; [apply keeps_get | intros w].
  apply keeps_bind; [apply exec_sameCwd | intros _; apply keeps_ret].
Qed.
Lemma run_sameDisk E c : frames sameDisk (run E c).
Proof.
  unfold run. apply keeps_bind; [apply keeps_get | intros w].
  apply keeps_bind; [apply exec_sameDisk | intros _; apply keeps_ret].
Qed.
Lemma run_asksSpawn (allowed : request -> bool) E c :
  (forall d, allowed (Spawn c d) = true) -> frames (asksOnly allowed) (run E c).
Proof.
  intros H. unfold run. apply keeps_bind; [apply keeps_get | intros w].
  apply keeps_bind; [now apply exec_asksSpawn | intros _; apply keeps_ret].
Qed.

(** One step of a proof that a computation respects a relation, chosen by
    the shape of the computation. *)
Ltac keep_step :=
  lazymatch goal with
  | |- frames _ (bind _ _) => apply keeps_bind; [ | intros ? ]
  | |- frames _ (try_catch _ _) => apply keeps_try_catch; [ | intros ? ]
  | |- frames _ (when _ _) => apply keeps_when
  | |- frames _ (ret _) => apply keeps_ret
  | |- frames _ (throw _) => apply keeps_throw
  | |- frames _ (answer _) => apply keeps_answer
  | |- frames _ (builtin _) => apply keeps_builtin
  | |- frames _ (readMessage _) => apply keeps_readMessage
  | |- frames _ get => apply keeps_get
  | |- frames _ (existsSync _) => apply keeps_existsSync
  | |- frames _ (emit _) =>
      first [apply emit_sameCwd | apply emit_sameDisk | apply emit_asksOnly]
  | |- frames _ (send _) =>
      first [apply send_sameCwd | apply send_sameDisk
            | apply send_asksOnly; reflexivity]
  | |- frames _ (setDefaultBranch _) =>
      first [apply setDefaultBranch_sameCwd | apply setDefaultBranch_sameDisk
            | apply setDefaultBranch_asksOnly]
  | |- frames _ (cloned _) => first [apply cloned_sameCwd | apply cloned_asksOnly]
  | |- frames _ (rmSync _ _) => first [apply rmSync_sameCwd | apply rmSync_asksOnly]
  | |- frames _ (mkdirSync _ _) =>
      first [apply mkdirSync_sameCwd | apply mkdirSync_asksOnly]
  | |- frames _ (writeFileSync _ _ _) =>
      first [apply writeFileSync_sameCwd | apply writeFileSync_asksOnly]
  | |- frames _ (chdir _) => apply chdir_asksOnly
  | |- frames _ (exec _ _ _) =>
      first [apply exec_sameCwd | apply exec_sameDisk
            | apply exec_asksSpawn; reflexivity]
  | |- frames _ (run _ _) =>
      first [apply run_sameCwd | apply run_sameDisk
            | apply run_asksSpawn; reflexivity]
  | |- frames _ (if ?b then _ else _) => destruct b
  | |- frames _ (match ?x with _ => _ end) => destruct x
  end.

Ltac keep := cbv zeta; unfold log, logError; repeat keep_step.

End StepFacts.

(* ================================================================== *)
(** * The stages of the publisher, one by one *)
(* ================================================================== *)

Module StageFacts.
Import Str Clean Js StrFacts Frame JsFacts GitLabManager Observe Scenario.
Import PublisherFacts StepFacts.
Local Open Scope js_scope.

(** ** Paths *)

Lemma path_eqb_eq (p q : path) : path_eqb p q = true <-> p = q.
Proof.
  revert q. induction p as [|a p IH]; intros [|b q]; simpl;
    try (split; [discriminate | discriminate]); [tauto|].
  rewrite andb_true_iff, String.eqb_eq, IH.
  split; [intros [-> ->]; reflexivity | intros H; injection H; auto].
Qed.

Lemma path_eqb_refl (p : path) : path_eqb p p = true.
Proof. now apply path_eqb_eq. Qed.

Lemma under_refl (p : path) : under p p = true.
Proof.
  induction p as [|a p IH]; simpl; [reflexivity|].
  now rewrite String.eqb_refl, IH.
Qed.

Lemma removelast_snoc (A : Type) (l : list A) (x : A) :
  removelast (l ++ [x]) = l.
Proof. apply removelast_last. Qed.

(** Nothing a recursive removal was asked to remove is left. *)
Lemma removed_dir_absent (p : path) (l : list path) :
  existsb (path_eqb p) (filter (fun d => negb (under p d)) l) = false.
Proof.
  induction l as [|d l IH]; simpl; [reflexivity|].
  destruct (under p d) eqn:Hu; simpl; [exact IH|].
  rewrite IH, orb_false_r.
  destruct (path_eqb p d) eqn:He; [|reflexivity].
  apply path_eqb_eq in He. subst d. now rewrite under_refl in Hu.
Qed.

Lemma removed_file_absent (p : path) (l : list (path * string)) :
  existsb (fun f => path_eqb p (fst f))
    (filter (fun f => negb (under p (fst f))) l) = false.
Proof.
  induction l as [|f l IH]; simpl; [reflexivity|].
  destruct (under p (fst f)) eqn:Hu; simpl; [exact IH|].
  rewrite IH, orb_false_r.
  destruct (path_eqb p (fst f)) eqn:He; [|reflexivity].
  apply path_eqb_eq in He. rewrite <- He in Hu. now rewrite under_refl in Hu.
Qed.

Section Stages.
Variable E : env.
Variable config : GitLabConfig.

(** ** detectDefaultBranch *)

Lemma detectDefaultBranch_sameDisk : frames sameDisk (detectDefaultBranch E).
Proof. unfold detectDefaultBranch, relative. keep. Qed.

Lemma detectDefaultBranch_returns (w : world) :
  fst (detectDefaultBranch E w) = Return tt.
Proof.
  unfold detectDefaultBranch, relative, exec, try_catch, bind, answer, builtin, get,
    ret, send, log, logError, emit, setDefaultBranch, modify. cbn.
  destruct (execSync E "git remote show origin" _) as [output|e]; cbn;
    [|reflexivity].
  destruct (matchHeadBranch output) as [[|c rest]|]; cbn; try reflexivity;
    (destruct (execSync E "git branch -a" _) as [listing|e]; cbn;
     [|reflexivity];
     destruct (includes listing "remotes/origin/main"); cbn; [reflexivity|];
     destruct (includes listing "remotes/origin/master"); reflexivity).
Qed.

(** Property X9.  [detectDefaultBranch] never throws, and it leaves the
    working directory and the disk as they are. *)
Theorem detectDefaultBranch_is_harmless (w : world) :
  fst (detectDefaultBranch E w) = Return tt /\
  sameDisk w (snd (detectDefaultBranch E w)).
Proof.
  split; [apply detectDefaultBranch_returns | apply detectDefaultBranch_sameDisk].
Qed.

(** ** createBranch *)

(** With the workspace in place, [createBranch] ends inside it. *)
Lemma createBranch_inside (branch : string) (w : world) :
  isDir w (workspace (cwd w)) = true ->
  cwd (snd (createBranch E branch w)) = workspace (cwd w).
Proof.
  unfold createBranch, run, exec, chdir, bind, answer, builtin, get, ret, send, log,
    emit, modify, resolve, workspace, isDir. cbn.
  intros H; rewrite H; cbn.
  destruct (execSync E _ _); reflexivity.
Qed.

(** Property X10.  Where the workspace exists, [createBranch] leaves the
    process inside it, whether [git checkout] succeeds or not; where it is
    missing, [createBranch] throws before any child process and the process
    stays where it was. *)
Theorem createBranch_enters_workspace (branch : string) (w : world) :
  (isDir w (workspace (cwd w)) = true ->
   cwd (snd (createBranch E branch w)) = workspace (cwd w)) /\
  (isDir w (workspace (cwd w)) = false ->
   exists e,
     fst (createBranch E branch w) = Throw e /\
     cwd (snd (createBranch E branch w)) = cwd w /\
     requests (snd (createBranch E branch w)) = requests w).
Proof.
  unfold createBranch, run, exec, chdir, bind, answer, builtin, get, ret, send, log,
    emit, modify, resolve, workspace, isDir. cbn.
  split; intros H; rewrite H; cbn.
  - destruct (execSync E _ _); reflexivity.
  - eexists. repeat split.
Qed.

(** ** saveTemplate *)

Lemma saveTemplate_sameCwd name html : frames sameCwd (saveTemplate E name html).
Proof. unfold saveTemplate. keep. Qed.

Lemma find_written (p q : path) (data : string) (l : list (path * string)) :
  find (fun f => path_eqb q (fst f))
       ((p, data) :: filter (fun f => negb (path_eqb p (fst f))) l)
  = if path_eqb q p then Some (p, data)
    else find (fun f => path_eqb q (fst f)) l.
Proof.
  cbn. destruct (path_eqb q p) eqn:Hq; [reflexivity|].
  induction l as [|f l IH]; cbn; [reflexivity|].
  destruct (path_eqb p (fst f)) eqn:Hp; cbn.
  - apply path_eqb_eq in Hp. rewrite <- Hp, Hq. exact IH.
  - destruct (path_eqb q (fst f)); [reflexivity | exact IH].
Qed.

(** What [saveTemplate] leaves on the disk when it returns. *)
Lemma saveTemplate_files (name html : string) (w w' : world) :
  saveTemplate E name html w = (Return tt, w') ->
  files w'
  = (pathJoin (pathJoin (cwd w) "templates") (name ++ ".html"), html)
    :: filter (fun f =>
                 negb (path_eqb
                         (pathJoin (pathJoin (cwd w) "templates")
                                   (name ++ ".html")) (fst f)))
              (files w).
Proof.
  unfold saveTemplate, existsSync, mkdirSync, writeFileSync, when, bind, get,
    ret, log, emit, modify, throw. cbn.
  destruct (negb _); cbn;
    repeat match goal with
           | |- context [match ?o with Some _ => _ | None => _ end] =>
               destruct o; cbn; try discriminate
           end;
    intros H; injection H as <-; reflexivity.
Qed.

(** Property X11.  When [saveTemplate] returns, the template can be read
    back from the path that [path.join] makes of the working directory,
    [templates] and [NAME.html], every other file reads as before, and
    the working directory has not moved.  The path is normalised: a
    [NAME] with [..] or slashes in it leads out of [templates] or deeper
    into it. *)
Theorem saveTemplate_round_trip (name html : string) (w w' : world) :
  saveTemplate E name html w = (Return tt, w') ->
  let target := pathJoin (pathJoin (cwd w) "templates") (name ++ ".html") in
  readFile w' target = Some html /\
  (forall other, path_eqb other target = false ->
                 readFile w' other = readFile w other) /\
  cwd w' = cwd w.
Proof.
  intros H target. pose proof (@saveTemplate_files name html w w' H) as Hfiles.
  fold target in Hfiles. unfold readFile. rewrite Hfiles.
  repeat split.
  - now rewrite find_written, path_eqb_refl.
  - intros other Hother. now rewrite find_written, Hother.
  - pose proof (saveTemplate_sameCwd name html w) as Hcwd.
    now rewrite H in Hcwd.
Qed.

(** ** commitAndPush *)

Lemma commitAndPush_sameDisk b m : frames sameDisk (commitAndPush E b m).
Proof. unfold commitAndPush. keep. Qed.

(** Property X12.  [commitAndPush] spawns [git add], [git commit] and [git
    push] in that order, all in the working directory, and stops at the
    first that fails: a commit that failed is never pushed. *)
Theorem commitAndPush_stops_at_first_failure
  (branch message : string) (w : world) :
  let spawned := map (fun c => Spawn c (cwd w))
                     (commitAndPushCommands branch message) in
  let outcome := commitAndPush E branch message w in
  match execSync E "git add ." (cwd w),
        execSync E ("git commit -m " ++ dq ++ message ++ dq) (cwd w),
        execSync E ("git push origin " ++ branch) (cwd w) with
  | Throw e, _, _ =>
      fst outcome = Throw e /\
      requests (snd outcome) = (requests w ++ firstn 1 spawned)%list
  | Return _, Throw e, _ =>
      fst outcome = Throw e /\
      requests (snd outcome) = (requests w ++ firstn 2 spawned)%list
  | Return _, Return _, Throw e =>
      fst outcome = Throw e /\
      requests (snd outcome) = (requests w ++ spawned)%list
  | Return _, Return _, Return _ =>
      fst outcome = Return tt /\
      requests (snd outcome) = (requests w ++ spawned)%list
  end.
Proof.
  unfold commitAndPush, commitAndPushCommands.
  remember ("git commit -m " ++ dq ++ message ++ dq) as commit.
  remember ("git push origin " ++ branch) as push.
  remember "git add ." as add.
  unfold run, exec, bind, answer, builtin, get, ret, send, log, emit, modify. cbn.
  destruct (execSync E add (cwd w)); cbn;
    [|split; reflexivity].
  destruct (execSync E commit (cwd w)); cbn;
    [|split; [reflexivity | now rewrite <- !List.app_assoc]].
  destruct (execSync E push (cwd w)); cbn;
    (split; [reflexivity | now rewrite <- !List.app_assoc]).
Qed.

End Stages.

(** The theorem at work, with and without the workspace. *)
Lemma createBranch_in_and_out_of_a_clone :
  cwd (snd (createBranch healthy "proj-123-welcome-email" clonedWorld))
  = workspace home /\
  exists e,
    fst (createBranch healthy "proj-123-welcome-email" startWorld) = Throw e /\
    cwd (snd (createBranch healthy "proj-123-welcome-email" startWorld)) = home /\
    requests (snd (createBranch healthy "proj-123-welcome-email" startWorld)) = [].
Proof.
  split.
  - exact (proj1 (@createBranch_enters_workspace healthy
                    "proj-123-welcome-email" clonedWorld) eq_refl).
  - exact (proj2 (@createBranch_enters_workspace healthy
                    "proj-123-welcome-email" startWorld) eq_refl).
Defined.

(** The theorem at work: the welcome email is saved below
    [/home/dev/templates], and a template named [../welcome] next to that
    directory. *)
Lemma saved_welcome_email_reads_back :
  readFile (snd (saveTemplate healthy "welcome_email" welcomeHtml startWorld))
           ["home"; "dev"; "templates"; "welcome_email.html"]
  = Some welcomeHtml /\
  readFile (snd (saveTemplate healthy "../welcome" welcomeHtml startWorld))
           ["home"; "dev"; "welcome.html"]
  = Some welcomeHtml.
Proof.
  assert (H : saveTemplate healthy "welcome_email" welcomeHtml startWorld
              = (Return tt,
                 snd (saveTemplate healthy "welcome_email" welcomeHtml startWorld)))
    by (vm_compute; reflexivity).
  assert (H' : saveTemplate healthy "../welcome" welcomeHtml startWorld
               = (Return tt,
                  snd (saveTemplate healthy "../welcome" welcomeHtml startWorld)))
    by (vm_compute; reflexivity).
  split.
  - exact (proj1 (@saveTemplate_round_trip healthy "welcome_email" welcomeHtml
                    startWorld _ H)).
  - exact (proj1 (@saveTemplate_round_trip healthy "../welcome" welcomeHtml
                    startWorld _ H')).
Defined.

(** The theorem at work: the push is rejected after [git add] and
    [git commit] ran. *)
Lemma rejected_push_is_the_third_child_process :
  fst (commitAndPush rejecting "proj-123-welcome-email"
         "Add welcome email template" clonedWorld) = Throw pushRejected /\
  requests (snd (commitAndPush rejecting "proj-123-welcome-email"
                   "Add welcome email template" clonedWorld))
  = map (fun c => Spawn c home)
        (commitAndPushCommands "proj-123-welcome-email"
                               "Add welcome email template").
Proof.
  exact (@commitAndPush_stops_at_first_failure rejecting
           "proj-123-welcome-email" "Add welcome email template" clonedWorld).
Defined.

End StageFacts.

(* ================================================================== *)
(** * The clone, the merge request and the whole run *)
(* ================================================================== *)

Module RunFacts.
Import Str Clean Js StrFacts Frame JsFacts GitLabManager Observe Scenario.
Import PublisherFacts StepFacts StageFacts.
Local Open Scope js_scope.

Section Run.
Variable E : env.
Variable config : GitLabConfig.

(** ** cloneRepository *)

Lemma isDir_after_clone (p : path) (ds : list path) :
  existsb (path_eqb p) (if existsb (path_eqb p) ds then ds else p :: ds) = true.
Proof.
  destruct (existsb (path_eqb p) ds) eqn:H; [exact H|].
  cbn. now rewrite path_eqb_refl.
Qed.

(** Property X13.  [cloneRepository] never moves the process. When it
    returns, the workspace exists and [git clone] was the one child process;
    when it throws, the error is the wrapped one of line 154 around the
    error that was caught and printed, whichever step failed. *)
Theorem cloneRepository_outcome (w : world) :
  let outcome := cloneRepository E config w in
  cwd (snd outcome) = cwd w /\
  match fst outcome with
  | Return _ =>
      isDir (snd outcome) (workspace (cwd w)) = true /\
      requests (snd outcome)
      = (requests w ++ [Spawn (cloneCommand config) (cwd w)])%list
  | Throw e =>
      exists inner,
        e = cloneFailure inner /\
        In (LogError [VStr "Error cloning repository:"; VErr inner])
           (console (snd outcome))
  end.
Proof.
  unfold cloneRepository, cloneCommand, cloneFailure, relative, run, exec,
    existsSync, rmSync, when, log, logError, emit, send, modify, get, answer, builtin,
    cloned, try_catch, bind, throw, ret, workspace, resolve, isDir.
  cbv zeta.
  remember ("git clone " ++ _) as command.
  cbn.
  match goal with |- context [if ?b then _ else _] => destruct b end; cbn.
  - destruct (rmFails E _) as [inner|]; cbn.
    + split; [reflexivity|]. exists inner. split; [reflexivity|].
      apply in_or_app. right. now left.
    + destruct (execSync E command (cwd w)) as [out|inner]; cbn.
      * split; [reflexivity|]. split; [apply isDir_after_clone | reflexivity].
      * split; [reflexivity|]. exists inner. split; [reflexivity|].
        apply in_or_app. right. now left.
  - destruct (execSync E command (cwd w)) as [out|inner]; cbn.
    + split; [reflexivity|]. split; [apply isDir_after_clone | reflexivity].
    + split; [reflexivity|]. exists inner. split; [reflexivity|].
      apply in_or_app. right. now left.
Qed.

(** ** createMergeRequest *)

(** Unfold [createMergeRequest] as far as the two lookups. *)
Ltac open_merge_request :=
  unfold createMergeRequest, mergeRequestFor, projectNotFound;
  cbv zeta; fold (searchTerm config);
  unfold try_catch, bind, answer, builtin.

(** Run what is left once the lookups are decided. *)
Ltac run_merge_request :=
  unfold adoptDefaultBranch, get, ret, throw, send, log,
    logError, emit, setDefaultBranch, modify, orElse; cbn.

(** Property X14.  When the direct lookup answers, the merge request is
    asked for in that project and nothing is searched; its target is the
    project's default branch when the project reports one, whatever branch
    was detected before, and the detected branch otherwise. The call returns
    exactly when the hosting service accepts the request. *)
Theorem direct_lookup_decides_target
  (mrInfo : MergeRequestInfo) (p : project) (w : world) :
  projectsShow E (repoName config) = Return p ->
  let target := orElse (default_branch p) (defaultBranch w) in
  let outcome := createMergeRequest E config mrInfo w in
  requests (snd outcome)
  = (requests w ++ [ProjectsShow (repoName config);
                    mergeRequestFor mrInfo p target])%list /\
  defaultBranch (snd outcome) = target /\
  (fst outcome = Return tt <->
   exists url,
     mergeRequestsCreate E (id p) (branchName mrInfo) target (title mrInfo)
                         (description mrInfo) = Return url).
Proof.
  intros Hshow. open_merge_request. rewrite Hshow. run_merge_request.
  destruct (default_branch p) as [b|]; cbn.
  - destruct (String.eqb b EmptyString) eqn:Hb; cbn;
      destruct (mergeRequestsCreate E _ _ _ _ _) as [url|e]; cbn;
      (split; [now rewrite <- ?List.app_assoc|]);
      (split; [reflexivity|]);
      (split; [eauto; intros H; discriminate | intros [u Hu]; congruence]).
  - destruct (mergeRequestsCreate E _ _ _ _ _) as [url|e]; cbn;
      (split; [now rewrite <- ?List.app_assoc|]);
      (split; [reflexivity|]);
      (split; [eauto; intros H; discriminate | intros [u Hu]; congruence]).
Qed.

(** The project the fallback search settles on. *)
Lemma search_outcome
  (mrInfo : MergeRequestInfo) (projects : list project) (e : error) (w : world) :
  projectsShow E (repoName config) = Throw e ->
  projectsAll E (searchTerm config) = Return projects ->
  let outcome := createMergeRequest E config mrInfo w in
  let asked := [ProjectsShow (repoName config); ProjectsAll (searchTerm config)] in
  match match find (hasExactPath config) projects with
        | Some p => Some p
        | None => find (matchesLastSegment config) projects
        end with
  | Some q =>
      requests (snd outcome)
      = (requests w ++ asked ++
         [mergeRequestFor mrInfo q (orElse (default_branch q) (defaultBranch w))])%list
  | None =>
      fst outcome = Throw (projectNotFound config) /\
      requests (snd outcome) = (requests w ++ asked)%list
  end.
Proof.
  intros Hshow Hall. unfold hasExactPath, matchesLastSegment.
  open_merge_request. rewrite Hshow, Hall. run_merge_request.
  match goal with
  | |- context [find ?f projects] =>
      match f with
      | context [orb] => fail 1
      | _ => destruct (find f projects) as [q|]
      end
  end.
  - cbn. destruct (default_branch q) as [b|]; cbn;
      [destruct (String.eqb b EmptyString); cbn|];
      destruct (mergeRequestsCreate E _ _ _ _ _); cbn;
      now rewrite <- ?List.app_assoc.
  - destruct (find _ projects) as [q|]; cbn.
    + destruct (default_branch q) as [b|]; cbn;
        [destruct (String.eqb b EmptyString); cbn|];
        destruct (mergeRequestsCreate E _ _ _ _ _); cbn;
        now rewrite <- ?List.app_assoc.
    + split; [reflexivity | now rewrite <- ?List.app_assoc].
Qed.

(** Property X15.  When the direct lookup fails and the search lists a
    project whose path is the configured repository name, the merge request
    is asked for in a project with exactly that path, even where a project
    that only shares the name comes first in the list. *)
Theorem search_prefers_exact_path
  (mrInfo : MergeRequestInfo) (projects : list project) (e : error)
  (p : project) (w : world) :
  projectsShow E (repoName config) = Throw e ->
  projectsAll E (searchTerm config) = Return projects ->
  In p projects ->
  path_with_namespace p = repoName config ->
  exists q,
    In q projects /\
    path_with_namespace q = repoName config /\
    requests (snd (createMergeRequest E config mrInfo w))
    = (requests w ++
       [ProjectsShow (repoName config); ProjectsAll (searchTerm config);
        mergeRequestFor mrInfo q (orElse (default_branch q) (defaultBranch w))])%list.
Proof.
  intros Hshow Hall Hin Hpath.
  pose proof (search_outcome mrInfo w Hshow Hall) as H. cbv zeta in H.
  destruct (find (hasExactPath config) projects) as [q|] eqn:Hfind.
  - apply find_some in Hfind as [Hq Hexact]. exists q.
    split; [exact Hq|]. split; [now apply String.eqb_eq | exact H].
  - exfalso. pose proof (find_none _ _ Hfind p Hin) as Hno.
    unfold hasExactPath in Hno. rewrite Hpath, String.eqb_refl in Hno.
    discriminate.
Qed.

(** Property X16.  When the direct lookup fails and no listed project has
    the configured path, a project is still accepted if its own path or its
    name is the last segment of the repository name: the merge request can
    land in a project of another namespace. *)
Theorem search_accepts_same_name_elsewhere
  (mrInfo : MergeRequestInfo) (projects : list project) (e : error)
  (p : project) (w : world) :
  projectsShow E (repoName config) = Throw e ->
  projectsAll E (searchTerm config) = Return projects ->
  (forall q, In q projects -> path_with_namespace q <> repoName config) ->
  In p projects ->
  path_ p = lastSegment (repoName config) \/
  name p = lastSegment (repoName config) ->
  exists q,
    In q projects /\
    path_with_namespace q <> repoName config /\
    (path_ q = lastSegment (repoName config) \/
     name q = lastSegment (repoName config)) /\
    requests (snd (createMergeRequest E config mrInfo w))
    = (requests w ++
       [ProjectsShow (repoName config); ProjectsAll (searchTerm config);
        mergeRequestFor mrInfo q (orElse (default_branch q) (defaultBranch w))])%list.
Proof.
  intros Hshow Hall Hnone Hin Hlast.
  pose proof (search_outcome mrInfo w Hshow Hall) as H. cbv zeta in H.
  destruct (find (hasExactPath config) projects) as [q|] eqn:Hexact.
  { apply find_some in Hexact as [Hq Hpath]. apply String.eqb_eq in Hpath.
    now destruct (Hnone q Hq). }
  destruct (find (matchesLastSegment config) projects) as [q|] eqn:Hfind.
  - apply find_some in Hfind as [Hq Hmatch]. exists q.
    split; [exact Hq|]. split; [now apply Hnone|]. split; [|exact H].
    unfold matchesLastSegment in Hmatch.
    apply orb_true_iff in Hmatch as [Hmatch|Hmatch];
      [apply orb_true_iff in Hmatch as [Hmatch|Hmatch]|];
      apply String.eqb_eq in Hmatch; [|now left|now right].
    now destruct (Hnone q Hq).
  - exfalso. pose proof (find_none _ _ Hfind p Hin) as Hno.
    unfold matchesLastSegment in Hno.
    destruct Hlast as [Hl|Hl]; rewrite Hl, String.eqb_refl in Hno;
      rewrite ?orb_true_r in Hno; discriminate.
Qed.

(** Property X17.  When the direct lookup fails and the search lists no
    project with the configured path, the last segment as path, or the last
    segment as name, [createMergeRequest] throws the error of line 258 and
    asks for no merge request; when the search itself fails, its error is
    thrown and no merge request is asked for either. *)
Theorem merge_request_needs_a_project
  (mrInfo : MergeRequestInfo) (e : error) (w : world) :
  projectsShow E (repoName config) = Throw e ->
  let outcome := createMergeRequest E config mrInfo w in
  let asked := [ProjectsShow (repoName config); ProjectsAll (searchTerm config)] in
  (forall projects,
     projectsAll E (searchTerm config) = Return projects ->
     (forall q, In q projects -> matchesLastSegment config q = false) ->
     fst outcome = Throw (projectNotFound config) /\
     requests (snd outcome) = (requests w ++ asked)%list) /\
  (forall e',
     projectsAll E (searchTerm config) = Throw e' ->
     fst outcome = Throw e' /\
     requests (snd outcome) = (requests w ++ asked)%list).
Proof.
  intros Hshow. cbv zeta. split.
  - intros projects Hall Hnone.
    pose proof (search_outcome mrInfo w Hshow Hall) as H. cbv zeta in H.
    destruct (find (hasExactPath config) projects) as [q|] eqn:Hexact.
    { apply find_some in Hexact as [Hq Hpath].
      specialize (Hnone q Hq). unfold matchesLastSegment in Hnone.
      unfold hasExactPath in Hpath. rewrite Hpath in Hnone. discriminate. }
    destruct (find (matchesLastSegment config) projects) as [q|] eqn:Hfind.
    { apply find_some in Hfind as [Hq Hmatch].
      rewrite (Hnone q Hq) in Hmatch. discriminate. }
    exact H.
  - intros e' Hall. open_merge_request. rewrite Hshow, Hall.
    split; [reflexivity|].
    transitivity ((requests w ++ [ProjectsShow (repoName config)]) ++
                  [ProjectsAll (searchTerm config)])%list;
      [reflexivity | now rewrite <- List.app_assoc].
Qed.

(** ** The whole run *)

Lemma createMergeRequest_sameCwd mr : frames sameCwd (createMergeRequest E config mr).
Proof. unfold createMergeRequest, adoptDefaultBranch. keep. Qed.

Lemma commitAndPush_sameCwd b m : frames sameCwd (commitAndPush E b m).
Proof. intros w. apply (commitAndPush_sameDisk E b m w). Qed.

(** With the workspace in place, the stages after the clone leave the
    process inside it, whichever of them fails. *)
Lemma laterStages_cwd (n h : string) (mr : MergeRequestInfo) (w1 : world) :
  isDir w1 (workspace (cwd w1)) = true ->
  cwd (snd (laterStages E config n h mr w1)) = workspace (cwd w1).
Proof.
  intros Hdir. unfold laterStages. unfold bind at 1.
  pose proof (detectDefaultBranch_returns E w1) as Hret.
  destruct (detectDefaultBranch_sameDisk E w1) as (Hcwd & Hdirs & _).
  destruct (detectDefaultBranch E w1) as [[[]|e] w2]; cbn in *; [|discriminate].
  assert (Hdir2 : isDir w2 (workspace (cwd w2)) = true).
  { unfold isDir in *. now rewrite Hcwd, Hdirs. }
  unfold bind at 1.
  pose proof (@createBranch_inside E (branchName mr) w2 Hdir2) as Hin.
  destruct (createBranch E (branchName mr) w2) as [[[]|e] w3]; cbn in *;
    [|now rewrite Hin, Hcwd].
  assert (Hrest : frames sameCwd
            (saveTemplate E n h ;;
             commitAndPush E (branchName mr) (commitMessage mr) ;;
             createMergeRequest E config mr)).
  { apply keeps_bind; [apply saveTemplate_sameCwd | intros _].
    apply keeps_bind; [apply commitAndPush_sameCwd | intros _].
    apply createMergeRequest_sameCwd. }
  rewrite (Hrest w3), Hin, Hcwd. reflexivity.
Qed.

(** [cleanup], called inside a workspace that can be removed. *)
Lemma cleanup_from_workspace (start : path) (w2 : world) :
  cwd w2 = workspace start ->
  rmFails E (workspace start) = None ->
  exists w3,
    cleanup E w2 = (Return tt, w3) /\
    cwd w3 = start /\
    isDir w3 (workspace start) = false.
Proof.
  intros Hcwd Hrm.
  unfold cleanup, relative, existsSync, rmSync, when, chdir, log, logError,
    emit, modify, get, try_catch, bind, throw, ret, resolve.
  cbn. rewrite Hcwd.
  assert (Hr : removelast (workspace start) = start)
    by (unfold workspace; apply removelast_last).
  rewrite !Hr. fold (workspace start).
  match goal with |- context [if ?b then _ else _] => destruct b eqn:Hp end.
  - rewrite Hrm. cbn. eexists. split; [reflexivity|]. split; [reflexivity|].
    unfold isDir. cbn. apply removed_dir_absent.
  - cbn. eexists. split; [reflexivity|]. split; [reflexivity|].
    apply orb_false_iff in Hp as [Hp _]. exact Hp.
Qed.

(** The clone returns when the old workspace can be removed and
    [git clone] succeeds. *)
Lemma cloneRepository_returns (w : world) (out : string) :
  rmFails E (workspace (cwd w)) = None ->
  execSync E (cloneCommand config) (cwd w) = Return out ->
  exists w1,
    cloneRepository E config w = (Return tt, w1) /\
    cwd w1 = cwd w /\
    isDir w1 (workspace (cwd w)) = true.
Proof.
  unfold cloneRepository, cloneCommand, relative, run, exec,
    existsSync, rmSync, when, log, logError, emit, send, modify, get, answer, builtin,
    cloned, try_catch, bind, throw, ret, workspace, resolve, isDir.
  cbv zeta.
  remember ("git clone " ++ _) as command.
  cbn. intros Hrm Hclone.
  match goal with |- context [if ?b then _ else _] => destruct b end; cbn;
    rewrite ?Hrm; cbn; rewrite Hclone; cbn;
    (eexists; split; [reflexivity|]; split; [reflexivity|]);
    apply isDir_after_clone.
Qed.

(** Property X18.  Where [fs.rmSync] does not fail on the workspace,
    neither on an old one before the clone nor on the new one in
    [cleanup], and [git clone] succeeds, every run ends in the directory
    it was started in, with the workspace gone, whether the later stages
    return or one of them throws; and the run returns or throws exactly
    as its stages did. *)
Theorem run_ends_where_it_started
  (n h : string) (mr : MergeRequestInfo) (w : world) (out : string) :
  rmFails E (workspace (cwd w)) = None ->
  execSync E (cloneCommand config) (cwd w) = Return out ->
  let outcome := createTemplateAndMergeRequest E config n h mr w in
  cwd (snd outcome) = cwd w /\
  isDir (snd outcome) (workspace (cwd w)) = false /\
  fst outcome = fst (stages E config n h mr (started w)).
Proof.
  intros Hrm Hclone. cbv zeta.
  destruct (@cloneRepository_returns (started w) out Hrm Hclone)
    as (w1 & Hc & Hcwd1 & Hdir1).
  change (cwd (started w)) with (cwd w) in *.
  assert (Hs : stages E config n h mr (started w) = laterStages E config n h mr w1).
  { unfold stages, laterStages. unfold bind at 1. now rewrite Hc. }
  assert (Hin : cwd (snd (laterStages E config n h mr w1)) = workspace (cwd w)).
  { rewrite <- Hcwd1. apply laterStages_cwd. now rewrite Hcwd1. }
  rewrite Hs.
  destruct (laterStages E config n h mr w1) as [[[]|e] w2] eqn:Hl;
    rewrite ?Hl in Hs; cbn in Hin |- *.
  - rewrite (@publisher_stages_return E config n h mr w w2 Hs).
    destruct (@cleanup_from_workspace (cwd w) w2 Hin Hrm)
      as (w3 & Hclean & Hcwd3 & Hdir3).
    rewrite Hclean. cbn. auto.
  - rewrite (@publisher_stage_throws E config n h mr w w2 e Hs).
    destruct (@cleanup_from_workspace (cwd w) (caught e w2) Hin Hrm)
      as (w3 & Hclean & Hcwd3 & Hdir3).
    rewrite Hclean. cbn. auto.
Qed.

End Run.

(** The theorem at work: [git clone] fails. *)
Lemma failed_clone_is_wrapped :
  cwd (snd (cloneRepository unreachable config startWorld)) = home /\
  exists inner,
    Object (cloneFailure cloneRejected) = cloneFailure inner /\
    In (LogError [VStr "Error cloning repository:"; VErr inner])
       (console (snd (cloneRepository unreachable config startWorld))).
Proof.
  exact (@cloneRepository_outcome unreachable config startWorld).
Defined.

(** The theorem at work: the project's [develop] replaces the detected
    [master] as target. *)
Lemma direct_lookup_targets_develop :
  requests (snd (createMergeRequest direct config mrInfo detectedMaster))
  = [ProjectsShow "acme/mail";
     MergeRequestsCreate 42 "proj-123-welcome-email" "develop"
       "Add welcome email" "Adds the welcome email template"].
Proof.
  exact (proj1 (@direct_lookup_decides_target direct config mrInfo
                  develProject detectedMaster eq_refl)).
Defined.

(** The theorem at work: the namesake comes first in the list, and the
    merge request still goes to [acme/mail]. *)
Lemma exact_path_wins_over_namesake :
  exists q,
    In q [namesake; theProject] /\
    path_with_namespace q = "acme/mail" /\
    requests (snd (createMergeRequest (searching [namesake; theProject])
                     config mrInfo startWorld))
    = [ProjectsShow "acme/mail"; ProjectsAll "mail";
       mergeRequestFor mrInfo q (orElse (default_branch q) "main")].
Proof.
  exact (@search_prefers_exact_path (searching [namesake; theProject]) config
           mrInfo [namesake; theProject] notFound theProject startWorld
           eq_refl eq_refl (or_intror (or_introl eq_refl)) eq_refl).
Defined.

(** The theorem at work: [acme/mail] is not listed, and the merge request
    goes to [other/mail]. *)
Lemma namesake_is_accepted :
  exists q,
    In q [unrelated; namesake] /\
    path_with_namespace q <> "acme/mail" /\
    (path_ q = "mail" \/ name q = "mail") /\
    requests (snd (createMergeRequest (searching [unrelated; namesake])
                     config mrInfo startWorld))
    = [ProjectsShow "acme/mail"; ProjectsAll "mail";
       mergeRequestFor mrInfo q (orElse (default_branch q) "main")].
Proof.
  assert (Hnone : forall q, In q [unrelated; namesake] ->
                            path_with_namespace q <> repoName config).
  { intros q [<-|[<-|[]]]; discriminate. }
  exact (@search_accepts_same_name_elsewhere
           (searching [unrelated; namesake]) config mrInfo
           [unrelated; namesake] notFound namesake startWorld
           eq_refl eq_refl Hnone (or_intror (or_introl eq_refl))
           (or_introl eq_refl)).
Defined.

(** The theorem at work: only an unrelated project is listed. *)
Lemma unrelated_project_is_refused :
  fst (createMergeRequest (searching [unrelated]) config mrInfo startWorld)
  = Throw (projectNotFound config) /\
  requests (snd (createMergeRequest (searching [unrelated]) config mrInfo
                   startWorld))
  = [ProjectsShow "acme/mail"; ProjectsAll "mail"].
Proof.
  assert (Hnone : forall q, In q [unrelated] ->
                            matchesLastSegment config q = false).
  { intros q [<-|[]]. reflexivity. }
  exact (proj1 (@merge_request_needs_a_project (searching [unrelated]) config
                  mrInfo notFound startWorld eq_refl)
           [unrelated] eq_refl Hnone).
Defined.

(** The theorem at work: the push is rejected, the run throws, and it
    still ends in [/home/dev] with the workspace gone. *)
Lemma rejected_push_still_ends_at_home :
  cwd (snd (publish rejecting)) = home /\
  isDir (snd (publish rejecting)) (workspace home) = false /\
  fst (publish rejecting)
  = fst (stages rejecting config "welcome_email" "<html></html>" mrInfo
           (started startWorld)).
Proof.
  exact (@run_ends_where_it_started rejecting config "welcome_email"
           "<html></html>" mrInfo startWorld EmptyString eq_refl eq_refl).
Defined.

End RunFacts.

(* ================================================================== *)
(** * The generator, the command and the other publisher *)
(* ================================================================== *)

Module PipelineFacts.
Import Str Clean Js StrFacts Frame JsFacts GitLabManager Observe Scenario.
Import PublisherFacts StepFacts StageFacts RunFacts.
Import CodeGenerator ComandHandler.
Local Open Scope js_scope.

Section Pipeline.
Variable E : env.
Variable config : GitLabConfig.

(** ** generateEmailTemplate *)


(** ** A push that fails *)

Lemma keeps_bind_throws {R} {S : Stepwise R} {A B} (m : M A) (k : A -> M B) :
  frames R m -> (forall w, exists e, fst (m w) = Throw e) ->
  frames R (bind m k).
Proof.
  intros Hm Hthrow w. unfold bind. specialize (Hm w).
  destruct (Hthrow w) as [e He].
  destruct (m w) as [[a|e'] w1]; [discriminate | exact Hm].
Qed.

Lemma cleanup_asksOnly allowed : frames (asksOnly allowed) (cleanup E).
Proof. unfold cleanup, relative. keep. Qed.

Lemma commitAndPush_push_fails (branch message : string) (e : error) :
  (forall dir, execSync E ("git push origin " ++ branch) dir = Throw e) ->
  forall w, exists e', fst (commitAndPush E branch message w) = Throw e'.
Proof.
  intros Hpush w. unfold commitAndPush.
  remember ("git commit -m " ++ dq ++ message ++ dq) as commit.
  remember ("git push origin " ++ branch) as push.
  remember "git add ." as add.
  unfold run, exec, bind, answer, builtin, get, ret, send, log, emit, modify. cbn.
  destruct (execSync E add (cwd w)); cbn; [|eauto].
  destruct (execSync E commit (cwd w)); cbn; [|eauto].
  rewrite Hpush. cbn. eauto.
Qed.

Lemma asksSpawn_until_push (n h : string) (mr : MergeRequestInfo) (e : error) :
  (forall dir, execSync E ("git push origin " ++ branchName mr) dir = Throw e) ->
  frames (asksOnly isSpawn) (stages E config n h mr).
Proof.
  intros Hpush. unfold stages.
  apply keeps_bind; [unfold cloneRepository, relative; keep | intros _].
  apply keeps_bind; [unfold detectDefaultBranch, relative; keep | intros _].
  apply keeps_bind; [unfold createBranch; keep | intros _].
  apply keeps_bind; [unfold saveTemplate; keep | intros _].
  apply keeps_bind_throws;
    [unfold commitAndPush; keep | now apply commitAndPush_push_fails with e].
Qed.

Lemma throws_bind_first {A B} (m : M A) (k : A -> M B) :
  (forall w, exists e, fst (m w) = Throw e) ->
  forall w, exists e, fst (bind m k w) = Throw e.
Proof.
  intros Hm w. unfold bind. destruct (Hm w) as [e He].
  destruct (m w) as [[a|e'] w1]; [discriminate | now exists e'].
Qed.

Lemma throws_bind_later {A B} (m : M A) (k : A -> M B) :
  (forall a w, exists e, fst (k a w) = Throw e) ->
  forall w, exists e, fst (bind m k w) = Throw e.
Proof.
  intros Hk w. unfold bind.
  destruct (m w) as [[a|e'] w1]; [apply Hk | now exists e'].
Qed.

Lemma stages_throw_on_push (n h : string) (mr : MergeRequestInfo) (e : error) :
  (forall dir, execSync E ("git push origin " ++ branchName mr) dir = Throw e) ->
  forall w, exists e', fst (stages E config n h mr w) = Throw e'.
Proof.
  intros Hpush. unfold stages.
  do 4 (apply throws_bind_later; intros _).
  apply throws_bind_first. now apply commitAndPush_push_fails with e.
Qed.

(** Property X20.  When [git push] fails, the run throws and no merge
    request is asked for: child processes are all that left the program. *)
Theorem rejected_push_creates_no_merge_request
  (n h : string) (mr : MergeRequestInfo) (e : error) (w : world) :
  (forall dir, execSync E ("git push origin " ++ branchName mr) dir = Throw e) ->
  let outcome := createTemplateAndMergeRequest E config n h mr w in
  (exists e', fst outcome = Throw e') /\
  asksOnly isSpawn w (snd outcome).
Proof.
  intros Hpush. cbv zeta. split.
  - destruct (stages_throw_on_push n h mr Hpush (started w)) as [e1 He1].
    destruct (stages E config n h mr (started w)) as [[[]|e2] w1] eqn:Hs;
      [discriminate|].
    rewrite (@publisher_stage_throws E config n h mr w w1 e2 Hs).
    destruct (cleanup E (caught e2 w1)) as [[[]|e3] w2]; cbn; eauto.
  - revert w. change (frames (asksOnly isSpawn)
                        (createTemplateAndMergeRequest E config n h mr)).
    unfold createTemplateAndMergeRequest.
    apply keeps_try_catch.
    + apply keeps_bind; [keep | intros _].
      apply keeps_bind; [now apply asksSpawn_until_push with e | intros _].
      apply keeps_bind; [apply cleanup_asksOnly | intros _]. keep.
    + intros e1. apply keeps_bind; [keep | intros _].
      apply keeps_bind; [apply cleanup_asksOnly | intros _]. keep.
Qed.

(** ** The publisher of [cmd_definitions/jira_test/GitLabManager.ts] *)

(** Property X21.  The publisher of [cmd_definitions/jira_test] never
    contacts the hosting service: whatever a run of it does, child processes
    are all that leave the program, and its [createMergeRequest] cannot
    throw. *)
Theorem jira_test_publisher_asks_for_no_merge_request
  (n h : string) (mr : MergeRequestInfo) (w : world) :
  asksOnly isSpawn w
    (snd (GitLabManagerJiraTest.createTemplateAndMergeRequest E config n h mr w)) /\
  fst (GitLabManagerJiraTest.createMergeRequest config mr w) = Return tt.
Proof.
  split; [|reflexivity].
  revert w.
  change (frames (asksOnly isSpawn)
            (GitLabManagerJiraTest.createTemplateAndMergeRequest E config n h mr)).
  unfold GitLabManagerJiraTest.createTemplateAndMergeRequest,
    GitLabManagerJiraTest.cloneRepository,
    GitLabManagerJiraTest.createMergeRequest,
    GitLabManagerJiraTest.cleanup,
    createBranch, saveTemplate, commitAndPush, relative.
  keep.
Qed.

(** ** handleCommand *)

Lemma logEach_keeps {R} {S : Stepwise R} (items : list json) :
  (forall e, frames R (emit e)) -> frames R (logEach items).
Proof.
  intros Hemit. induction items as [|item items IH]; cbn.
  - apply keeps_ret.
  - apply keeps_bind; [apply Hemit | intros _; exact IH].
Qed.

Lemma logVariables_keeps {R} {S : Stepwise R} (variables : json) :
  (forall e, frames R (emit e)) -> frames R (logVariables variables).
Proof.
  intros Hemit. unfold logVariables.
  destruct variables; try apply keeps_throw. now apply logEach_keeps.
Qed.

Ltac keep_pipeline :=
  unfold TemplateAnalyzer.analyzeTicketDescription, TemplateAnalyzer.validate,
    TemplateAnalyzer.ensureTicketPrefix, generateEmailTemplate, logValue;
  cbv zeta; unfold log, logError;
  repeat first
    [ apply logVariables_keeps;
      first [apply emit_sameCwd | apply emit_sameDisk | apply emit_asksOnly]
    | keep_step ].

Lemma local_run_sameCwd (opts : options) (description ticketKey : string) :
  createMr opts = false ->
  frames sameCwd (processDescription E config opts description ticketKey).
Proof. intros Hmr. unfold processDescription. rewrite Hmr. keep_pipeline. Qed.

Lemma local_run_asksOnly (opts : options) (description ticketKey : string) :
  createMr opts = false ->
  frames (asksOnly isPipelineCall)
         (processDescription E config opts description ticketKey).
Proof. intros Hmr. unfold processDescription. rewrite Hmr. keep_pipeline. Qed.

(** Property X22.  Without [--create-mr] the command stays local: it never
    leaves the working directory, spawns no child process and asks the
    hosting service for nothing; the tracker and the two AI backends are all
    it contacts. *)
Theorem handleCommand_without_create_mr_stays_local
  (opts : options) (w : world) :
  createMr opts = false ->
  sameCwd w (snd (handleCommand E config opts w)) /\
  asksOnly isPipelineCall w (snd (handleCommand E config opts w)).
Proof.
  intros Hmr. split; revert w.
  - change (frames sameCwd (handleCommand E config opts)).
    unfold handleCommand, body.
    apply keeps_try_catch; [|intros e; keep].
    destruct (negb (given (task opts))); [keep|].
    cbv zeta. do 10 (apply keeps_bind; [keep | intros ?]).
    destruct (given _); [now apply local_run_sameCwd | keep].
  - change (frames (asksOnly isPipelineCall) (handleCommand E config opts)).
    unfold handleCommand, body.
    apply keeps_try_catch; [|intros e; keep].
    destruct (negb (given (task opts))); [keep|].
    cbv zeta. do 10 (apply keeps_bind; [keep | intros ?]).
    destruct (given _); [now apply local_run_asksOnly | keep].
Qed.

(** Property X23.  A command without a task id contacts nothing; a ticket
    without a description, or with an empty one, ends the command after the
    one request to the tracker. Either way the disk is left as it is. *)
Theorem handleCommand_stops_without_description
  (opts : options) (w : world) :
  let after := snd (handleCommand E config opts w) in
  (given (task opts) = false ->
   requests after = requests w /\ sameDisk w after) /\
  (forall taskId ticket,
     task opts = Some taskId ->
     given (task opts) = true ->
     findIssue E taskId = Return ticket ->
     given (issueDescription ticket) = false ->
     requests after = (requests w ++ [FindIssue taskId])%list /\
     sameDisk w after).
Proof.
  cbv zeta. split.
  - intros Htask. unfold handleCommand, body, try_catch. rewrite Htask.
    cbn. repeat split.
  - intros taskId ticket Hopt Htask Hfind Hdesc.
    unfold handleCommand, body, try_catch. rewrite Htask. cbn.
    assert (Hid : orElse (task opts) EmptyString = taskId).
    { rewrite Hopt in *. cbn in *.
      now destruct (String.eqb taskId EmptyString). }
    rewrite Hid. unfold bind, answer, builtin, send, log, emit, modify, ret.
    rewrite Hfind, Hdesc. cbn. repeat split.
Qed.

(** ** The local copy *)

Lemma bind_returns {A B} (m : M A) (k : A -> M B) (w w' : world) (b : B) :
  bind m k w = (Return b, w') ->
  exists a w1, m w = (Return a, w1) /\ k a w1 = (Return b, w').
Proof.
  unfold bind. destruct (m w) as [[a|e] w1]; [eauto | discriminate].
Qed.

(** A step that leaves the disk alone, taken out of a run that returned. *)
Lemma bind_returns_sameDisk {A B} (m : M A) (k : A -> M B)
  (w0 w w' : world) (b : B) :
  frames sameDisk m ->
  sameDisk w0 w ->
  bind m k w = (Return b, w') ->
  exists a w1, m w = (Return a, w1) /\ sameDisk w0 w1 /\ k a w1 = (Return b, w').
Proof.
  intros Hm Hsame H. apply bind_returns in H as (a & w1 & Hstep & H).
  exists a, w1. split; [exact Hstep|]. split; [|exact H].
  eapply stepwise_trans; [exact Hsame|].
  specialize (Hm w). now rewrite Hstep in Hm.
Qed.

(** What the extractor returns, read off the parsed answer. *)
Lemma analysis_of_parsed
  (description ticketKey : string) (result : json) (w w' : world) :
  TemplateAnalyzer.analyzeTicketDescription E description ticketKey w
  = (Return result, w') ->
  exists text parsed,
    generateContent E description ticketKey = Return text /\
    JSON_parse E (cleanJsonResponse text) = Return parsed /\
    forall key, key <> "branchName" -> field key result = field key parsed.
Proof.
  unfold TemplateAnalyzer.analyzeTicketDescription, try_catch, bind, answer, builtin.
  simpl.
  destruct (generateContent E description ticketKey) as [text|e] eqn:Hg;
    [|discriminate].
  destruct (JSON_parse E (cleanJsonResponse text)) as [parsed|e] eqn:Hp;
    [|discriminate].
  unfold TemplateAnalyzer.validate.
  destruct parsed as [ | | | | |members]; try discriminate;
    destruct (TemplateAnalyzer.missingRequired _); try discriminate;
    unfold TemplateAnalyzer.ensureTicketPrefix, member; try discriminate.
  destruct (lookup "branchName" members) as [[ | | |b| | ]|]; try discriminate.
  destruct (negb _); simpl; intros H; injection H as <- _;
    exists text, (JObject members); (split; [reflexivity|]);
    (split; [exact Hp|]); intros key Hkey; [|reflexivity].
  unfold field, member. rewrite AnalyzerFacts.lookup_assign_other; [reflexivity|].
  apply String.eqb_neq. congruence.
Qed.

(** What the generator returns. *)
Lemma generated_code
  (templateName description variables : json) (html : string) (w w' : world) :
  generateEmailTemplate E templateName description variables w
  = (Return html, w') ->
  exists code rest,
    messagesCreate E templateName description variables
    = Return (TextBlock code :: rest) /\
    html = cleanGeneratedCode code.
Proof.
  unfold generateEmailTemplate, try_catch, bind, answer, builtin, ret, throw, send,
    logError, emit, modify.
  destruct variables; cbn; try discriminate.
  destruct (messagesCreate E _ _ _) as [[|[code|] rest]|e0] eqn:Hm; cbn;
    try discriminate.
  intros H. injection H as <- _. eauto.
Qed.

(** The steps of lines 74-81, in a run that returned. *)
Lemma saved_steps (dir : path) (fileName html : string) (k : M unit)
  (w w' : world) :
  (present <- existsSync dir ;;
   when (negb present) (mkdirSync E dir) ;;
   writeFileSync E (pathJoin dir fileName) html ;;
   k) w = (Return tt, w') ->
  exists w1,
    k w1 = (Return tt, w') /\
    cwd w1 = cwd w /\
    files w1
    = (pathJoin dir fileName, html)
      :: filter (fun f => negb (path_eqb (pathJoin dir fileName) (fst f)))
                (files w).
Proof.
  unfold existsSync, mkdirSync, writeFileSync, when, bind, get, ret, modify,
    throw. cbn.
  destruct (negb _); cbn;
    repeat match goal with
           | |- context [match ?o with Some _ => _ | None => _ end] =>
               destruct o; cbn; try discriminate
           end;
    intros H; eexists; (split; [exact H|]); split; reflexivity.
Qed.

Ltac through H Hsame :=
  let a := fresh "a" in
  let w1 := fresh "w" in
  let Hstep := fresh "Hstep" in
  let Hnew := fresh "Hsame" in
  apply (@bind_returns_sameDisk _ _ _ _ _ _ _ _) with (2 := Hsame) in H;
    [ destruct H as (a & w1 & Hstep & Hnew & H); clear Hsame;
      rename Hnew into Hsame
    | keep_pipeline ].

(** Property X24.  When the pipeline returns without [--create-mr], the
    file at the path that [path.join] makes of the working directory,
    [templates] and [NAME.html] holds the cleaned text of the first block
    the code backend answered, where [NAME] is what a template literal
    prints for the template name in the parsed answer of the metadata
    backend. *)
Theorem local_copy_holds_generated_code
  (opts : options) (description ticketKey : string) (w w' : world) :
  createMr opts = false ->
  processDescription E config opts description ticketKey w = (Return tt, w') ->
  exists text parsed code rest,
    generateContent E description ticketKey = Return text /\
    JSON_parse E (cleanJsonResponse text) = Return parsed /\
    messagesCreate E (field "templateName" parsed) (field "description" parsed)
                   (field "variables" parsed)
    = Return (TextBlock code :: rest) /\
    readFile w' (pathJoin (pathJoin (cwd w) "templates")
                          (toStr (field "templateName" parsed) ++ ".html"))
    = Some (cleanGeneratedCode code).
Proof.
  intros Hmr H. unfold processDescription in H. rewrite Hmr in H.
  assert (Hsame : sameDisk w w) by apply stepwise_refl.
  do 2 through H Hsame.
  apply bind_returns_sameDisk with (2 := Hsame) in H; [|keep_pipeline].
  destruct H as (analysis & wa & Hanalysis & Hsame2 & H). clear Hsame.
  apply analysis_of_parsed in Hanalysis
    as (text & parsed & Htext & Hparsed & Hfields).
  do 14 through H Hsame2.
  apply bind_returns_sameDisk with (2 := Hsame2) in H; [|keep_pipeline].
  destruct H as (html & wg & Hhtml & Hsame3 & H). clear Hsame2.
  apply generated_code in Hhtml as (code & rest & Hcode & ->).
  unfold bind at 1 in H. cbn [get] in H. cbv zeta in H.
  apply saved_steps in H as (ws & H & Hcwd4 & Hfiles4).
  assert (Hlast : sameDisk ws w').
  { match type of H with
    | ?k ws = _ => assert (Hk : frames sameDisk k) by keep
    end.
    specialize (Hk ws). now rewrite H in Hk. }
  exists text, parsed, code, rest.
  split; [exact Htext|]. split; [exact Hparsed|].
  rewrite !Hfields in Hcode by discriminate. split; [exact Hcode|].
  destruct Hlast as (_ & _ & Hfiles'). destruct Hsame3 as (Hcwd3 & _ & Hfiles3).
  unfold readFile. rewrite Hfiles', Hfiles4, Hcwd3.
  rewrite (Hfields "templateName") by discriminate.
  now rewrite find_written, path_eqb_refl.
Qed.

End Pipeline.


(** The theorem at work: the push is rejected. *)
Lemma rejected_push_leaves_only_child_processes :
  (exists e', fst (publish rejecting) = Throw e') /\
  asksOnly isSpawn startWorld (snd (publish rejecting)).
Proof.
  exact (@rejected_push_creates_no_merge_request rejecting config
           "welcome_email" "<html></html>" mrInfo pushRejected startWorld
           (fun dir => eq_refl)).
Defined.

(** The theorem at work on a ticket that goes through. *)
Lemma local_run_of_PROJ_123_stays_local :
  sameCwd startWorld (snd (handleCommand working config localRun startWorld)) /\
  asksOnly isPipelineCall startWorld
    (snd (handleCommand working config localRun startWorld)).
Proof.
  exact (@handleCommand_without_create_mr_stays_local working config localRun
           startWorld eq_refl).
Defined.

(** The theorem at work: the welcome email of ticket PROJ-123 is saved
    without its fence, and under the name [1e+21.html] when the metadata
    backend names the template [1e21]. *)
Lemma welcome_email_saved_locally :
  readFile (snd (processDescription working config localRun
                   "Add a welcome email" "PROJ-123" startWorld))
           ["home"; "dev"; "templates"; "welcome_email.html"]
  = Some welcomeHtml /\
  readFile (snd (processDescription numbered config localRun
                   "Add a welcome email" "PROJ-123" startWorld))
           ["home"; "dev"; "templates"; "1e+21.html"]
  = Some welcomeHtml.
Proof.
  split.
  - assert (H : processDescription working config localRun
                  "Add a welcome email" "PROJ-123" startWorld
                = (Return tt,
                   snd (processDescription working config localRun
                          "Add a welcome email" "PROJ-123" startWorld)))
      by (vm_compute; reflexivity).
    destruct (@local_copy_holds_generated_code working config localRun
                "Add a welcome email" "PROJ-123" startWorld _ eq_refl H)
      as (text & parsed & code & rest & Htext & Hparsed & Hcode & Hfile).
    vm_compute in Htext. injection Htext as <-.
    vm_compute in Hparsed. injection Hparsed as <-.
    vm_compute in Hcode. injection Hcode as <- <-.
    vm_compute in Hfile. vm_compute. exact Hfile.
  - assert (H : processDescription numbered config localRun
                  "Add a welcome email" "PROJ-123" startWorld
                = (Return tt,
                   snd (processDescription numbered config localRun
                          "Add a welcome email" "PROJ-123" startWorld)))
      by (vm_compute; reflexivity).
    destruct (@local_copy_holds_generated_code numbered config localRun
                "Add a welcome email" "PROJ-123" startWorld _ eq_refl H)
      as (text & parsed & code & rest & Htext & Hparsed & Hcode & Hfile).
    vm_compute in Htext. injection Htext as <-.
    vm_compute in Hparsed. injection Hparsed as <-.
    vm_compute in Hcode. injection Hcode as <- <-.
    vm_compute in Hfile. vm_compute. exact Hfile.
Defined.

(** The theorem at work: no task id, and a ticket without a
    description. *)
Lemma commands_that_stop_early :
  (requests (snd (handleCommand healthy config noTask startWorld)) = [] /\
   sameDisk startWorld (snd (handleCommand healthy config noTask startWorld))) /\
  (requests (snd (handleCommand healthy config localRun startWorld))
   = [FindIssue "PROJ-123"] /\
   sameDisk startWorld (snd (handleCommand healthy config localRun startWorld))).
Proof.
  split.
  - exact (proj1 (@handleCommand_stops_without_description healthy config
                    noTask startWorld) eq_refl).
  - exact (proj2 (@handleCommand_stops_without_description healthy config
                    localRun startWorld)
             "PROJ-123" (Issue "PROJ-123" "Welcome email" "Open" None)
             eq_refl eq_refl eq_refl eq_refl).
Defined.

End PipelineFacts.

(* ================================================================== *)
(** * A cleanup that fails *)
(* ================================================================== *)

Module CleanupFacts.
Import Str Clean Js StrFacts Frame JsFacts GitLabManager Observe Scenario.
Import PublisherFacts StepFacts StageFacts RunFacts PipelineFacts.
Local Open Scope js_scope.

Section Run.
Variable E : env.
Variable config : GitLabConfig.

Lemma cloneRepository_sameCwd : frames sameCwd (cloneRepository E config).
Proof. unfold cloneRepository, relative. keep. Qed.

(** A [createBranch] that returns has entered the workspace. *)
Lemma createBranch_returns_inside (branch : string) (w w' : world) :
  createBranch E branch w = (Return tt, w') -> cwd w' = workspace (cwd w).
Proof.
  unfold createBranch, run, exec, chdir, bind, answer, builtin, get, ret, send, log,
    emit, modify, resolve, workspace. cbn.
  match goal with |- context [if ?b then _ else _] => destruct b end; cbn;
    [|discriminate].
  destruct (execSync E _ _); cbn; [|discriminate].
  intros H. injection H as <-. reflexivity.
Qed.

(** Stages that all return leave the process in the workspace. *)
Lemma stages_return_inside (n h : string) (mr : MergeRequestInfo)
  (w w1 : world) :
  stages E config n h mr w = (Return tt, w1) -> cwd w1 = workspace (cwd w).
Proof.
  unfold stages. intros H.
  apply bind_returns in H as ([] & wa & Ha & H).
  apply bind_returns in H as ([] & wb & Hb & H).
  apply bind_returns in H as ([] & wc & Hc & H).
  apply bind_returns in H as ([] & wd & Hd & H).
  apply bind_returns in H as ([] & we & He & H).
  pose proof (cloneRepository_sameCwd w) as Ka. rewrite Ha in Ka.
  destruct (detectDefaultBranch_sameDisk E wa) as (Kb & _). rewrite Hb in Kb.
  apply createBranch_returns_inside in Hc.
  pose proof (saveTemplate_sameCwd E n h wc) as Kd. rewrite Hd in Kd.
  pose proof (commitAndPush_sameCwd E (branchName mr) (commitMessage mr) wd) as Ke.
  rewrite He in Ke.
  pose proof (createMergeRequest_sameCwd E config mr we) as Kf. rewrite H in Kf.
  unfold sameCwd in *. cbn in *. congruence.
Qed.

(** Claim C1, on the code.  When every stage returns and the [cleanup] of
    line 80 throws, the [catch] of line 87 runs [cleanup] again: it has
    run twice when the error reaches the caller, and its second
    [chdir('..')] leaves the process in the parent of the directory the
    run was started in. *)
Theorem failed_cleanup_runs_again
  (n h : string) (mr : MergeRequestInfo) (w w1 w2 : world) (e : thrown) :
  stages E config n h mr (started w) = (Return tt, w1) ->
  cleanup E w1 = (Throw e, w2) ->
  let outcome := createTemplateAndMergeRequest E config n h mr w in
  (exists e', fst outcome = Throw e') /\
  cleanupRuns (snd outcome) = 2 + cleanupRuns w /\
  cwd (snd outcome) = removelast (cwd w).
Proof.
  intros Hs Hc. cbv zeta.
  rewrite (@publisher_stages_return E config n h mr w w1 Hs), Hc.
  pose proof (@stages_return_inside n h mr (started w) w1 Hs) as Hin.
  change (cwd (started w)) with (cwd w) in Hin.
  pose proof (@stages_sameRuns E config n h mr (started w)) as Hr1.
  rewrite Hs, started_sameRuns in Hr1. cbn [snd] in Hr1.
  pose proof (cleanup_counted E w1) as Hr2. rewrite Hc in Hr2. cbn [snd] in Hr2.
  pose proof (cleanup_cwd E w1) as Hd2. rewrite Hc in Hd2. cbn [snd] in Hd2.
  pose proof (cleanup_counted E (caught e w2)) as Hr3.
  pose proof (cleanup_cwd E (caught e w2)) as Hd3.
  rewrite caught_sameRuns in Hr3.
  change (cwd (caught e w2)) with (cwd w2) in Hd3.
  assert (Hback : cwd w2 = cwd w).
  { rewrite Hd2, Hin. unfold workspace. apply removelast_last. }
  destruct (cleanup E (caught e w2)) as [[[]|e3] w3]; cbn [fst snd] in *;
    (split; [eauto|]); (split; [lia | congruence]).
Qed.

End Run.

(** The theorem at work: every stage succeeds, the workspace cannot be
    removed; [cleanup] runs twice and the run, started in [/home/dev],
    ends in [/home] with the workspace still there. *)
Lemma busy_workspace_is_cleaned_twice :
  let outcome := publish (collaborators allSucceed workspaceBusy) in
  fst outcome = Throw busy /\
  cleanupRuns (snd outcome) = 2 /\
  cwd (snd outcome) = ["home"] /\
  isDir (snd outcome) (workspace home) = true.
Proof.
  pose (E := collaborators allSucceed workspaceBusy).
  pose (w1 := snd (stages E config "welcome_email" "<html></html>" mrInfo
                     (started startWorld))).
  assert (Hs : stages E config "welcome_email" "<html></html>" mrInfo
                 (started startWorld) = (Return tt, w1))
    by (vm_compute; reflexivity).
  assert (Hc : cleanup E w1 = (Throw busy, snd (cleanup E w1)))
    by (vm_compute; reflexivity).
  destruct (@failed_cleanup_runs_again E config "welcome_email" "<html></html>"
              mrInfo startWorld w1 _ busy Hs Hc) as (_ & Hruns & Hcwd).
  cbv zeta. fold E.
  split; [vm_compute; reflexivity|].
  split; [exact Hruns|]. split; [exact Hcwd|].
  vm_compute. reflexivity.
Defined.

End CleanupFacts.
